(** * Jira-Feedback: the field-collection conversation engine

    A shallow embedding of [src/agents/jira_agent.py], of the data
    classes of [src/models/schemas.py] and of the fields that
    [create_issue] of [src/services/jira_service.py] sends, with the
    properties of the conversation engine that the specification states
    and further properties read off the code.

    Conventions of the embedding.

    - A Python [str] is a Rocq [string]; each character stands for the
      Unicode code point with the same number, so the model covers the
      texts whose code points are below 256.  The character tables below
      ([isspace_char], [isdigit_char], ...) follow CPython's Unicode
      database on that range.
    - A raised exception is a value: fallible code returns [result].
    - Mutation of the conversation state is explicit state passing.
    - The language model and the iteration order of Python sets are
      external to the code; they are arguments of the functions that
      depend on them ([llm_outcome], [set_iteration]). *)

From Stdlib Require Import String Ascii List Bool Arith NArith ZArith Lia.
From Stdlib Require Import DecimalString Sorted.
Import ListNotations.

Local Open Scope string_scope.
Local Open Scope list_scope.

(** ** Python text primitives *)

Module Py.

(** The code point of a character. *)
Definition code (c : ascii) : N := N_of_ascii c.

Definition between (lo hi : N) (c : ascii) : bool :=
  (lo <=? code c)%N && (code c <=? hi)%N.

Definition is_code (n : N) (c : ascii) : bool := (code c =? n)%N.

(** [str.isspace] on one character: TAB..CR, FS..US, SPACE, NEL, NBSP. *)
Definition isspace_char (c : ascii) : bool :=
  between 9 13 c || between 28 32 c || is_code 133 c || is_code 160 c.

(** [str.isdecimal]: category Nd, which below 256 is 0-9. *)
Definition isdecimal_char (c : ascii) : bool := between 48 57 c.

(** [str.isdigit]: the decimal digits and the superscripts 2, 3 and 1
    (U+00B2, U+00B3, U+00B9). *)
Definition isdigit_char (c : ascii) : bool :=
  isdecimal_char c || is_code 178 c || is_code 179 c || is_code 185 c.

(** [str.isnumeric]: the digits and the fractions U+00BC..U+00BE. *)
Definition isnumeric_char (c : ascii) : bool :=
  isdigit_char c || between 188 190 c.

Definition isalpha_char (c : ascii) : bool :=
  between 65 90 c || between 97 122 c
  || is_code 170 c || is_code 181 c || is_code 186 c
  || between 192 214 c || between 216 246 c || between 248 255 c.

(** The class [\w] of [re] on [str] patterns: alphanumerics and [_]. *)
Definition isword_char (c : ascii) : bool :=
  isalpha_char c || isnumeric_char c || is_code 95 c.

(** [str.lower] on one character. *)
Definition lower_char (c : ascii) : ascii :=
  if between 65 90 c || between 192 214 c || between 216 222 c
  then ascii_of_N (code c + 32)
  else c.

Fixpoint lower (s : string) : string :=
  match s with
  | EmptyString => EmptyString
  | String c s' => String (lower_char c) (lower s')
  end.

(** [str.upper].  U+00DF uppercases to the two letters SS.  U+00B5 and
    U+00FF uppercase to code points above 255, which a [string] cannot
    hold: they are left as they are.  The only use of [upper] in the
    source feeds the ASCII pattern of issue keys, which rejects a text
    holding either of them before and after uppercasing. *)
Definition upper_char (c : ascii) : string :=
  if between 97 122 c || between 224 246 c || between 248 254 c
  then String (ascii_of_N (code c - 32)) EmptyString
  else if is_code 223 c then "SS"
  else String c EmptyString.

Fixpoint upper (s : string) : string :=
  match s with
  | EmptyString => EmptyString
  | String c s' => upper_char c ++ upper s'
  end.

Definition is_empty (s : string) : bool :=
  match s with EmptyString => true | String _ _ => false end.

Fixpoint lstrip (s : string) : string :=
  match s with
  | EmptyString => EmptyString
  | String c s' => if isspace_char c then lstrip s' else s
  end.

Fixpoint rstrip (s : string) : string :=
  match s with
  | EmptyString => EmptyString
  | String c s' =>
      let r := rstrip s' in
      if isspace_char c && is_empty r then EmptyString else String c r
  end.

(** [str.strip()] with no argument. *)
Definition strip (s : string) : string := rstrip (lstrip s).

Fixpoint forallb_string (p : ascii -> bool) (s : string) : bool :=
  match s with
  | EmptyString => true
  | String c s' => p c && forallb_string p s'
  end.

(** [str.isdigit()]: at least one character, all of them digits. *)
Definition isdigit (s : string) : bool :=
  negb (is_empty s) && forallb_string isdigit_char s.

(** [s.replace(c, by)] for a one-character pattern. *)
Fixpoint replace (c : ascii) (by_ : string) (s : string) : string :=
  match s with
  | EmptyString => EmptyString
  | String a s' =>
      (if Ascii.eqb a c then by_ else String a EmptyString) ++ replace c by_ s'
  end.

(** [s.split(sep)] for a one-character separator. *)
Fixpoint split (sep : ascii) (s : string) : list string :=
  match s with
  | EmptyString => [EmptyString]
  | String a s' =>
      if Ascii.eqb a sep then EmptyString :: split sep s'
      else match split sep s' with
           | piece :: rest => String a piece :: rest
           | [] => [String a EmptyString]
           end
  end.

(** [kw in s] on strings: [kw] occurs in [s]. *)
Fixpoint contains (kw s : string) : bool :=
  String.prefix kw s ||
  match s with
  | EmptyString => false
  | String _ s' => contains kw s'
  end.

(** [x in xs] on a list, a tuple or a set of strings. *)
Definition mem (x : string) (xs : list string) : bool :=
  existsb (String.eqb x) xs.

(** [re.findall(r'\b\w+\b', s)]: the maximal runs of word characters,
    from left to right. *)
Fixpoint findall_words (s : string) : list string :=
  match s with
  | EmptyString => []
  | String c s' =>
      if isword_char c then
        match s' with
        | String c' _ =>
            if isword_char c' then
              match findall_words s' with
              | w :: ws => String c w :: ws
              | [] => [String c EmptyString]
              end
            else String c EmptyString :: findall_words s'
        | EmptyString => [String c EmptyString]
        end
      else findall_words s'
  end.

(** [", ".join(xs)]. *)
Fixpoint join (sep : string) (xs : list string) : string :=
  match xs with
  | [] => EmptyString
  | [x] => x
  | x :: rest => x ++ sep ++ join sep rest
  end.

(** [str(n)] for a length. *)
Definition str_of_nat (n : nat) : string :=
  NilZero.string_of_uint (Nat.to_uint n).

End Py.

(** ** Exceptions and results *)

(** The exceptions the engine can raise.  [ValueError_int t] is the
    [ValueError] of [int(t)] on a text that is not a decimal literal;
    [ValueError_int_limit n] the one of [int] on a literal of [n]
    digits, more than the interpreter converts;
    [ValueError_enum cls v] the one of an enum constructor on a text
    that is not a value of the class. *)
Inductive exn : Type :=
| ValueError_int (t : string)
| ValueError_int_limit (digits : nat)
| ValueError_enum (cls value : string).

Inductive result (A : Type) : Type :=
| Ok (a : A)
| Raise (e : exn).

Arguments Ok {A} a.
Arguments Raise {A} e.

Definition bind {A B : Type} (m : result A) (k : A -> result B) : result B :=
  match m with
  | Ok a => k a
  | Raise e => Raise e
  end.

Notation "x <- m ;; k" := (bind m (fun x => k))
  (at level 61, m at next level, right associativity).

(** The value of a text made of decimal digits, most significant first. *)
Fixpoint decimal_value (acc : Z) (s : string) : Z :=
  match s with
  | EmptyString => acc
  | String c s' => decimal_value (10 * acc + Z.of_N (Py.code c - 48)) s'
  end.

(** The longest decimal literal [int] converts: CPython's default
    limit, [sys.int_info.default_max_str_digits]. *)
Definition int_max_str_digits : nat := 4300.

(** [int(t)].  The source calls it only on a text that passed
    [str.isdigit], where it succeeds exactly when every character is a
    decimal digit and there are no more of them than the limit: a
    superscript digit passes [isdigit] and is refused by [int]. *)
Definition py_int (t : string) : result Z :=
  if negb (Py.is_empty t) && Py.forallb_string Py.isdecimal_char t
  then
    if (int_max_str_digits <? String.length t)%nat
    then Raise (ValueError_int_limit (String.length t))
    else Ok (decimal_value 0 t)
  else Raise (ValueError_int t).

(** ** Data classes ([src/models/schemas.py]) *)

Inductive Intent : Type :=
| CREATE_ISSUE | UPDATE_ISSUE | QUERY_ISSUE | SEARCH_ISSUES | HELP | UNKNOWN.

Inductive IssueType : Type := TASK | STORY | EPIC.

Inductive Priority : Type := LOWEST | LOW | MEDIUM | HIGH | HIGHEST.

Inductive IssueStatus : Type := TO_DO | IN_PROGRESS | IN_REVIEW | DONE.

Definition Intent_eqb (a b : Intent) : bool :=
  match a, b with
  | CREATE_ISSUE, CREATE_ISSUE | UPDATE_ISSUE, UPDATE_ISSUE
  | QUERY_ISSUE, QUERY_ISSUE | SEARCH_ISSUES, SEARCH_ISSUES
  | HELP, HELP | UNKNOWN, UNKNOWN => true
  | _, _ => false
  end.

Definition IssueType_value (t : IssueType) : string :=
  match t with TASK => "Task" | STORY => "Story" | EPIC => "Epic" end.

Definition Priority_value (p : Priority) : string :=
  match p with
  | LOWEST => "Lowest" | LOW => "Low" | MEDIUM => "Medium"
  | HIGH => "High" | HIGHEST => "Highest"
  end.

Definition IssueStatus_value (s : IssueStatus) : string :=
  match s with
  | TO_DO => "To Do" | IN_PROGRESS => "In Progress"
  | IN_REVIEW => "In Review" | DONE => "Done"
  end.

(** [Cls(value)]: the member of an enum class with the given value. *)
Definition enum_of_value {A : Type} (cls : string) (members : list A)
    (value_of : A -> string) (v : string) : result A :=
  match find (fun m => String.eqb (value_of m) v) members with
  | Some m => Ok m
  | None => Raise (ValueError_enum cls v)
  end.

Definition IssueType_of_value : string -> result IssueType :=
  enum_of_value "IssueType" [TASK; STORY; EPIC] IssueType_value.

Definition Priority_of_value : string -> result Priority :=
  enum_of_value "Priority" [LOWEST; LOW; MEDIUM; HIGH; HIGHEST] Priority_value.

Definition IssueStatus_of_value : string -> result IssueStatus :=
  enum_of_value "IssueStatus" [TO_DO; IN_PROGRESS; IN_REVIEW; DONE]
    IssueStatus_value.

Record ExtractedIssueData : Type := mkIssueData {
  issue_type : option IssueType;
  priority : option Priority;
  summary : option string;
  description : option string;
  assignee : option string;
  project_key : option string;
  labels : list string;
  issue_key : option string;
  status : option IssueStatus;
  due_date : option string;
  start_date : option string;
  parent_key : option string
}.

(** [ExtractedIssueData()]: every field at its default. *)
Definition empty_issue_data : ExtractedIssueData :=
  mkIssueData None None None None None None [] None None None None None.

Definition set_issue_type (v : option IssueType) (d : ExtractedIssueData) :=
  mkIssueData v (priority d) (summary d) (description d) (assignee d)
    (project_key d) (labels d) (issue_key d) (status d) (due_date d)
    (start_date d) (parent_key d).

Definition set_priority (v : option Priority) (d : ExtractedIssueData) :=
  mkIssueData (issue_type d) v (summary d) (description d) (assignee d)
    (project_key d) (labels d) (issue_key d) (status d) (due_date d)
    (start_date d) (parent_key d).

Definition set_summary (v : option string) (d : ExtractedIssueData) :=
  mkIssueData (issue_type d) (priority d) v (description d) (assignee d)
    (project_key d) (labels d) (issue_key d) (status d) (due_date d)
    (start_date d) (parent_key d).

Definition set_description (v : option string) (d : ExtractedIssueData) :=
  mkIssueData (issue_type d) (priority d) (summary d) v (assignee d)
    (project_key d) (labels d) (issue_key d) (status d) (due_date d)
    (start_date d) (parent_key d).

Definition set_assignee (v : option string) (d : ExtractedIssueData) :=
  mkIssueData (issue_type d) (priority d) (summary d) (description d) v
    (project_key d) (labels d) (issue_key d) (status d) (due_date d)
    (start_date d) (parent_key d).

Definition set_project_key (v : option string) (d : ExtractedIssueData) :=
  mkIssueData (issue_type d) (priority d) (summary d) (description d)
    (assignee d) v (labels d) (issue_key d) (status d) (due_date d)
    (start_date d) (parent_key d).

Definition set_labels (v : list string) (d : ExtractedIssueData) :=
  mkIssueData (issue_type d) (priority d) (summary d) (description d)
    (assignee d) (project_key d) v (issue_key d) (status d) (due_date d)
    (start_date d) (parent_key d).

Definition set_issue_key (v : option string) (d : ExtractedIssueData) :=
  mkIssueData (issue_type d) (priority d) (summary d) (description d)
    (assignee d) (project_key d) (labels d) v (status d) (due_date d)
    (start_date d) (parent_key d).

Definition set_status (v : option IssueStatus) (d : ExtractedIssueData) :=
  mkIssueData (issue_type d) (priority d) (summary d) (description d)
    (assignee d) (project_key d) (labels d) (issue_key d) v (due_date d)
    (start_date d) (parent_key d).

Definition set_due_date (v : option string) (d : ExtractedIssueData) :=
  mkIssueData (issue_type d) (priority d) (summary d) (description d)
    (assignee d) (project_key d) (labels d) (issue_key d) (status d) v
    (start_date d) (parent_key d).

Definition set_start_date (v : option string) (d : ExtractedIssueData) :=
  mkIssueData (issue_type d) (priority d) (summary d) (description d)
    (assignee d) (project_key d) (labels d) (issue_key d) (status d)
    (due_date d) v (parent_key d).

Definition set_parent_key (v : option string) (d : ExtractedIssueData) :=
  mkIssueData (issue_type d) (priority d) (summary d) (description d)
    (assignee d) (project_key d) (labels d) (issue_key d) (status d)
    (due_date d) (start_date d) v.

(** The text of a reply.  The engine builds its prompts from a fixed
    template per field, an optional error line and, for the labels
    field, the labels collected so far; the rendering of the template
    (which for the two date fields quotes today's date) is not part of
    the model.  [Text] is a literal text. *)
Inductive message : Type :=
| FieldPrompt (error : option string) (field : string) (shown_labels : list string)
| ReadyText (work_type : option IssueType)
| Text (s : string).

(** The error descriptor of a response: a literal text, or [str(e)] of
    a caught exception. *)
Inductive error_text : Type :=
| ErrText (s : string)
| ErrException (e : exn).

(** A confidence is one of the two constants the engine writes, or the
    number the extractor reported (kept as written). *)
Inductive confidence_value : Type :=
| Confidence_1_0
| Confidence_0_0
| Confidence_reported (digits : string).

Record AgentResponse : Type := mkResponse {
  intent : Intent;
  confidence : confidence_value;
  extracted_data : ExtractedIssueData;
  missing_fields : list string;
  next_question : option message;
  ready_for_jira : bool;
  response_message : message;
  error : option error_text
}.

(** One line of the conversation history. *)
Inductive history_entry : Type :=
| UserSaid (m : string)
| AgentSaid (m : message).

Record ConversationState : Type := mkState {
  user_phone : string;
  current_intent : option Intent;
  partial_issue_data : ExtractedIssueData;
  conversation_history : list history_entry;
  awaiting_field : option string;
  last_activity : option string
}.

(** [ConversationState(user_phone=...)]. *)
Definition new_conversation_state (phone : string) : ConversationState :=
  mkState phone None empty_issue_data [] None None.

Definition with_partial (d : ExtractedIssueData) (st : ConversationState) :=
  mkState (user_phone st) (current_intent st) d (conversation_history st)
    (awaiting_field st) (last_activity st).

Definition with_awaiting (f : option string) (st : ConversationState) :=
  mkState (user_phone st) (current_intent st) (partial_issue_data st)
    (conversation_history st) f (last_activity st).

Definition with_intent (i : option Intent) (st : ConversationState) :=
  mkState (user_phone st) i (partial_issue_data st)
    (conversation_history st) (awaiting_field st) (last_activity st).

Definition history_append (e : history_entry) (st : ConversationState) :=
  mkState (user_phone st) (current_intent st) (partial_issue_data st)
    (conversation_history st ++ [e]) (awaiting_field st) (last_activity st).

(** Python truthiness of an optional text: [None] and the empty text
    are false. *)
Definition truthy (o : option string) : bool :=
  match o with
  | Some s => negb (Py.is_empty s)
  | None => false
  end.

(** Truthiness of an optional enum member (every member is true). *)
Definition is_some {A : Type} (o : option A) : bool :=
  match o with Some _ => true | None => false end.

(** ** Field registry *)

Definition CHOICE_MAPS : list (string * list string) :=
  [ ("issue_type", ["Task"; "Story"; "Epic"]);
    ("priority", ["Highest"; "High"; "Medium"; "Low"; "Lowest"]);
    ("status", ["To Do"; "In Progress"; "In Review"]) ].

Definition FIELD_ORDER : list string :=
  [ "issue_type"; "priority"; "status"; "summary"; "description";
    "assignee"; "start_date"; "due_date"; "parent_key"; "labels" ].

(** [field in CHOICE_MAPS]. *)
Definition in_CHOICE_MAPS (field : string) : bool :=
  existsb (fun kv => String.eqb (fst kv) field) CHOICE_MAPS.

(** [CHOICE_MAPS.get(field, [])]. *)
Definition CHOICE_MAPS_get (field : string) : list string :=
  match find (fun kv => String.eqb (fst kv) field) CHOICE_MAPS with
  | Some kv => snd kv
  | None => []
  end.

(** [opt.lower().replace(" ", "").replace("-", "")]. *)
Definition normalized (opt : string) : string :=
  Py.replace "-" EmptyString (Py.replace " " EmptyString (Py.lower opt)).

(** The numeric reply of [interpret_choice]: the option at the 1-based
    index [t], when [t] is a digit text and the index is in range. *)
Definition numeric_reply (opts : list string) (t : string)
    : result (option string) :=
  if Py.isdigit t then
    n <- py_int t ;;
    let i := (n - 1)%Z in
    if (0 <=? i)%Z && (i <? Z.of_nat (length opts))%Z
    then Ok (nth_error opts (Z.to_nat i))
    else Ok None
  else Ok None.

(** The text reply: the first option that [t] spells, in lower case or
    in lower case without spaces and hyphens. *)
Definition text_reply (opts : list string) (t : string) : option string :=
  find (fun opt => Py.mem t [Py.lower opt; normalized opt]) opts.

Definition interpret_choice (field text : string) : result (option string) :=
  let t := Py.lower (Py.strip text) in
  r <- numeric_reply (CHOICE_MAPS_get field) t ;;
  match r with
  | Some opt => Ok (Some opt)
  | None => Ok (text_reply (CHOICE_MAPS_get field) t)
  end.

(** ** Validators *)

(** The regular expressions of the source, matched by derivatives. *)
Inductive regex : Type :=
| Void
| Eps
| Class (p : ascii -> bool)
| Seq (r1 r2 : regex)
| Alt (r1 r2 : regex)
| Star (r : regex).

Fixpoint nullable (r : regex) : bool :=
  match r with
  | Void => false
  | Eps => true
  | Class _ => false
  | Seq r1 r2 => nullable r1 && nullable r2
  | Alt r1 r2 => nullable r1 || nullable r2
  | Star _ => true
  end.

Fixpoint deriv (c : ascii) (r : regex) : regex :=
  match r with
  | Void => Void
  | Eps => Void
  | Class p => if p c then Eps else Void
  | Seq r1 r2 =>
      if nullable r1
      then Alt (Seq (deriv c r1) r2) (deriv c r2)
      else Seq (deriv c r1) r2
  | Alt r1 r2 => Alt (deriv c r1) (deriv c r2)
  | Star r1 => Seq (deriv c r1) (Star r1)
  end.

Fixpoint fullmatch (r : regex) (s : string) : bool :=
  match s with
  | EmptyString => nullable r
  | String c s' => fullmatch (deriv c r) s'
  end.

Definition Plus (r : regex) : regex := Seq r (Star r).

Definition Chr (c : ascii) : regex := Class (Ascii.eqb c).

(** [re.match('^' + r + '$', s)] as a truth value: [$] stands at the
    end of the text or before a newline that ends it. *)
Definition re_match_anchored (r : regex) (s : string) : bool :=
  fullmatch (Seq r (Alt Eps (Class (Py.is_code 10)))) s.

Definition ascii_letter (c : ascii) : bool :=
  Py.between 65 90 c || Py.between 97 122 c.

Definition ascii_alnum (c : ascii) : bool :=
  ascii_letter c || Py.between 48 57 c.

(** [[a-zA-Z0-9._%+-]] *)
Definition email_local_char (c : ascii) : bool :=
  ascii_alnum c || Py.mem (String c EmptyString) ["."; "_"; "%"; "+"; "-"].

(** [[a-zA-Z0-9.-]] *)
Definition email_domain_char (c : ascii) : bool :=
  ascii_alnum c || Py.mem (String c EmptyString) ["."; "-"].

(** [[a-zA-Z0-9._%+-]+@[a-zA-Z0-9.-]+\.[a-zA-Z]{2,}] *)
Definition email_pattern : regex :=
  Seq (Plus (Class email_local_char))
   (Seq (Chr "@")
    (Seq (Plus (Class email_domain_char))
     (Seq (Chr ".")
      (Seq (Class ascii_letter) (Plus (Class ascii_letter)))))).

Definition validate_email (email : string) : bool :=
  if Py.is_empty (Py.strip email) then true
  else re_match_anchored email_pattern (Py.strip email).

(** [[A-Z]+-\d+] *)
Definition issue_key_pattern : regex :=
  Seq (Plus (Class (Py.between 65 90)))
   (Seq (Chr "-") (Plus (Class Py.isdecimal_char))).

(** *** [datetime.strptime(text, "%Y-%m-%d")]

    CPython turns the format into the regular expression
    [(\d\d\d\d)-(1[0-2]|0[1-9]|[1-9])-(3[0-1]|[1-2]\d|0[1-9]|[1-9]| [1-9])],
    matches it at the start of the text with the alternatives tried in
    the order written, raises [ValueError] when the match fails or
    leaves text unread, and then builds the date, which raises
    [ValueError] for a year, month or day out of the calendar. *)

(** The text matched by a sequence of character classes, and the rest. *)
Fixpoint match_classes (cs : list (ascii -> bool)) (s : string)
    : option (string * string) :=
  match cs with
  | [] => Some (EmptyString, s)
  | p :: cs' =>
      match s with
      | String c s' =>
          if p c then
            match match_classes cs' s' with
            | Some (m, rest) => Some (String c m, rest)
            | None => None
            end
          else None
      | EmptyString => None
      end
  end.

(** Ordered alternation with backtracking: the first alternative that
    matches and after which the continuation [k] succeeds. *)
Fixpoint first_alt {A : Type} (alts : list (list (ascii -> bool)))
    (k : string -> string -> option A) (s : string) : option A :=
  match alts with
  | [] => None
  | alt :: alts' =>
      match match_classes alt s with
      | Some (m, rest) =>
          match k m rest with
          | Some a => Some a
          | None => first_alt alts' k s
          end
      | None => first_alt alts' k s
      end
  end.

Definition chr_in (lo hi : string) (c : ascii) : bool :=
  match lo, hi with
  | String l _, String h _ => Py.between (Py.code l) (Py.code h) c
  | _, _ => false
  end.

Definition year_classes : list (ascii -> bool) :=
  [Py.isdecimal_char; Py.isdecimal_char; Py.isdecimal_char; Py.isdecimal_char].

(** [1[0-2]|0[1-9]|[1-9]] *)
Definition month_alternatives : list (list (ascii -> bool)) :=
  [ [chr_in "1" "1"; chr_in "0" "2"];
    [chr_in "0" "0"; chr_in "1" "9"];
    [chr_in "1" "9"] ].

(** [3[0-1]|[1-2]\d|0[1-9]|[1-9]| [1-9]] *)
Definition day_alternatives : list (list (ascii -> bool)) :=
  [ [chr_in "3" "3"; chr_in "0" "1"];
    [chr_in "1" "2"; Py.isdecimal_char];
    [chr_in "0" "0"; chr_in "1" "9"];
    [chr_in "1" "9"];
    [chr_in " " " "; chr_in "1" "9"] ].

Definition expect_hyphen {A : Type} (k : string -> option A) (s : string)
    : option A :=
  match s with
  | String "-" rest => k rest
  | _ => None
  end.

(** The groups of the match and the text left unread. *)
Definition strptime_match (s : string)
    : option (string * string * string * string) :=
  first_alt [year_classes]
    (fun y => expect_hyphen
      (first_alt month_alternatives
        (fun m => expect_hyphen
          (first_alt day_alternatives
            (fun d unread => Some (y, m, d, unread)))))) s.

(** [int] of a matched group: decimal digits after optional blanks. *)
Definition group_value (g : string) : Z := decimal_value 0 (Py.lstrip g).

Definition is_leap (y : Z) : bool :=
  ((y mod 4 =? 0) && (negb (y mod 100 =? 0) || (y mod 400 =? 0)))%Z.

Definition days_in_month (y m : Z) : Z :=
  if (m =? 2)%Z then (if is_leap y then 29 else 28)%Z
  else if ((m =? 4) || (m =? 6) || (m =? 9) || (m =? 11))%Z then 30%Z
  else 31%Z.

(** The range check of [datetime.date(y, m, d)]. *)
Definition valid_calendar_date (y m d : Z) : bool :=
  ((1 <=? y) && (y <=? 9999) && (1 <=? m) && (m <=? 12)
   && (1 <=? d) && (d <=? days_in_month y m))%Z.

(** The parsed date, or [None] where [strptime] raises [ValueError]. *)
Definition strptime_ymd (s : string) : option (Z * Z * Z) :=
  match strptime_match s with
  | Some (y, m, d, unread) =>
      if Py.is_empty unread then
        let '(yv, mv, dv) := (group_value y, group_value m, group_value d) in
        if valid_calendar_date yv mv dv then Some (yv, mv, dv) else None
      else None
  | None => None
  end.

Definition validate_date (date_str : string) : bool :=
  if Py.is_empty (Py.strip date_str) then true
  else match strptime_ymd (Py.strip date_str) with
       | Some _ => true
       | None => false
       end.

(** ** Label inference *)

Definition tech_keywords : list string :=
  [ "api"; "database"; "frontend"; "backend"; "mobile"; "web"; "server";
    "authentication"; "oauth"; "login"; "payment"; "gateway"; "security";
    "performance"; "bug"; "error"; "timeout"; "crash"; "fix";
    "critical"; "urgent"; "important"; "high"; "medium"; "low";
    "ui"; "ux"; "design"; "infrastructure"; "devops"; "testing";
    "deployment"; "monitoring"; "logging"; "backup"; "migration";
    "user"; "customer"; "admin"; "report"; "analytics"; "dashboard";
    "checkout"; "cart"; "wishlist"; "profile"; "settings"; "notification" ].

(** The dictionary of compound labels, in the order it is written (the
    order a Python dict iterates in). *)
Definition compound_keywords : list (string * list string) :=
  [ ("two-factor", ["two"; "factor"; "authentication"; "2fa"]);
    ("single-sign-on", ["single"; "sign"; "sso"]);
    ("real-time", ["real"; "time"; "realtime"]);
    ("third-party", ["third"; "party"; "external"]);
    ("end-to-end", ["end"; "to"; "end"; "e2e"]) ].

(** One turn of the first loop: a vocabulary word not yet found is
    appended. *)
Definition add_word (found : list string) (word : string) : list string :=
  if Py.mem word tech_keywords && negb (Py.mem word found)
  then found ++ [word]
  else found.

(** One turn of the second loop: a compound label one of whose keywords
    occurs in the text is appended, if not yet found. *)
Definition add_compound (desc_lower : string) (found : list string)
    (entry : string * list string) : list string :=
  let '(label, keywords) := entry in
  if existsb (fun kw => Py.contains kw desc_lower) keywords then
    if negb (Py.mem label found) then found ++ [label] else found
  else found.

Definition simple_labels (description : string) : list string :=
  fold_left add_word (Py.findall_words (Py.lower description)) [].

Definition all_labels (description : string) : list string :=
  fold_left (add_compound (Py.lower description)) compound_keywords
    (simple_labels description).

Definition generate_labels_from_description (description : string)
    : list string :=
  if Py.is_empty description then []
  else firstn 5 (all_labels description).

(** ** The two externals of the engine *)

(** [list(set(xs))]: the distinct elements of [xs] in the order the
    interpreter's hash table yields them.  The order depends on the
    string hashes of the running process, so it is an argument of the
    engine; all the language promises is in the two laws. *)
Record set_iteration : Type := mkSetIteration {
  list_of_set : list string -> list string;
  list_of_set_NoDup : forall xs, NoDup (list_of_set xs);
  list_of_set_In : forall xs x, In x (list_of_set xs) <-> In x xs
}.

(** What one call of the Intent Extractor comes to, as
    [_extract_intent_and_data] distinguishes it: the call or the
    validation of its answer raised ([LlmFails], with the error text);
    the answer was not JSON ([LlmUnparsable], with the decoder's
    error text); or the answer was read into an [AgentResponse]. *)
Inductive llm_outcome : Type :=
| LlmFails (err : string)
| LlmUnparsable (err : string)
| LlmReplies (r : AgentResponse).

(** ** The agent *)

(** A value passed to [setattr] on the draft. *)
Inductive py_value : Type :=
| PyNone
| PyStr (s : string)
| PyIssueType (t : IssueType)
| PyPriority (p : Priority)
| PyIssueStatus (s : IssueStatus).

Definition to_enum (field value : string) : result py_value :=
  if String.eqb field "status" then
    s <- IssueStatus_of_value value ;; Ok (PyIssueStatus s)
  else if String.eqb field "issue_type" then
    t <- IssueType_of_value value ;; Ok (PyIssueType t)
  else if String.eqb field "priority" then
    p <- Priority_of_value value ;; Ok (PyPriority p)
  else Ok (PyStr value).

(** [setattr(partial, field, v)] for the fields the engine assigns by
    name: the three menu fields and the two dates.  The engine pairs
    each field with a value of its own type ([to_enum] for the menus, a
    text or [None] for the dates); on other pairs, which it never
    forms, the draft is returned as it is. *)
Definition setattr (d : ExtractedIssueData) (field : string) (v : py_value)
    : ExtractedIssueData :=
  match v with
  | PyIssueType t =>
      if String.eqb field "issue_type" then set_issue_type (Some t) d else d
  | PyPriority p =>
      if String.eqb field "priority" then set_priority (Some p) d else d
  | PyIssueStatus s =>
      if String.eqb field "status" then set_status (Some s) d else d
  | PyStr s =>
      if String.eqb field "start_date" then set_start_date (Some s) d
      else if String.eqb field "due_date" then set_due_date (Some s) d
      else d
  | PyNone =>
      if String.eqb field "start_date" then set_start_date None d
      else if String.eqb field "due_date" then set_due_date None d
      else d
  end.

(** [xs.index(x)]. *)
Fixpoint index_of (x : string) (xs : list string) : option nat :=
  match xs with
  | [] => None
  | y :: ys =>
      if String.eqb y x then Some 0
      else match index_of x ys with
           | Some i => Some (S i)
           | None => None
           end
  end.

(** [user_input.lower() in ["skip", "none", ""]]. *)
Definition is_skip (user_input : string) : bool :=
  Py.mem (Py.lower user_input) ["skip"; "none"; EmptyString].

(** The comprehension that reads manual labels. *)
Definition manual_labels (user_input : string) : list string :=
  map (fun l => Py.replace " " "-" (Py.lower (Py.strip l)))
    (filter (fun l => negb (Py.is_empty (Py.strip l)))
       (Py.split "," user_input)).

Module JiraAgent.

Section Engine.

Variable order : set_iteration.

Definition _get_field_prompt (state : ConversationState) (field : string)
    (error : option string) : AgentResponse :=
  let partial := partial_issue_data state in
  let shown := if String.eqb field "labels" then labels partial else [] in
  let message :=
    FieldPrompt (if truthy error then error else None) field shown in
  mkResponse CREATE_ISSUE Confidence_1_0 partial [field] (Some message)
    false message None.

Definition _get_next_field_prompt (state : ConversationState)
    : ConversationState * AgentResponse :=
  let finished :=
    let state' := with_awaiting None state in
    (state',
     mkResponse CREATE_ISSUE Confidence_1_0 (partial_issue_data state') []
       None true (ReadyText (issue_type (partial_issue_data state'))) None) in
  match awaiting_field state with
  | Some current_field =>
      match index_of current_field FIELD_ORDER with
      | Some current_index =>
          if (current_index + 1 <? length FIELD_ORDER)%nat then
            let next_field := nth (current_index + 1)%nat FIELD_ORDER EmptyString in
            let state' := with_awaiting (Some next_field) state in
            (state', _get_field_prompt state' next_field None)
          else finished
      | None => finished
      end
  | None => finished
  end.

Definition _start_interactive_collection (state : ConversationState)
    : ConversationState * AgentResponse :=
  let first := nth 0 FIELD_ORDER EmptyString in
  let state' := with_awaiting (Some first) state in
  (state', _get_field_prompt state' first None).

(** The answer to the field being collected.  [Ok (state', Some r)] is a
    response [r] with the state after the call; [Ok (state, None)] is
    the [None] returned for a field the method does not know; [Raise e]
    is an exception, which only the menu branch can raise, before it
    has written anything to the state. *)
Definition _handle_field_input (state : ConversationState)
    (message field : string)
    : result (ConversationState * option AgentResponse) :=
  let partial := partial_issue_data state in
  let user_input := Py.strip message in
  let reprompt err := Ok (state, Some (_get_field_prompt state field (Some err))) in
  let advance partial' :=
    let '(state', r) := _get_next_field_prompt (with_partial partial' state) in
    Ok (state', Some r) in
  if in_CHOICE_MAPS field then
    choice <- interpret_choice field user_input ;;
    if truthy choice then
      match choice with
      | Some c => v <- to_enum field c ;; advance (setattr partial field v)
      | None => reprompt "Invalid choice. Please try again."
      end
    else reprompt "Invalid choice. Please try again."
  else if String.eqb field "summary" then
    if negb (Py.is_empty user_input) then
      if (255 <? String.length user_input)%nat then
        reprompt ("Summary too long (" ++ Py.str_of_nat (String.length user_input)
                  ++ " characters). Please keep it under 255 characters and provide a brief title.")%string
      else advance (set_summary (Some user_input) partial)
    else reprompt "Summary cannot be empty. Please enter a title."
  else if String.eqb field "description" then
    if is_skip user_input then advance (set_description None partial)
    else
      let partial1 := set_description (Some user_input) partial in
      let auto_labels := generate_labels_from_description user_input in
      match auto_labels with
      | _ :: _ => advance (set_labels auto_labels partial1)
      | [] => advance partial1
      end
  else if String.eqb field "assignee" then
    if is_skip user_input then advance (set_assignee None partial)
    else if validate_email user_input then
      advance (set_assignee (Some user_input) partial)
    else reprompt "Invalid email format. Please enter a valid email or 'skip'."
  else if Py.mem field ["start_date"; "due_date"] then
    if is_skip user_input then advance (setattr partial field PyNone)
    else if validate_date user_input then
      advance (setattr partial field (PyStr user_input))
    else reprompt "Invalid date format. Please use YYYY-MM-DD or 'skip'."
  else if String.eqb field "parent_key" then
    if is_skip user_input then advance (set_parent_key None partial)
    else if re_match_anchored issue_key_pattern (Py.upper user_input) then
      advance (set_parent_key (Some (Py.upper user_input)) partial)
    else reprompt "Invalid issue key format. Use format like TJ-123 or 'skip'."
  else if String.eqb field "labels" then
    if is_skip user_input then advance partial
    else if String.eqb (Py.lower user_input) "clear" then
      advance (set_labels [] partial)
    else
      advance (set_labels
                 (list_of_set order (labels partial ++ manual_labels user_input))
                 partial)
  else Ok (state, None).

Definition merge_value {A : Type} (new_value existing : option A) : option A :=
  match new_value with
  | Some v => Some v
  | None => existing
  end.

Definition _merge_issue_data (existing new : ExtractedIssueData)
    : ExtractedIssueData :=
  mkIssueData
    (merge_value (issue_type new) (issue_type existing))
    (merge_value (priority new) (priority existing))
    (merge_value (summary new) (summary existing))
    (merge_value (description new) (description existing))
    (merge_value (assignee new) (assignee existing))
    (merge_value (project_key new) (project_key existing))
    (list_of_set order (labels existing ++ labels new))
    (merge_value (issue_key new) (issue_key existing))
    (merge_value (status new) (status existing))
    (merge_value (due_date new) (due_date existing))
    (merge_value (start_date new) (start_date existing))
    (merge_value (parent_key new) (parent_key existing)).

Definition with_extracted_data (d : ExtractedIssueData) (r : AgentResponse) :=
  mkResponse (intent r) (confidence r) d (missing_fields r) (next_question r)
    (ready_for_jira r) (response_message r) (error r).

Definition clarification_text : string :=
  "I understand you want to work with Jira, but I need a clearer request. Try saying 'create an issue' or 'what's the status of TJ-123?'".

Definition trouble_text : string :=
  "I'm having trouble understanding that request. Try 'create an issue' or 'what's the status of TJ-123?'".

Definition _extract_intent_and_data (llm : llm_outcome) (message : string)
    (state : ConversationState) : AgentResponse :=
  let merged agent_response :=
    match current_intent state with
    | Some i =>
        if Intent_eqb (intent agent_response) i then
          with_extracted_data
            (_merge_issue_data (partial_issue_data state)
               (extracted_data agent_response))
            agent_response
        else agent_response
    | None => agent_response
    end in
  match llm with
  | LlmReplies r => merged r
  | LlmUnparsable err =>
      merged (mkResponse UNKNOWN Confidence_0_0 empty_issue_data [] None false
                (Text clarification_text)
                (Some (ErrText ("JSON parsing error: " ++ err)%string)))
  | LlmFails err =>
      mkResponse UNKNOWN Confidence_0_0 empty_issue_data [] None false
        (Text trouble_text) (Some (ErrText ("LLM error: " ++ err)%string))
  end.

Definition _update_conversation_state (state : ConversationState)
    (response : AgentResponse) : ConversationState :=
  let state1 :=
    if negb (Intent_eqb (intent response) UNKNOWN) then
      with_partial (extracted_data response)
        (with_intent (Some (intent response)) state)
    else state in
  match missing_fields response with
  | first :: _ => with_awaiting (Some first) state1
  | [] =>
      if negb (ready_for_jira response) then state1
      else with_awaiting None state1
  end.

(** The [try] block of [process_message], from the state of the user. *)
Definition process_message_body (llm : llm_outcome)
    (state : ConversationState) (message : string)
    : result (ConversationState * AgentResponse) :=
  handled <-
    (if truthy (awaiting_field state) then
       match awaiting_field state with
       | Some awaiting => _handle_field_input state message awaiting
       | None => Ok (state, None)
       end
     else Ok (state, None)) ;;
  match handled with
  | (state1, Some response) =>
      Ok (history_append (AgentSaid (response_message response))
            (history_append (UserSaid message) state1),
          response)
  | (state1, None) =>
      let state2 := history_append (UserSaid message) state1 in
      let response := _extract_intent_and_data llm message state2 in
      let '(state3, response) :=
        if Intent_eqb (intent response) CREATE_ISSUE
           && negb (ready_for_jira response)
        then _start_interactive_collection state2
        else (state2, response) in
      let state4 := _update_conversation_state state3 response in
      Ok (history_append (AgentSaid (response_message response)) state4,
          response)
  end.

(** The response of the [except] clause of [process_message]. *)
Definition error_response (e : exn) : AgentResponse :=
  mkResponse UNKNOWN Confidence_0_0 empty_issue_data [] None false
    (Text "Sorry, I encountered an error. Please try again.")
    (Some (ErrException e)).

(** One turn on the state of a user: the [try] block and its [except]
    clause.  An exception leaves the state as the block found it. *)
Definition process_turn (llm : llm_outcome) (state : ConversationState)
    (message : string) : ConversationState * AgentResponse :=
  match process_message_body llm state message with
  | Ok out => out
  | Raise e => (state, error_response e)
  end.

(** The store [self.conversation_states], keyed by user. *)
Definition store : Type := list (string * ConversationState).

Fixpoint store_lookup (phone : string) (s : store) : option ConversationState :=
  match s with
  | [] => None
  | (k, v) :: s' => if String.eqb k phone then Some v else store_lookup phone s'
  end.

Fixpoint store_write (phone : string) (v : ConversationState) (s : store)
    : store :=
  match s with
  | [] => [(phone, v)]
  | (k, w) :: s' =>
      if String.eqb k phone then (k, v) :: s'
      else (k, w) :: store_write phone v s'
  end.

Fixpoint store_delete (phone : string) (s : store) : store :=
  match s with
  | [] => []
  | (k, w) :: s' =>
      if String.eqb k phone then store_delete phone s'
      else (k, w) :: store_delete phone s'
  end.

Definition get_conversation_state (agent : store) (phone : string)
    : store * ConversationState :=
  match store_lookup phone agent with
  | Some state => (agent, state)
  | None =>
      let state := new_conversation_state phone in
      (store_write phone state agent, state)
  end.

Definition clear_conversation_state (agent : store) (phone : string) : store :=
  store_delete phone agent.

Definition process_message (llm : llm_outcome) (agent : store)
    (phone message : string) : store * AgentResponse :=
  let '(agent1, state) := get_conversation_state agent phone in
  let '(state', response) := process_turn llm state message in
  (store_write phone state' agent1, response).

End Engine.

(** *** The direct validation path *)

Definition required_missing (issue_data : ExtractedIssueData) : list string :=
  (if is_some (issue_type issue_data) then [] else ["issue_type"])
  ++ (if is_some (priority issue_data) then [] else ["priority"])
  ++ (if truthy (summary issue_data) then [] else ["summary"])
  ++ (if truthy (description issue_data) then [] else ["description"]).

(** The body shared by the two definitions of
    [process_direct_issue_creation] in the class, which differ in the
    default project key and in nothing else.  Nothing in the body
    raises, so its [except] clause is never entered. *)
Definition direct_issue_creation (default_project_key : string)
    (issue_data : ExtractedIssueData) : AgentResponse :=
  match required_missing issue_data with
  | (_ :: _) as missing =>
      mkResponse CREATE_ISSUE Confidence_1_0 issue_data missing None false
        (Text ("Missing required fields: " ++ Py.join ", " missing)%string)
        (Some (ErrText ("Required fields missing: " ++ Py.join ", " missing)%string))
  | [] =>
      let issue_data1 :=
        match labels issue_data, description issue_data with
        | [], Some d =>
            if negb (Py.is_empty d)
            then set_labels (generate_labels_from_description d) issue_data
            else issue_data
        | _, _ => issue_data
        end in
      let issue_data2 :=
        if negb (truthy (project_key issue_data1))
        then set_project_key (Some default_project_key) issue_data1
        else issue_data1 in
      mkResponse CREATE_ISSUE Confidence_1_0 issue_data2 [] None true
        (Text "Issue data validated and ready for creation") None
  end.

(** The definitions of the method in the class body, in the order they
    are written (lines 145 and 240 of the source). *)
Definition process_direct_issue_creation_definitions
    : list (ExtractedIssueData -> AgentResponse) :=
  [ direct_issue_creation "TJ"; direct_issue_creation "MFLP" ].

(** The method the class ends up with: each [def] rebinds the name, so
    the last definition is the one in effect. *)
Definition process_direct_issue_creation
    : ExtractedIssueData -> AgentResponse :=
  last process_direct_issue_creation_definitions (direct_issue_creation "TJ").

End JiraAgent.

(** ** Conversations *)

(** A conversation: the turns of one user in order, each the message
    and what the Intent Extractor would answer if the turn reaches it.
    The result is the final state and the responses, oldest first. *)
Fixpoint run_conversation (order : set_iteration)
    (turns : list (string * llm_outcome)) (state : ConversationState)
    : ConversationState * list AgentResponse :=
  match turns with
  | [] => (state, [])
  | (message, llm) :: rest =>
      let '(state', r) := JiraAgent.process_turn order llm state message in
      let '(final, rs) := run_conversation order rest state' in
      (final, r :: rs)
  end.

(** ** The specification's notions, stated from its words

    These definitions follow the text of the specification, not the
    code; the theorems compare the code with them. *)

(** Whether the draft holds a value for a collectible field. *)
Definition spec_field_is_set (d : ExtractedIssueData) (field : string) : bool :=
  if String.eqb field "issue_type" then is_some (issue_type d)
  else if String.eqb field "priority" then is_some (priority d)
  else if String.eqb field "status" then is_some (status d)
  else if String.eqb field "summary" then truthy (summary d)
  else if String.eqb field "description" then truthy (description d)
  else if String.eqb field "assignee" then truthy (assignee d)
  else if String.eqb field "start_date" then truthy (start_date d)
  else if String.eqb field "due_date" then truthy (due_date d)
  else if String.eqb field "parent_key" then truthy (parent_key d)
  else if String.eqb field "labels" then
    match labels d with [] => false | _ :: _ => true end
  else false.

(** The first field, by registry order, whose value is unset. *)
Definition spec_first_unset_field (d : ExtractedIssueData) : option string :=
  find (fun field => negb (spec_field_is_set d field)) FIELD_ORDER.

(** A case-, space- and hyphen-insensitive textual variant of a choice:
    equal to it once case, spaces and hyphens are disregarded on both
    sides. *)
Definition spec_textual_variant (choice input : string) : bool :=
  String.eqb (normalized (Py.strip input)) (normalized choice).

(** An exact YYYY-MM-DD calendar date: four digits, a hyphen, two
    digits, a hyphen, two digits, naming a day of the calendar. *)
Definition spec_exact_iso_date (s : string) : bool :=
  let d := Py.isdecimal_char in
  let h := Py.is_code 45 in
  match match_classes [d; d; d; d; h; d; d; h; d; d] s with
  | Some (_, rest) =>
      Py.is_empty rest
      && valid_calendar_date
           (decimal_value 0 (String.substring 0 4 s))
           (decimal_value 0 (String.substring 5 2 s))
           (decimal_value 0 (String.substring 8 2 s))
  | None => false
  end.

(** The display order of the labels in [before] is preserved in
    [after]: those of [after] that were in [before] are [before]. *)
Definition spec_order_preserved (before after : list string) : Prop :=
  filter (fun x => Py.mem x before) after = before.

(** ** Two iteration orders

    Two orders a hash table may yield, used to run the engine on
    concrete inputs: the elements in the order of their last
    occurrence, and the same sequence reversed. *)

Definition occurrence_order : set_iteration :=
  mkSetIteration (nodup string_dec)
    (fun xs => NoDup_nodup string_dec xs)
    (fun xs x => nodup_In string_dec xs x).

Definition reversed_order : set_iteration :=
  mkSetIteration (fun xs => rev (nodup string_dec xs))
    (fun xs => NoDup_rev (NoDup_nodup string_dec xs))
    (fun xs x =>
       iff_trans (iff_sym (in_rev (nodup string_dec xs) x))
         (nodup_In string_dec xs x)).

(** ** Definitions used in the statements *)

(** The position of the first occurrence of [x] in [xs] (the length of
    [xs] when it does not occur). *)
Fixpoint position (x : string) (xs : list string) : nat :=
  match xs with
  | [] => 0
  | y :: ys => if String.eqb y x then 0 else S (position x ys)
  end.

(** [found] lists words of [words] by first appearance. *)
Definition first_seen_order (words found : list string) : Prop :=
  StronglySorted (fun a b => position a words < position b words) found.

(** The re-prompt of a field, with its error line. *)
Definition reprompt_of (state : ConversationState) (field err : string)
    : AgentResponse :=
  JiraAgent._get_field_prompt state field (Some err).

(** The state after a turn answered in guided mode: as the handler
    left it, with the two history lines of the turn. *)
Definition logged (state : ConversationState) (message : string)
    (r : AgentResponse) : ConversationState :=
  history_append (AgentSaid (response_message r))
    (history_append (UserSaid message) state).

(** The one-character text made of the superscript two, U+00B2. *)
Definition superscript_two : string := String (ascii_of_N 178) EmptyString.

(** The turn is not answered by the field handler: no field is awaited,
    or the handler does not know the awaited field. *)
Definition reaches_extractor (order : set_iteration)
    (state : ConversationState) (message : string) : Prop :=
  truthy (awaiting_field state) = false
  \/ exists field,
       awaiting_field state = Some field
       /\ JiraAgent._handle_field_input order state message field
          = Ok (state, None).

(** A conversation in which a task is being created and the issue type
    is known. *)
Definition state_with_issue_type : ConversationState :=
  with_partial (set_issue_type (Some TASK) empty_issue_data)
    (with_intent (Some CREATE_ISSUE) (new_conversation_state "u")).

(** An answer of the extractor: create, not ready, with the issue type
    and a summary. *)
Definition reply_repeating_issue_type : llm_outcome :=
  LlmReplies
    (mkResponse CREATE_ISSUE (Confidence_reported "0.9")
       (set_summary (Some "Login broken")
          (set_issue_type (Some TASK) empty_issue_data))
       ["priority"; "description"] None false
       (Text "What priority should this task have?") None).

(** A state that awaits the priority. *)
Definition state_with_priority_awaited : ConversationState :=
  with_awaiting (Some "priority") (new_conversation_state "u").

(** A state that awaits the description, with one label in the draft. *)
Definition state_with_billing_label : ConversationState :=
  with_partial (set_labels ["billing"] empty_issue_data)
    (with_awaiting (Some "description") (new_conversation_state "u")).

(** A state that awaits the labels, with two labels in the draft. *)
Definition state_with_two_labels : ConversationState :=
  with_partial (set_labels ["api"; "login"] empty_issue_data)
    (with_awaiting (Some "labels") (new_conversation_state "u")).

(** The invariant of a guided collection: the required fields that come
    before the awaited field in the registry, and cannot be skipped,
    are set. *)
Definition collected_before (state : ConversationState) : Prop :=
  forall field i,
    awaiting_field state = Some field ->
    index_of field FIELD_ORDER = Some i ->
    (0 < i -> is_some (issue_type (partial_issue_data state)) = true)
    /\ (1 < i -> is_some (priority (partial_issue_data state)) = true)
    /\ (3 < i -> truthy (summary (partial_issue_data state)) = true).

(** An answer of the extractor: create, nothing extracted, not ready. *)
Definition plain_create_reply : llm_outcome :=
  LlmReplies
    (mkResponse CREATE_ISSUE (Confidence_reported "0.95") empty_issue_data
       [] None false (Text "Let us create an issue.") None).

(** A conversation that creates a task and skips every optional field,
    the description among them. *)
Definition skipping_conversation : list (string * llm_outcome) :=
  map (fun message => (message, plain_create_reply))
    [ "create a task"; "1"; "2"; "1"; "Login broken"; "skip"; "skip";
      "skip"; "skip"; "skip"; "skip" ].

(** An answer of the extractor that says ready and names a missing
    field. *)
Definition unchecked_ready_reply : llm_outcome :=
  LlmReplies
    (mkResponse CREATE_ISSUE (Confidence_reported "0.9")
       (set_issue_type (Some TASK) empty_issue_data)
       ["summary"] (Some (Text "What is the title?")) true
       (Text "Creating your task.") None).
(** A text that spells a day of the calendar the way [strptime] reads
    it: a year of four decimal digits, a month of one or two, and a day
    of one or two or of a blank and one, separated by hyphens, with the
    year from 1 to 9999, the month from 1 to 12 and the day within the
    month. *)
Definition spells_calendar_day (t : string) : Prop :=
  exists ys ms ds,
    t = (ys ++ "-" ++ ms ++ "-" ++ ds)%string
    /\ String.length ys = 4
    /\ Py.forallb_string Py.isdecimal_char ys = true
    /\ 1 <= String.length ms <= 2
    /\ Py.forallb_string Py.isdecimal_char ms = true
    /\ ((1 <= String.length ds <= 2
         /\ Py.forallb_string Py.isdecimal_char ds = true)
        \/ exists c, ds = String " " (String c EmptyString)
                      /\ Py.isdecimal_char c = true)
    /\ valid_calendar_date (decimal_value 0 ys) (decimal_value 0 ms)
         (group_value ds) = true.

(** The same with month and day of two digits each: the form
    YYYY-MM-DD. *)
Definition spells_padded_calendar_day (t : string) : Prop :=
  exists ys ms ds,
    t = (ys ++ "-" ++ ms ++ "-" ++ ds)%string
    /\ String.length ys = 4
    /\ Py.forallb_string Py.isdecimal_char ys = true
    /\ String.length ms = 2
    /\ Py.forallb_string Py.isdecimal_char ms = true
    /\ String.length ds = 2
    /\ Py.forallb_string Py.isdecimal_char ds = true
    /\ valid_calendar_date (decimal_value 0 ys) (decimal_value 0 ms)
         (decimal_value 0 ds) = true.

(** ** The Jira service (services/jira_service.py) *)

Module JiraService.

(** The settings [create_issue] reads.  [JIRA_PROJECT_KEY] is read with
    a default and so is always a text; [JIRA_START_DATE_FIELD_ID] may
    be unset. *)
Record Settings : Type := mkSettings {
  JIRA_PROJECT_KEY : string;
  JIRA_START_DATE_FIELD_ID : option string
}.

(** A JSON value, as far as [create_issue] looks at it. *)
Inductive json : Type :=
| JText (s : string)
| JOther.

(** The values [create_issue] puts in the [fields] dictionary: a text,
    a list of texts, and the one-entry objects with the entry key, id,
    name or accountId. *)
Inductive field_value : Type :=
| Str (s : string)
| StrList (l : list string)
| KeyOf (s : string)
| IdOf (s : string)
| NameOf (s : string)
| AccountIdOf (v : json).

(** A dictionary with text keys, in insertion order. *)
Definition dict (V : Type) : Type := list (string * V).

(** [d.get(k)]. *)
Fixpoint dict_get {V : Type} (k : string) (d : dict V) : option V :=
  match d with
  | [] => None
  | (k', v) :: d' => if String.eqb k' k then Some v else dict_get k d'
  end.

(** [d[k] = v]. *)
Fixpoint dict_set {V : Type} (k : string) (v : V) (d : dict V) : dict V :=
  match d with
  | [] => [(k, v)]
  | (k', w) :: d' =>
      if String.eqb k' k then (k', v) :: d' else (k', w) :: dict_set k v d'
  end.

Definition issue_type_mapping : dict string :=
  [ ("Task", "10003"); ("Story", "10004"); ("Epic", "10000") ].

(** The list comprehension that normalises the labels. *)
Definition normalized_labels (labels : list string) : list string :=
  map (fun lbl => Py.replace " " "-" (Py.lower (Py.strip lbl)))
    (filter (fun lbl => negb (Py.is_empty lbl)) labels).

(** [a or b] on optional texts. *)
Definition or_else (a b : option string) : option string :=
  if truthy a then a else b.

(** The text of an optional text that is set. *)
Definition text_of (o : option string) : string :=
  match o with
  | Some s => s
  | None => EmptyString
  end.

(** The [fields] dictionary [create_issue] hands to [issue_create], on
    a configured service.  [find_user] is what [_find_user] returns for
    the assignee: a user object or nothing.  The result is [None] where
    the construction raises: a user object without an accountId entry
    is a [KeyError], which the [except] clause of [create_issue] turns
    into a failure. *)
Definition create_issue_fields (settings : Settings)
    (find_user : string -> option (dict json))
    (issue_data : ExtractedIssueData) (project_key' : option string)
    : option (dict field_value) :=
  let project_key' :=
    text_of (or_else (or_else project_key' (project_key issue_data))
               (Some (JIRA_PROJECT_KEY settings))) in
  let issuetype_name :=
    IssueType_value
      (match issue_type issue_data with Some t => t | None => TASK end) in
  let priority_name := option_map Priority_value (priority issue_data) in
  let issue_type_id := dict_get issuetype_name issue_type_mapping in
  let issue_type_id :=
    if negb (truthy issue_type_id) then "10003" else text_of issue_type_id in
  let fields :=
    [ ("project", KeyOf project_key');
      ("summary",
       Str (text_of (or_else (summary issue_data)
                       (Some "Issue created via AI Agent"))));
      ("issuetype", IdOf issue_type_id) ] in
  let fields :=
    if truthy (description issue_data)
    then dict_set "description" (Str (text_of (description issue_data))) fields
    else fields in
  let fields :=
    if truthy priority_name && String.eqb issuetype_name "Task"
    then dict_set "priority" (NameOf (text_of priority_name)) fields
    else fields in
  let fields :=
    match labels issue_data with
    | [] => fields
    | _ :: _ =>
        dict_set "labels" (StrList (normalized_labels (labels issue_data)))
          fields
    end in
  let fields :=
    if truthy (due_date issue_data)
    then dict_set "duedate" (Str (text_of (due_date issue_data))) fields
    else fields in
  let fields :=
    if truthy (JIRA_START_DATE_FIELD_ID settings)
       && truthy (start_date issue_data)
    then dict_set (text_of (JIRA_START_DATE_FIELD_ID settings))
           (Str (text_of (start_date issue_data))) fields
    else fields in
  let fields :=
    if truthy (parent_key issue_data)
       && Py.mem (Py.lower issuetype_name) ["sub-task"; "subtask"]
    then dict_set "parent" (KeyOf (text_of (parent_key issue_data))) fields
    else fields in
  if truthy (assignee issue_data) then
    match find_user (text_of (assignee issue_data)) with
    | Some [] | None => Some fields
    | Some user =>
        match dict_get "accountId" user with
        | Some account =>
            Some (dict_set "assignee" (AccountIdOf account) fields)
        | None => None
        end
    end
  else Some fields.

End JiraService.


(** ** Further definitions used in the statements *)

(** The text of a menu field as the draft stores it: the value of the
    enum member, as [getattr(draft, field).value] reads it. *)
Definition menu_text (d : ExtractedIssueData) (field : string) : option string :=
  if String.eqb field "issue_type" then option_map IssueType_value (issue_type d)
  else if String.eqb field "priority" then option_map Priority_value (priority d)
  else if String.eqb field "status" then option_map IssueStatus_value (status d)
  else None.

(** The two drafts agree on every field whose name is not listed. *)
Definition unchanged_except (fields : list string)
    (d d' : ExtractedIssueData) : Prop :=
  (~ In "issue_type" fields -> issue_type d' = issue_type d)
  /\ (~ In "priority" fields -> priority d' = priority d)
  /\ (~ In "summary" fields -> summary d' = summary d)
  /\ (~ In "description" fields -> description d' = description d)
  /\ (~ In "assignee" fields -> assignee d' = assignee d)
  /\ (~ In "project_key" fields -> project_key d' = project_key d)
  /\ (~ In "labels" fields -> labels d' = labels d)
  /\ (~ In "issue_key" fields -> issue_key d' = issue_key d)
  /\ (~ In "status" fields -> status d' = status d)
  /\ (~ In "due_date" fields -> due_date d' = due_date d)
  /\ (~ In "start_date" fields -> start_date d' = start_date d)
  /\ (~ In "parent_key" fields -> parent_key d' = parent_key d).

(** The fields an answer to [field] may write: the field itself, and
    the labels with the description. *)
Definition written_by_answer (field : string) : list string :=
  if String.eqb field "description" then ["description"; "labels"]
  else [field].

(** The error line of a summary of [n] characters, too long. *)
Definition summary_too_long (n : nat) : string :=
  "Summary too long (" ++ Py.str_of_nat n
  ++ " characters). Please keep it under 255 characters and provide a brief title.".

(** Whether the data give the empty text for a text field of the
    registry: a value that is not [None] and that the code reads as
    unset. *)
Definition gives_empty_text (e : ExtractedIssueData) (field : string) : bool :=
  let empty (o : option string) := is_some o && negb (truthy o) in
  if String.eqb field "summary" then empty (summary e)
  else if String.eqb field "description" then empty (description e)
  else if String.eqb field "assignee" then empty (assignee e)
  else if String.eqb field "start_date" then empty (start_date e)
  else if String.eqb field "due_date" then empty (due_date e)
  else if String.eqb field "parent_key" then empty (parent_key e)
  else false.

(** The texts a regular expression matches. *)
Inductive matches : regex -> string -> Prop :=
| matches_eps : matches Eps EmptyString
| matches_class (p : ascii -> bool) (c : ascii) :
    p c = true -> matches (Class p) (String c EmptyString)
| matches_seq (r1 r2 : regex) (s1 s2 : string) :
    matches r1 s1 -> matches r2 s2 -> matches (Seq r1 r2) (s1 ++ s2)%string
| matches_alt_l (r1 r2 : regex) (s : string) :
    matches r1 s -> matches (Alt r1 r2) s
| matches_alt_r (r1 r2 : regex) (s : string) :
    matches r2 s -> matches (Alt r1 r2) s
| matches_star_nil (r : regex) : matches (Star r) EmptyString
| matches_star_cons (r : regex) (s1 s2 : string) :
    matches r s1 -> matches (Star r) s2 ->
    matches (Star r) (s1 ++ s2)%string.

(** A text of one or more characters, all of the class [p]. *)
Definition run_of (p : ascii -> bool) (s : string) : Prop :=
  s <> EmptyString /\ Py.forallb_string p s = true.

(** The shape of an address: a local part, an at sign, a domain, a dot
    and two letters or more. *)
Definition email_shape (t : string) : Prop :=
  exists local domain tld,
    t = (local ++ "@" ++ domain ++ "." ++ tld)%string
    /\ run_of email_local_char local
    /\ run_of email_domain_char domain
    /\ 2 <= String.length tld
    /\ Py.forallb_string ascii_letter tld = true.

(** The shape of an issue key: capital letters, a hyphen and decimal
    digits. *)
Definition issue_key_shape (t : string) : Prop :=
  exists letters digits,
    t = (letters ++ "-" ++ digits)%string
    /\ run_of (Py.between 65 90) letters
    /\ run_of Py.isdecimal_char digits.

(** The last character of a text. *)
Fixpoint last_char (s : string) : option ascii :=
  match s with
  | EmptyString => None
  | String c EmptyString => Some c
  | String _ s' => last_char s'
  end.

(** * Properties *)

(** ** Basic facts about the text primitives *)

Lemma mem_In (x : string) (xs : list string) : Py.mem x xs = true <-> In x xs.
Proof.
  unfold Py.mem. rewrite existsb_exists. split.
  - intros [y [Hy He]]. apply String.eqb_eq in He. now subst.
  - intros H. exists x. split; [assumption | apply String.eqb_refl].
Qed.

Lemma mem_false_not_In (x : string) (xs : list string) :
  Py.mem x xs = false <-> ~ In x xs.
Proof.
  rewrite <- mem_In. destruct (Py.mem x xs); split; intros H; congruence.
Qed.

Lemma is_empty_true (s : string) : Py.is_empty s = true <-> s = EmptyString.
Proof. destruct s; simpl; split; intros H; congruence. Qed.

Lemma NoDup_firstn {A : Type} (n : nat) (l : list A) :
  NoDup l -> NoDup (firstn n l).
Proof.
  intros H. rewrite <- (firstn_skipn n l) in H.
  now apply NoDup_app_remove_r in H.
Qed.

(** ** C10: the direct path defaults the project key to MFLP *)

(** C10.  On the direct validation path, a draft with the four required
    fields set and no project key comes back ready with project key
    MFLP: the method in effect is the second definition of the class
    body, so TJ, the default of the first, is never used. *)
Theorem C10_direct_path_defaults_to_MFLP (d : ExtractedIssueData) :
  is_some (issue_type d) = true ->
  is_some (priority d) = true ->
  truthy (summary d) = true ->
  truthy (description d) = true ->
  truthy (project_key d) = false ->
  let r := JiraAgent.process_direct_issue_creation d in
  JiraAgent.process_direct_issue_creation
    = nth 1 JiraAgent.process_direct_issue_creation_definitions
        (JiraAgent.direct_issue_creation "TJ")
  /\ ready_for_jira r = true
  /\ project_key (extracted_data r) = Some "MFLP"
  /\ project_key (extracted_data r) <> Some "TJ".
Proof.
  intros Ht Hp Hs Hd Hk r. subst r.
  split; [reflexivity |].
  unfold JiraAgent.process_direct_issue_creation,
    JiraAgent.process_direct_issue_creation_definitions.
  cbn [last].
  unfold JiraAgent.direct_issue_creation, JiraAgent.required_missing.
  rewrite Ht, Hp, Hs, Hd. cbn [app].
  destruct (labels d) as [| l ls] eqn:Hl;
    destruct (description d) as [txt |] eqn:Hdesc; try discriminate Hd;
    cbn [truthy] in Hd; rewrite ?Hd; cbn [negb];
    cbn [set_labels set_project_key project_key truthy extracted_data
         ready_for_jira];
    rewrite ?Hk; cbn [negb project_key set_project_key extracted_data];
    (split; [reflexivity | split; [reflexivity | discriminate]]).
Qed.

Lemma C10_direct_path_witness :
  let d := mkIssueData (Some TASK) (Some HIGH) (Some "Login fails")
             (Some "API timeout on login") None None [] None None None None
             None in
  project_key (extracted_data (JiraAgent.process_direct_issue_creation d))
    = Some "MFLP".
Proof.
  intros d.
  exact (proj1 (proj2 (proj2
    (C10_direct_path_defaults_to_MFLP d eq_refl eq_refl eq_refl eq_refl
       eq_refl)))).
Defined.

(** ** C5: label inference *)

Lemma StronglySorted_weaken {A : Type} (R R' : A -> A -> Prop) (l : list A) :
  (forall a b, In a l -> In b l -> R a b -> R' a b) ->
  StronglySorted R l -> StronglySorted R' l.
Proof.
  intros Hw Hs. induction Hs as [| a l Hs IH Hf].
  - constructor.
  - constructor.
    + apply IH. intros x y Hx Hy. apply Hw; now right.
    + rewrite Forall_forall in *. intros x Hx.
      apply Hw; [now left | now right | now apply Hf].
Qed.

(** What the first loop adds to [acc] while it reads [words]. *)
Lemma fold_add_word (words acc : list string) :
  exists ext,
    fold_left add_word words acc = acc ++ ext
    /\ Forall (fun x => In x tech_keywords /\ In x words /\ ~ In x acc) ext
    /\ NoDup ext
    /\ first_seen_order words ext.
Proof.
  revert acc. induction words as [| w ws IH]; intros acc.
  - exists []. cbn. rewrite app_nil_r. repeat split; constructor.
  - cbn [fold_left]. unfold add_word at 2.
    destruct (Py.mem w tech_keywords && negb (Py.mem w acc)) eqn:Hadd.
    + apply andb_true_iff in Hadd as [Hv Hn].
      apply mem_In in Hv. apply negb_true_iff, mem_false_not_In in Hn.
      destruct (IH (acc ++ [w])) as [ext [He [Hf [Hnd Hs]]]].
      exists (w :: ext). rewrite He, <- app_assoc. cbn [app].
      rewrite Forall_forall in Hf.
      assert (Hw : ~ In w ext).
      { intros Hin. destruct (Hf w Hin) as [_ [_ Hacc]].
        apply Hacc, in_or_app. right. now left. }
      split; [reflexivity |]. split; [| split].
      * constructor.
        { split; [assumption | split; [now left | assumption]]. }
        rewrite Forall_forall. intros x Hx.
        destruct (Hf x Hx) as [Hxv [Hxw Hxa]].
        split; [assumption | split; [now right |]].
        intros Hacc. apply Hxa, in_or_app. now left.
      * constructor; assumption.
      * constructor.
        { apply StronglySorted_weaken with (2 := Hs).
          intros a b Ha Hb Hlt. cbn [position].
          destruct (String.eqb w a) eqn:Ea;
            [apply String.eqb_eq in Ea; subst; contradiction |].
          destruct (String.eqb w b) eqn:Eb;
            [apply String.eqb_eq in Eb; subst; contradiction |].
          lia. }
        rewrite Forall_forall. intros x Hx. cbn [position].
        rewrite String.eqb_refl.
        destruct (String.eqb w x) eqn:Ex;
          [apply String.eqb_eq in Ex; subst; contradiction | lia].
    + destruct (IH acc) as [ext [He [Hf [Hnd Hs]]]].
      exists ext. rewrite Forall_forall in Hf.
      assert (Hw : forall x, In x ext -> String.eqb w x = false).
      { intros x Hx. destruct (Hf x Hx) as [Hxv [_ Hxa]].
        apply String.eqb_neq. intros ->.
        apply andb_false_iff in Hadd as [Hadd | Hadd].
        - apply mem_false_not_In in Hadd. contradiction.
        - apply negb_false_iff, mem_In in Hadd. contradiction. }
      split; [assumption |]. split; [| split].
      * rewrite Forall_forall. intros x Hx.
        destruct (Hf x Hx) as [Hxv [Hxw Hxa]].
        split; [assumption | split; [now right | assumption]].
      * assumption.
      * apply StronglySorted_weaken with (2 := Hs).
        intros a b Ha Hb Hlt. cbn [position].
        rewrite (Hw a Ha), (Hw b Hb). lia.
Qed.

(** What the second loop adds to [found] while it reads [entries]. *)
Lemma fold_add_compound (desc_lower : string)
    (entries : list (string * list string)) (found : list string) :
  exists ext,
    fold_left (add_compound desc_lower) entries found = found ++ ext
    /\ Forall (fun x => In x (map fst entries)) ext
    /\ (NoDup found -> NoDup (found ++ ext)).
Proof.
  revert found. induction entries as [| [label kws] es IH]; intros found.
  - exists []. cbn. rewrite app_nil_r. repeat split; [constructor | auto].
  - cbn [fold_left]. unfold add_compound at 2.
    destruct (existsb (fun kw => Py.contains kw desc_lower) kws
              && negb (Py.mem label found)) eqn:Hadd.
    + apply andb_true_iff in Hadd as [Hk Hn]. rewrite Hk, Hn.
      apply negb_true_iff, mem_false_not_In in Hn.
      destruct (IH (found ++ [label])) as [ext [He [Hf Hnd]]].
      exists (label :: ext). rewrite He, <- app_assoc. cbn [app map fst].
      split; [reflexivity |]. split.
      * constructor; [now left |].
        rewrite Forall_forall in *. intros x Hx. right. now apply Hf.
      * intros Hfound.
        replace (found ++ label :: ext) with ((found ++ [label]) ++ ext)
          by (rewrite <- app_assoc; reflexivity).
        apply Hnd. apply NoDup_app; [assumption | repeat constructor; auto |].
        intros x Hx [<- | []]. contradiction.
    + destruct (IH found) as [ext [He [Hf Hnd]]].
      exists ext. cbn [map fst].
      assert (Hsame : (if existsb (fun kw => Py.contains kw desc_lower) kws
                       then if negb (Py.mem label found)
                            then found ++ [label] else found
                       else found) = found).
      { apply andb_false_iff in Hadd as [Hadd | Hadd]; rewrite Hadd;
          [reflexivity | now destruct (existsb _ kws)]. }
      rewrite Hsame. split; [assumption |]. split; [| assumption].
      rewrite Forall_forall in *. intros x Hx. right. now apply Hf.
Qed.

(** C5.  Label inference is a function of its text alone, so two runs
    on the same text give the same sequence; the sequence has at most
    five labels, all distinct; it is the first five of the
    vocabulary words of the text, in order of first appearance,
    followed by compound labels; and on the text of the scenario it
    holds api, login and mobile. *)
Theorem C5_label_inference :
  (forall t1 t2, t1 = t2 ->
     generate_labels_from_description t1 = generate_labels_from_description t2)
  /\ (forall t, length (generate_labels_from_description t) <= 5
                /\ NoDup (generate_labels_from_description t))
  /\ (forall t, exists simple compound,
        generate_labels_from_description t = firstn 5 (simple ++ compound)
        /\ simple = simple_labels t
        /\ Forall (fun x => In x tech_keywords
                            /\ In x (Py.findall_words (Py.lower t))) simple
        /\ first_seen_order (Py.findall_words (Py.lower t)) simple
        /\ Forall (fun x => In x (map fst compound_keywords)) compound)
  /\ generate_labels_from_description "API timeout on login for mobile users"
       = ["api"; "timeout"; "login"; "mobile"; "real-time"].
Proof.
  assert (Hshape : forall t, exists simple compound,
    generate_labels_from_description t = firstn 5 (simple ++ compound)
    /\ simple = simple_labels t
    /\ Forall (fun x => In x tech_keywords
                        /\ In x (Py.findall_words (Py.lower t))) simple
    /\ first_seen_order (Py.findall_words (Py.lower t)) simple
    /\ Forall (fun x => In x (map fst compound_keywords)) compound
    /\ NoDup (simple ++ compound)).
  { intros t.
    destruct (fold_add_word (Py.findall_words (Py.lower t)) [])
      as [simple [Hs [Hf [Hnd Hord]]]].
    cbn [app] in Hs.
    destruct (fold_add_compound (Py.lower t) compound_keywords simple)
      as [compound [Hc [Hfc Hndc]]].
    exists simple, compound.
    assert (Hall : all_labels t = simple ++ compound).
    { unfold all_labels, simple_labels. now rewrite Hs. }
    split.
    - unfold generate_labels_from_description.
      destruct t as [| c t']; [| cbn [Py.is_empty]; now rewrite Hall].
      cbn in Hs. subst simple. vm_compute in Hc.
      destruct compound; [reflexivity | discriminate].
    - split; [now rewrite <- Hs |]. split; [| split; [assumption |]].
      + rewrite Forall_forall in *. intros x Hx.
        destruct (Hf x Hx) as [Hv [Hw _]]. now split.
      + split; [assumption | now apply Hndc]. }
  split; [intros t1 t2 ->; reflexivity |].
  split; [| split].
  - intros t. destruct (Hshape t) as [s [c [-> [_ [_ [_ [_ Hnd]]]]]]].
    split; [apply firstn_le_length | now apply NoDup_firstn].
  - intros t. destruct (Hshape t) as [s [c [H1 [H2 [H3 [H4 [H5 _]]]]]]].
    exists s, c. repeat split; assumption.
  - vm_compute. reflexivity.
Qed.

(** ** C8: the date validator *)

Lemma decimal_cases (c : ascii) :
  Py.isdecimal_char c = true ->
  In c ["0"; "1"; "2"; "3"; "4"; "5"; "6"; "7"; "8"; "9"]%char.
Proof.
  destruct c as [[] [] [] [] [] [] [] []]; vm_compute; intros H;
    first [discriminate H | tauto].
Qed.

Lemma decimal_not_space (c : ascii) :
  Py.isdecimal_char c = true -> Py.isspace_char c = false.
Proof.
  intros H. apply decimal_cases in H. cbn [In] in H.
  repeat (destruct H as [<- | H]; [reflexivity |]). contradiction.
Qed.

Lemma is_code_char (n : N) (c : ascii) :
  Py.is_code n c = true -> c = ascii_of_N n.
Proof.
  unfold Py.is_code, Py.code. intros H. apply N.eqb_eq in H.
  rewrite <- H. symmetry. apply ascii_N_embedding.
Qed.

Lemma append_empty_r (s : string) : (s ++ EmptyString)%string = s.
Proof. induction s as [| c s IH]; cbn; [reflexivity | now rewrite IH]. Qed.

Lemma match_classes_split (cs : list (ascii -> bool)) (s m rest : string) :
  match_classes cs s = Some (m, rest) ->
  s = (m ++ rest)%string /\ String.length m = length cs.
Proof.
  revert s m rest. induction cs as [| p cs IH]; intros s m rest H.
  - cbn in H. injection H as <- <-. now split.
  - cbn [match_classes] in H. destruct s as [| c s']; [discriminate |].
    destruct (p c); [| discriminate].
    destruct (match_classes cs s') as [[m' rest'] |] eqn:Hm; [| discriminate].
    injection H as <- <-. destruct (IH _ _ _ Hm) as [-> Hl].
    cbn. now rewrite Hl.
Qed.

Lemma first_alt_found {A : Type} (alts : list (list (ascii -> bool)))
    (k : string -> string -> option A) (s : string) (a : A) :
  first_alt alts k s = Some a ->
  exists alt m rest,
    In alt alts /\ match_classes alt s = Some (m, rest) /\ k m rest = Some a.
Proof.
  induction alts as [| alt alts IH]; cbn [first_alt]; [discriminate |].
  intros H.
  destruct (match_classes alt s) as [[m rest] |] eqn:Hm.
  - destruct (k m rest) as [a' |] eqn:Hk.
    + injection H as <-. exists alt, m, rest. cbn. auto.
    + destruct (IH H) as [alt' [m' [rest' [Hin Hrest]]]].
      exists alt', m', rest'. cbn. auto.
  - destruct (IH H) as [alt' [m' [rest' [Hin Hrest]]]].
    exists alt', m', rest'. cbn. auto.
Qed.

Lemma expect_hyphen_found {A : Type} (k : string -> option A) (s : string)
    (a : A) :
  expect_hyphen k s = Some a -> exists rest, s = String "-" rest /\ k rest = Some a.
Proof.
  unfold expect_hyphen. destruct s as [| c rest]; [discriminate |].
  destruct c as [[] [] [] [] [] [] [] []]; try discriminate.
  intros H. now exists rest.
Qed.

Lemma match_classes_repeat (p : ascii -> bool) (n : nat) (s m rest : string) :
  match_classes (repeat p n) s = Some (m, rest) ->
  Py.forallb_string p m = true.
Proof.
  revert s m rest. induction n as [| n IH]; intros s m rest H.
  - cbn in H. injection H as <- <-. reflexivity.
  - cbn [repeat match_classes] in H. destruct s as [| c s']; [discriminate |].
    destruct (p c) eqn:Hc; [| discriminate].
    destruct (match_classes (repeat p n) s') as [[m' rest'] |] eqn:Hm;
      [| discriminate].
    injection H as <- <-. cbn [Py.forallb_string].
    now rewrite Hc, (IH _ _ _ Hm).
Qed.

Lemma year_classes_digits (s m rest : string) :
  match_classes year_classes s = Some (m, rest) ->
  Py.forallb_string Py.isdecimal_char m = true.
Proof. apply (match_classes_repeat Py.isdecimal_char 4). Qed.

Lemma first_alt_single {A : Type} (alt : list (ascii -> bool))
    (k : string -> string -> option A) (s : string) :
  first_alt [alt] k s =
  match match_classes alt s with
  | Some (m, rest) => k m rest
  | None => None
  end.
Proof.
  cbn [first_alt]. destruct (match_classes alt s) as [[m rest] |];
    [destruct (k m rest) |]; reflexivity.
Qed.

Lemma match_classes_cons (p : ascii -> bool) (cs : list (ascii -> bool))
    (s m rest : string) :
  match_classes (p :: cs) s = Some (m, rest) ->
  exists c s' m',
    s = String c s' /\ p c = true /\ m = String c m'
    /\ match_classes cs s' = Some (m', rest).
Proof.
  cbn [match_classes]. destruct s as [| c s']; [discriminate |].
  destruct (p c) eqn:Hc; [| discriminate].
  destruct (match_classes cs s') as [[m' rest'] |] eqn:Hm; [| discriminate].
  intros H. injection H as <- <-. now exists c, s', m'.
Qed.

Lemma month_text_accepted {A : Type} (c1 c2 : ascii) (rest : string)
    (k : string -> string -> option A) (a : A) :
  Py.isdecimal_char c1 = true -> Py.isdecimal_char c2 = true ->
  (let v := decimal_value 0 (String c1 (String c2 EmptyString)) in
   (1 <=? v) && (v <=? 12))%Z = true ->
  k (String c1 (String c2 EmptyString)) rest = Some a ->
  first_alt month_alternatives k (String c1 (String c2 rest)) = Some a.
Proof.
  intros H1 H2 Hb Hk. apply decimal_cases in H1, H2. cbn [In] in H1, H2.
  repeat (destruct H1 as [<- | H1]); try contradiction;
    repeat (destruct H2 as [<- | H2]); try contradiction;
    vm_compute in Hb; try discriminate Hb;
    cbn; rewrite Hk; reflexivity.
Qed.

Lemma day_text_accepted {A : Type} (c1 c2 : ascii) (rest : string)
    (k : string -> string -> option A) (a : A) :
  Py.isdecimal_char c1 = true -> Py.isdecimal_char c2 = true ->
  (let v := decimal_value 0 (String c1 (String c2 EmptyString)) in
   (1 <=? v) && (v <=? 31))%Z = true ->
  k (String c1 (String c2 EmptyString)) rest = Some a ->
  first_alt day_alternatives k (String c1 (String c2 rest)) = Some a.
Proof.
  intros H1 H2 Hb Hk. apply decimal_cases in H1, H2. cbn [In] in H1, H2.
  repeat (destruct H1 as [<- | H1]); try contradiction;
    repeat (destruct H2 as [<- | H2]); try contradiction;
    vm_compute in Hb; try discriminate Hb;
    cbn; rewrite Hk; reflexivity.
Qed.

Lemma days_in_month_le_31 (y m : Z) : (days_in_month y m <= 31)%Z.
Proof.
  unfold days_in_month.
  repeat match goal with |- context [if ?b then _ else _] => destruct b end;
    lia.
Qed.

Lemma group_value_digits (c : ascii) (s : string) :
  Py.isdecimal_char c = true ->
  group_value (String c s) = decimal_value 0 (String c s).
Proof.
  intros H. unfold group_value. cbn [Py.lstrip].
  now rewrite (decimal_not_space c H).
Qed.

(** [strptime] accepts every exact YYYY-MM-DD calendar date. *)
Lemma strptime_ymd_exact (t : string) :
  spec_exact_iso_date t = true -> exists ymd, strptime_ymd t = Some ymd.
Proof.
  unfold spec_exact_iso_date.
  destruct (match_classes _ t) as [[m rest] |] eqn:Hm; [| discriminate].
  intros H. apply andb_true_iff in H as [Hrest Hvalid].
  apply is_empty_true in Hrest. subst rest.
  apply match_classes_cons in Hm as [c1 [t1 [m1 [-> [D1 [-> Hm]]]]]].
  apply match_classes_cons in Hm as [c2 [t2 [m2 [-> [D2 [-> Hm]]]]]].
  apply match_classes_cons in Hm as [c3 [t3 [m3 [-> [D3 [-> Hm]]]]]].
  apply match_classes_cons in Hm as [c4 [t4 [m4 [-> [D4 [-> Hm]]]]]].
  apply match_classes_cons in Hm as [h1 [t5 [m5 [-> [E1 [-> Hm]]]]]].
  apply match_classes_cons in Hm as [c5 [t6 [m6 [-> [D5 [-> Hm]]]]]].
  apply match_classes_cons in Hm as [c6 [t7 [m7 [-> [D6 [-> Hm]]]]]].
  apply match_classes_cons in Hm as [h2 [t8 [m8 [-> [E2 [-> Hm]]]]]].
  apply match_classes_cons in Hm as [c7 [t9 [m9 [-> [D7 [-> Hm]]]]]].
  apply match_classes_cons in Hm as [c8 [t10 [m10 [-> [D8 [-> Hm]]]]]].
  cbn [match_classes] in Hm. injection Hm as <- ->.
  apply is_code_char in E1, E2. subst h1 h2.
  cbn [String.substring] in Hvalid.
  unfold valid_calendar_date in Hvalid.
  repeat (apply andb_true_iff in Hvalid as [Hvalid ?Hv]).
  set (ys := String c1 (String c2 (String c3 (String c4 EmptyString)))) in *.
  set (ms := String c5 (String c6 EmptyString)) in *.
  set (ds := String c7 (String c8 EmptyString)) in *.
  assert (Hday : first_alt day_alternatives
                   (fun d unread => Some (ys, ms, d, unread))
                   (String c7 (String c8 EmptyString))
                 = Some (ys, ms, ds, EmptyString)).
  { apply day_text_accepted; [assumption | assumption | | reflexivity].
    cbv zeta. fold ds. apply andb_true_iff. split; [assumption |].
    apply Z.leb_le. apply Z.leb_le in Hv.
    pose proof (days_in_month_le_31 (decimal_value 0 ys) (decimal_value 0 ms)).
    lia. }
  assert (Hmatch : strptime_match
                     (String c1 (String c2 (String c3 (String c4
                       (String "-" (String c5 (String c6
                         (String "-" (String c7 (String c8 EmptyString))))))))))
                   = Some (ys, ms, ds, EmptyString)).
  { unfold strptime_match. rewrite first_alt_single.
    unfold year_classes. cbn [match_classes]. rewrite D1, D2, D3, D4.
    cbn [expect_hyphen].
    apply month_text_accepted; [assumption | assumption | |].
    - cbv zeta. fold ms. now apply andb_true_iff.
    - cbn [expect_hyphen]. exact Hday. }
  unfold strptime_ymd.
  change (ascii_of_N 45) with "-"%char. unfold ds at 1.
  rewrite Hmatch. cbn [Py.is_empty].
  unfold ys at 1, ms at 1, ds at 1.
  rewrite !group_value_digits by assumption.
  fold ys ms ds. unfold valid_calendar_date.
  rewrite Hvalid, Hv, Hv0, Hv1, Hv2, Hv3. cbn [andb]. eauto.
Qed.

Lemma month_alternative_digits (alt : list (ascii -> bool))
    (s m rest : string) :
  In alt month_alternatives ->
  match_classes alt s = Some (m, rest) ->
  1 <= String.length m <= 2 /\ Py.forallb_string Py.isdecimal_char m = true.
Proof.
  unfold month_alternatives. cbn [In].
  intros [<- | [<- | [<- | []]]] H;
    repeat (apply match_classes_cons in H
              as [?c [?s [?m [-> [?Hc [-> H]]]]]]);
    cbn [match_classes] in H; injection H as <- <-;
    (split; [cbn; lia |]); cbn [Py.forallb_string];
    repeat match goal with
      | Hc : chr_in _ _ ?c = true |- _ =>
          replace (Py.isdecimal_char c) with true
            by (destruct c as [[] [] [] [] [] [] [] []];
                vm_compute in Hc; first [discriminate Hc | reflexivity]);
          clear Hc
      end;
    reflexivity.
Qed.

Lemma day_alternative_shape (alt : list (ascii -> bool))
    (s d rest : string) :
  In alt day_alternatives ->
  match_classes alt s = Some (d, rest) ->
  (1 <= String.length d <= 2 /\ Py.forallb_string Py.isdecimal_char d = true)
  \/ exists c, d = String " " (String c EmptyString)
                /\ Py.isdecimal_char c = true.
Proof.
  unfold day_alternatives. cbn [In].
  intros [<- | [<- | [<- | [<- | [<- | []]]]]] H;
    repeat (apply match_classes_cons in H
              as [?c [?s [?m [-> [?Hc [-> H]]]]]]);
    cbn [match_classes] in H; injection H as <- <-.
  1-4: left; (split; [cbn; lia |]); cbn [Py.forallb_string];
    repeat match goal with
      | Hc : chr_in _ _ ?c = true |- _ =>
          replace (Py.isdecimal_char c) with true
            by (destruct c as [[] [] [] [] [] [] [] []];
                vm_compute in Hc; first [discriminate Hc | reflexivity]);
          clear Hc
      | Hc : Py.isdecimal_char ?c = true |- _ => rewrite Hc; clear Hc
      end;
    reflexivity.
  right. exists c0. split.
  - f_equal.
    destruct c as [[] [] [] [] [] [] [] []]; vm_compute in Hc;
      first [discriminate Hc | reflexivity].
  - destruct c0 as [[] [] [] [] [] [] [] []]; vm_compute in Hc0;
      first [discriminate Hc0 | reflexivity].
Qed.

(** A text [strptime] accepts spells a day of the calendar. *)
Lemma strptime_ymd_shape (t : string) (ymd : Z * Z * Z) :
  strptime_ymd t = Some ymd -> spells_calendar_day t.
Proof.
  unfold strptime_ymd.
  destruct (strptime_match t) as [[[[ys ms] ds] unread] |] eqn:Hm;
    [| discriminate].
  destruct (Py.is_empty unread) eqn:Hu; [| discriminate].
  apply is_empty_true in Hu. subst unread.
  destruct (valid_calendar_date (group_value ys) (group_value ms)
              (group_value ds)) eqn:Hv; [| discriminate].
  intros _.
  unfold strptime_match in Hm.
  apply first_alt_found in Hm as [alt [y' [r1 [Hin [Hy Hk]]]]].
  destruct Hin as [<- | []].
  apply expect_hyphen_found in Hk as [r2 [-> Hk]].
  apply first_alt_found in Hk as [malt [m' [r3 [Hmin [Hmm Hk]]]]].
  apply expect_hyphen_found in Hk as [r4 [-> Hk]].
  apply first_alt_found in Hk as [dalt [d' [r5 [Hdin [Hdm Hk]]]]].
  injection Hk as E1 E2 E3 E4. subst y' m' d' r5.
  pose proof (year_classes_digits _ _ _ Hy) as Hdig.
  pose proof (month_alternative_digits _ _ _ _ Hmin Hmm) as [Hlm Hmdig].
  pose proof (day_alternative_shape _ _ _ _ Hdin Hdm) as Hday.
  apply match_classes_split in Hy as [-> Hly].
  apply match_classes_split in Hmm as [-> _].
  apply match_classes_split in Hdm as [-> _].
  assert (Hys : group_value ys = decimal_value 0 ys).
  { destruct ys as [| c ys']; [reflexivity |].
    cbn [Py.forallb_string] in Hdig. apply andb_true_iff in Hdig as [Hc _].
    now apply group_value_digits. }
  assert (Hms : group_value ms = decimal_value 0 ms).
  { destruct ms as [| c ms']; [reflexivity |].
    cbn [Py.forallb_string] in Hmdig.
    apply andb_true_iff in Hmdig as [Hc _].
    now apply group_value_digits. }
  rewrite Hys, Hms in Hv.
  exists ys, ms, ds. rewrite append_empty_r.
  repeat split; solve [assumption | reflexivity | lia].
Qed.

Lemma month_digit_accepted {A : Type} (c : ascii) (rest : string)
    (k : string -> string -> option A) (a : A) :
  Py.isdecimal_char c = true ->
  (1 <=? decimal_value 0 (String c EmptyString))%Z = true ->
  k (String c EmptyString) (String "-" rest) = Some a ->
  first_alt month_alternatives k (String c (String "-" rest)) = Some a.
Proof.
  intros H1 Hb Hk. apply decimal_cases in H1. cbn [In] in H1.
  repeat (destruct H1 as [<- | H1]); try contradiction;
    vm_compute in Hb; try discriminate Hb;
    cbn; rewrite Hk; reflexivity.
Qed.

Lemma day_digit_accepted {A : Type} (c : ascii)
    (k : string -> string -> option A) (a : A) :
  Py.isdecimal_char c = true ->
  (1 <=? decimal_value 0 (String c EmptyString))%Z = true ->
  k (String c EmptyString) EmptyString = Some a ->
  first_alt day_alternatives k (String c EmptyString) = Some a.
Proof.
  intros H1 Hb Hk. apply decimal_cases in H1. cbn [In] in H1.
  repeat (destruct H1 as [<- | H1]); try contradiction;
    vm_compute in Hb; try discriminate Hb;
    cbn; rewrite Hk; reflexivity.
Qed.

Lemma day_blank_digit_accepted {A : Type} (c : ascii)
    (k : string -> string -> option A) (a : A) :
  Py.isdecimal_char c = true ->
  (1 <=? decimal_value 0 (String c EmptyString))%Z = true ->
  k (String " " (String c EmptyString)) EmptyString = Some a ->
  first_alt day_alternatives k (String " " (String c EmptyString)) = Some a.
Proof.
  intros H1 Hb Hk. apply decimal_cases in H1. cbn [In] in H1.
  repeat (destruct H1 as [<- | H1]); try contradiction;
    vm_compute in Hb; try discriminate Hb;
    cbn; rewrite Hk; reflexivity.
Qed.

Lemma group_value_blank_digit (c : ascii) :
  Py.isdecimal_char c = true ->
  group_value (String " " (String c EmptyString))
  = decimal_value 0 (String c EmptyString).
Proof.
  intros H. unfold group_value. cbn [Py.lstrip].
  change (Py.isspace_char " ") with true. cbv iota.
  now rewrite (decimal_not_space c H).
Qed.

(** Every text that spells a day of the calendar is accepted by
    [strptime]. *)
Lemma strptime_ymd_complete (t : string) :
  spells_calendar_day t -> exists ymd, strptime_ymd t = Some ymd.
Proof.
  intros [ys [ms [ds [-> [Hly [Hyd [Hlm [Hmd [Hds Hvalid]]]]]]]]].
  destruct ys as [| c1 [| c2 [| c3 [| c4 [| c5 ys]]]]]; try discriminate Hly.
  cbn [Py.forallb_string] in Hyd.
  apply andb_true_iff in Hyd as [D1 Hyd]. apply andb_true_iff in Hyd as [D2 Hyd].
  apply andb_true_iff in Hyd as [D3 Hyd]. apply andb_true_iff in Hyd as [D4 _].
  set (ys := String c1 (String c2 (String c3 (String c4 EmptyString)))) in *.
  assert (Hbounds :
    (1 <= decimal_value 0 ms <= 12 /\ 1 <= group_value ds <= 31)%Z).
  { unfold valid_calendar_date in Hvalid.
    repeat (apply andb_true_iff in Hvalid as [Hvalid ?Hv]).
    pose proof (days_in_month_le_31 (decimal_value 0 ys) (decimal_value 0 ms)).
    lia. }
  destruct Hbounds as [Hmb Hdb].
  assert (Hgm : ms <> EmptyString -> group_value ms = decimal_value 0 ms).
  { destruct ms as [| c ms']; [contradiction |]. intros _.
    cbn [Py.forallb_string] in Hmd. apply andb_true_iff in Hmd as [Hc _].
    now apply group_value_digits. }
  assert (Hfinish : forall ms' ds',
    ms' = ms -> ds' = ds ->
    strptime_match (ys ++ "-" ++ ms ++ "-" ++ ds)
      = Some (ys, ms', ds', EmptyString) ->
    exists ymd, strptime_ymd (ys ++ "-" ++ ms ++ "-" ++ ds) = Some ymd).
  { intros ms' ds' -> -> Hmatch. unfold strptime_ymd. rewrite Hmatch.
    cbn [Py.is_empty].
    assert (Hgy : group_value ys = decimal_value 0 ys)
      by now apply group_value_digits.
    rewrite Hgy, Hgm, Hvalid; [eauto |].
    intros ->. cbn in Hlm. lia. }
  assert (Hday : forall m0 : string,
    first_alt day_alternatives
      (fun d unread : string => Some (ys, m0, d, unread)) ds
    = Some (ys, m0, ds, EmptyString)).
  { intros m0. destruct Hds as [[Hld Hdd] | [c [-> Hc]]].
    - destruct ds as [| d1 [| d2 [| d3 ds]]]; cbn in Hld; try lia;
        cbn [Py.forallb_string] in Hdd.
      + apply andb_true_iff in Hdd as [E1 _].
        apply day_digit_accepted; [assumption | | reflexivity].
        rewrite (group_value_digits d1 _ E1) in Hdb. apply Z.leb_le. lia.
      + apply andb_true_iff in Hdd as [E1 Hdd].
        apply andb_true_iff in Hdd as [E2 _].
        apply day_text_accepted; [assumption | assumption | | reflexivity].
        rewrite (group_value_digits d1 _ E1) in Hdb. cbv zeta.
        apply andb_true_iff. split; apply Z.leb_le; lia.
    - apply day_blank_digit_accepted; [assumption | | reflexivity].
      rewrite (group_value_blank_digit c Hc) in Hdb. apply Z.leb_le. lia. }
  apply (Hfinish ms ds eq_refl eq_refl).
  unfold strptime_match. rewrite first_alt_single.
  unfold ys, year_classes. cbn [String.append match_classes].
  rewrite D1, D2, D3, D4. fold ys. cbn [expect_hyphen].
  destruct ms as [| m1 [| m2 [| m3 ms]]]; cbn in Hlm; try lia;
    cbn [Py.forallb_string] in Hmd.
  - apply andb_true_iff in Hmd as [E1 _]. cbn [String.append].
    apply month_digit_accepted; [assumption | apply Z.leb_le; lia |].
    cbn [expect_hyphen]. apply Hday.
  - apply andb_true_iff in Hmd as [E1 Hmd].
    apply andb_true_iff in Hmd as [E2 _]. cbn [String.append].
    apply month_text_accepted; [assumption | assumption | |].
    + cbv zeta. apply andb_true_iff. split; apply Z.leb_le; lia.
    + cbn [expect_hyphen]. apply Hday.
Qed.

(** The texts of the form YYYY-MM-DD that name a day of the calendar
    are those that spell one with month and day of two digits. *)
Lemma exact_iso_date_padded (t : string) :
  spec_exact_iso_date t = true <-> spells_padded_calendar_day t.
Proof.
  split.
  - unfold spec_exact_iso_date.
    destruct (match_classes _ t) as [[m rest] |] eqn:Hm; [| discriminate].
    intros H. apply andb_true_iff in H as [Hrest Hvalid].
    apply is_empty_true in Hrest. subst rest.
    apply match_classes_cons in Hm as [c1 [t1 [m1 [-> [D1 [-> Hm]]]]]].
    apply match_classes_cons in Hm as [c2 [t2 [m2 [-> [D2 [-> Hm]]]]]].
    apply match_classes_cons in Hm as [c3 [t3 [m3 [-> [D3 [-> Hm]]]]]].
    apply match_classes_cons in Hm as [c4 [t4 [m4 [-> [D4 [-> Hm]]]]]].
    apply match_classes_cons in Hm as [h1 [t5 [m5 [-> [E1 [-> Hm]]]]]].
    apply match_classes_cons in Hm as [c5 [t6 [m6 [-> [D5 [-> Hm]]]]]].
    apply match_classes_cons in Hm as [c6 [t7 [m7 [-> [D6 [-> Hm]]]]]].
    apply match_classes_cons in Hm as [h2 [t8 [m8 [-> [E2 [-> Hm]]]]]].
    apply match_classes_cons in Hm as [c7 [t9 [m9 [-> [D7 [-> Hm]]]]]].
    apply match_classes_cons in Hm as [c8 [t10 [m10 [-> [D8 [-> Hm]]]]]].
    cbn [match_classes] in Hm. injection Hm as <- ->.
    apply is_code_char in E1, E2. subst h1 h2.
    cbn [String.substring] in Hvalid.
    exists (String c1 (String c2 (String c3 (String c4 EmptyString)))),
      (String c5 (String c6 EmptyString)),
      (String c7 (String c8 EmptyString)).
    cbn [Py.forallb_string String.length].
    rewrite D1, D2, D3, D4, D5, D6, D7, D8.
    repeat split; solve [reflexivity | exact Hvalid].
  - intros [ys [ms [ds [-> [Hly [Hyd [Hlm [Hmd [Hld [Hdd Hvalid]]]]]]]]]].
    destruct ys as [| c1 [| c2 [| c3 [| c4 [| c5 ys]]]]];
      try discriminate Hly.
    destruct ms as [| c5 [| c6 [| c7 ms]]]; try discriminate Hlm.
    destruct ds as [| c7 [| c8 [| c9 ds]]]; try discriminate Hld.
    cbn [Py.forallb_string] in Hyd, Hmd, Hdd.
    repeat match goal with
      | H : _ && _ = true |- _ => apply andb_true_iff in H as [? H]
      end.
    unfold spec_exact_iso_date. cbn [String.append match_classes].
    repeat match goal with
      | H : Py.isdecimal_char ?c = true |- _ => rewrite H; clear H
      end.
    change (Py.is_code 45 "-") with true. cbv iota.
    cbn [Py.is_empty String.substring andb]. exact Hvalid.
Qed.

Lemma rstrip_cons_nonspace (c : ascii) (s : string) :
  Py.isspace_char c = false ->
  Py.rstrip (String c s) = String c (Py.rstrip s).
Proof. intros H. cbn [Py.rstrip]. now rewrite H. Qed.

(** No text with month 13 after a four-digit year is accepted. *)
Lemma month_13_rejected (ys ds : string) :
  String.length ys = 4 ->
  Py.forallb_string Py.isdecimal_char ys = true ->
  validate_date (ys ++ "-13-" ++ ds) = false.
Proof.
  intros Hl Hd.
  destruct ys as [| c1 [| c2 [| c3 [| c4 [| c5 ys]]]]]; try discriminate Hl.
  cbn [Py.forallb_string] in Hd.
  apply andb_true_iff in Hd as [D1 Hd]. apply andb_true_iff in Hd as [D2 Hd].
  apply andb_true_iff in Hd as [D3 Hd]. apply andb_true_iff in Hd as [D4 _].
  unfold validate_date, Py.strip. cbn [String.append Py.lstrip].
  rewrite (decimal_not_space c1 D1).
  rewrite !rstrip_cons_nonspace
    by first [reflexivity | now apply decimal_not_space].
  cbn [Py.is_empty].
  unfold strptime_ymd, strptime_match. rewrite first_alt_single.
  unfold year_classes. cbn [match_classes]. rewrite D1, D2, D3, D4.
  reflexivity.
Qed.

(** What [validate_date] accepts: the blank texts and, trimmed, the
    texts that spell a day of the calendar. *)
Lemma validate_date_accepts (s : string) :
  validate_date s = true
  <-> Py.strip s = EmptyString \/ spells_calendar_day (Py.strip s).
Proof.
  unfold validate_date. split.
  - destruct (Py.is_empty (Py.strip s)) eqn:He.
    + intros _. left. now apply is_empty_true.
    + destruct (strptime_ymd (Py.strip s)) as [ymd |] eqn:Hp;
        [| discriminate].
      intros _. right. exact (strptime_ymd_shape _ _ Hp).
  - intros [-> | Hday]; [reflexivity |].
    destruct (Py.is_empty (Py.strip s)); [reflexivity |].
    destruct (strptime_ymd_complete _ Hday) as [ymd ->]. reflexivity.
Qed.

(** C8.  The validator accepts 2025-1-5, which is not of the form
    YYYY-MM-DD that its docstring, its prompt and its error line name.
    In general it accepts the blank texts and the texts that, trimmed,
    spell a day of the calendar with a month of one or two digits and a
    day of one or two digits or of a blank and a digit, and no other;
    the dates of the form YYYY-MM-DD are those among them with month
    and day of two digits.  As the claim says, every exact YYYY-MM-DD
    calendar date is accepted, and 2025-02-30 and every month 13 are
    rejected. *)
Theorem C8_validate_date_accepts_unpadded_dates :
  (validate_date "2025-1-5" = true
   /\ spec_exact_iso_date "2025-1-5" = false)
  /\ (forall s,
        validate_date s = true
        <-> Py.strip s = EmptyString \/ spells_calendar_day (Py.strip s))
  /\ (forall t,
        spec_exact_iso_date t = true <-> spells_padded_calendar_day t)
  /\ (forall s, spec_exact_iso_date (Py.strip s) = true ->
        validate_date s = true)
  /\ validate_date "2025-02-30" = false
  /\ (forall ys ds, String.length ys = 4 ->
        Py.forallb_string Py.isdecimal_char ys = true ->
        validate_date (ys ++ "-13-" ++ ds) = false).
Proof.
  split; [split; vm_compute; reflexivity |].
  split; [exact validate_date_accepts |].
  split; [exact exact_iso_date_padded |].
  split; [| split].
  - intros s Hs. unfold validate_date.
    destruct (Py.is_empty (Py.strip s)); [reflexivity |].
    destruct (strptime_ymd_exact _ Hs) as [ymd ->]. reflexivity.
  - vm_compute. reflexivity.
  - exact month_13_rejected.
Qed.

(** ** The guided-collection engine *)

Arguments interpret_choice : simpl never.
Arguments validate_email : simpl never.
Arguments validate_date : simpl never.
Arguments generate_labels_from_description : simpl never.
Arguments manual_labels : simpl never.
Arguments is_skip : simpl never.
Arguments re_match_anchored : simpl never.
Arguments Py.strip : simpl never.
Arguments Py.str_of_nat : simpl never.

Lemma choice_field_cases (field : string) :
  in_CHOICE_MAPS field = true ->
  field = "issue_type" \/ field = "priority" \/ field = "status".
Proof.
  unfold in_CHOICE_MAPS, CHOICE_MAPS. cbn [existsb fst].
  intros H. repeat (apply orb_true_iff in H as [H | H]);
    try discriminate H; apply String.eqb_eq in H; subst; auto.
Qed.

Lemma lower_decimal (t : string) :
  Py.forallb_string Py.isdecimal_char t = true -> Py.lower t = t.
Proof.
  induction t as [| c t IH]; [reflexivity |].
  cbn [Py.forallb_string Py.lower]. intros H.
  apply andb_true_iff in H as [Hc Ht]. rewrite (IH Ht). f_equal.
  apply decimal_cases in Hc. cbn [In] in Hc.
  repeat (destruct Hc as [<- | Hc]; [reflexivity |]). contradiction.
Qed.

Lemma decimal_isdigit (t : string) :
  Py.forallb_string Py.isdecimal_char t = true ->
  Py.forallb_string Py.isdigit_char t = true.
Proof.
  induction t as [| c t IH]; [reflexivity |].
  cbn [Py.forallb_string]. intros H.
  apply andb_true_iff in H as [Hc Ht]. rewrite (IH Ht).
  unfold Py.isdigit_char. now rewrite Hc.
Qed.

(** A numeric reply within the list selects the option at that index. *)
Lemma interpret_choice_index (field text : string) :
  let t := Py.strip text in
  Py.is_empty t = false ->
  Py.forallb_string Py.isdecimal_char t = true ->
  String.length t <= int_max_str_digits ->
  (1 <= decimal_value 0 t <= Z.of_nat (length (CHOICE_MAPS_get field)))%Z ->
  exists opt,
    nth_error (CHOICE_MAPS_get field) (Z.to_nat (decimal_value 0 t - 1))
      = Some opt
    /\ interpret_choice field text = Ok (Some opt).
Proof.
  intros t Hne Hdec Hlen Hrange.
  destruct (nth_error (CHOICE_MAPS_get field)
              (Z.to_nat (decimal_value 0 t - 1))) as [opt |] eqn:Hnth.
  - exists opt. split; [reflexivity |].
    unfold interpret_choice. cbv zeta. fold t. rewrite (lower_decimal t Hdec).
    unfold numeric_reply, Py.isdigit, py_int.
    rewrite Hne, Hdec, (decimal_isdigit t Hdec). cbn [negb andb].
    replace ((int_max_str_digits <? String.length t)%nat) with false
      by (symmetry; apply Nat.ltb_ge; exact Hlen).
    cbn [bind].
    replace ((0 <=? decimal_value 0 t - 1)%Z) with true
      by (symmetry; apply Z.leb_le; lia).
    replace ((decimal_value 0 t - 1 <?
              Z.of_nat (length (CHOICE_MAPS_get field)))%Z) with true
      by (symmetry; apply Z.ltb_lt; lia).
    cbn [andb]. rewrite Hnth. reflexivity.
  - exfalso. apply nth_error_None in Hnth. lia.
Qed.

(** A reply spelling an option, in lower case or in lower case without
    its spaces and hyphens, selects that option. *)
Lemma interpret_choice_text (field opt text : string) :
  In opt (CHOICE_MAPS_get field) ->
  Py.lower (Py.strip text) = Py.lower opt
  \/ Py.lower (Py.strip text) = normalized opt ->
  interpret_choice field text = Ok (Some opt).
Proof.
  intros Hin Ht. unfold interpret_choice. cbv zeta.
  destruct (in_CHOICE_MAPS field) eqn:Hf.
  - apply choice_field_cases in Hf as [-> | [-> | ->]];
      cbn in Hin;
      repeat (destruct Hin as [<- | Hin]; [destruct Ht as [-> | ->];
                                           vm_compute; reflexivity |]);
      contradiction.
  - exfalso. revert Hf Hin. unfold in_CHOICE_MAPS, CHOICE_MAPS_get, CHOICE_MAPS.
    cbn [existsb find fst snd].
    repeat (destruct (String.eqb _ field); [discriminate |]).
    cbn. intros _ [].
Qed.

(** Only those replies select an option. *)
Lemma lower_char_decimal (c : ascii) :
  Py.isdecimal_char (Py.lower_char c) = true -> Py.lower_char c = c.
Proof.
  destruct c as [[] [] [] [] [] [] [] []]; vm_compute; intros H;
    first [discriminate H | reflexivity].
Qed.

Lemma lower_decimal_inv (t : string) :
  Py.forallb_string Py.isdecimal_char (Py.lower t) = true -> Py.lower t = t.
Proof.
  induction t as [| c t IH]; [reflexivity |].
  cbn [Py.forallb_string Py.lower]. intros H.
  apply andb_true_iff in H as [Hc Ht].
  now rewrite (IH Ht), (lower_char_decimal c Hc).
Qed.

Lemma interpret_choice_only (field text opt : string) :
  interpret_choice field text = Ok (Some opt) ->
  let u := Py.strip text in
  In opt (CHOICE_MAPS_get field)
  /\ ((Py.is_empty u = false
       /\ Py.forallb_string Py.isdecimal_char u = true
       /\ String.length u <= int_max_str_digits
       /\ (1 <= decimal_value 0 u
              <= Z.of_nat (length (CHOICE_MAPS_get field)))%Z
       /\ nth_error (CHOICE_MAPS_get field) (Z.to_nat (decimal_value 0 u - 1))
          = Some opt)
      \/ Py.lower u = Py.lower opt \/ Py.lower u = normalized opt).
Proof.
  intros H u. unfold interpret_choice in H. cbv zeta in H. fold u in H.
  set (t := Py.lower u) in *.
  assert (Htext : text_reply (CHOICE_MAPS_get field) t = Some opt ->
                  In opt (CHOICE_MAPS_get field)
                  /\ (t = Py.lower opt \/ t = normalized opt)).
  { unfold text_reply. intros Hfind. apply find_some in Hfind as [Hin Hm].
    split; [assumption |]. apply mem_In in Hm. cbn [In] in Hm.
    destruct Hm as [<- | [<- | []]]; auto. }
  unfold numeric_reply in H. destruct (Py.isdigit t) eqn:Hd.
  - unfold py_int in H.
    destruct (negb (Py.is_empty t)
              && Py.forallb_string Py.isdecimal_char t) eqn:Hdec;
      [| discriminate].
    destruct (int_max_str_digits <? String.length t)%nat eqn:Hlen;
      cbn [bind] in H; [discriminate |].
    apply andb_true_iff in Hdec as [Hne Hdec].
    apply negb_true_iff in Hne. apply Nat.ltb_ge in Hlen.
    assert (Htu : t = u) by (apply lower_decimal_inv; exact Hdec).
    destruct ((0 <=? decimal_value 0 t - 1)%Z
              && (decimal_value 0 t - 1 <?
                  Z.of_nat (length (CHOICE_MAPS_get field)))%Z) eqn:Hrange.
    + destruct (nth_error _ _) as [o |] eqn:Hnth.
      * injection H as <-. split; [now apply nth_error_In in Hnth |].
        left. apply andb_true_iff in Hrange as [Hlo Hhi].
        apply Z.leb_le in Hlo. apply Z.ltb_lt in Hhi.
        rewrite Htu in *. repeat split; solve [assumption | lia].
      * injection H as H. destruct (Htext H) as [Hin Hm]. now split; [| right].
    + injection H as H. destruct (Htext H) as [Hin Hm]. now split; [| right].
  - cbn [bind] in H. injection H as H.
    destruct (Htext H) as [Hin Hm]. now split; [| right].
Qed.

Lemma handle_menu_rejected (order : set_iteration) (state : ConversationState)
    (message field : string) :
  in_CHOICE_MAPS field = true ->
  interpret_choice field (Py.strip message) = Ok None ->
  JiraAgent._handle_field_input order state message field
  = Ok (state, Some (reprompt_of state field "Invalid choice. Please try again.")).
Proof.
  intros Hf Hc. unfold JiraAgent._handle_field_input.
  rewrite Hf, Hc. reflexivity.
Qed.

(** A turn of [process_turn] that the handler answers. *)
Lemma process_turn_handled (order : set_iteration) (llm : llm_outcome)
    (state state' : ConversationState) (message field : string)
    (r : AgentResponse) :
  awaiting_field state = Some field ->
  Py.is_empty field = false ->
  JiraAgent._handle_field_input order state message field
    = Ok (state', Some r) ->
  JiraAgent.process_turn order llm state message = (logged state' message r, r).
Proof.
  intros Ha Hne Hh. unfold JiraAgent.process_turn, JiraAgent.process_message_body.
  rewrite Ha. cbn [truthy]. rewrite Hne. cbn [negb]. rewrite Hh.
  reflexivity.
Qed.

(** A turn of [process_turn] in which the handler raises. *)
Lemma process_turn_raised (order : set_iteration) (llm : llm_outcome)
    (state : ConversationState) (message field : string) (e : exn) :
  awaiting_field state = Some field ->
  Py.is_empty field = false ->
  JiraAgent._handle_field_input order state message field = Raise e ->
  JiraAgent.process_turn order llm state message
  = (state, JiraAgent.error_response e).
Proof.
  intros Ha Hne Hh. unfold JiraAgent.process_turn, JiraAgent.process_message_body.
  rewrite Ha. cbn [truthy]. rewrite Hne. cbn [negb]. rewrite Hh.
  reflexivity.
Qed.

Lemma choice_field_nonempty (field : string) :
  in_CHOICE_MAPS field = true -> Py.is_empty field = false.
Proof.
  intros H. apply choice_field_cases in H as [-> | [-> | ->]]; reflexivity.
Qed.

(** ** C3: menu fields *)

(** C3 (as the code has it).  On a menu field, a reply that, trimmed,
    is a decimal numeral (of no more digits than [int] converts) with
    a value from 1 to the number of choices selects the choice at that
    index; a reply that, trimmed and
    lowercased, equals a choice in lower case, or in lower case with
    its spaces and hyphens removed, selects that choice; no other
    reply selects a choice: a reply that selects one is such a numeral,
    not blank and with a value from 1 to the number of choices, at
    whose index the choice stands, or such a spelling of the choice;
    and a reply for which [interpret_choice]
    returns no choice is answered by the invalid-choice re-prompt of
    the same field, with the awaited field and the draft unchanged. *)
Theorem C3_menu_choice_amended :
  (forall field text,
      let t := Py.strip text in
      Py.is_empty t = false ->
      Py.forallb_string Py.isdecimal_char t = true ->
      String.length t <= int_max_str_digits ->
      (1 <= decimal_value 0 t <= Z.of_nat (length (CHOICE_MAPS_get field)))%Z ->
      exists opt,
        nth_error (CHOICE_MAPS_get field) (Z.to_nat (decimal_value 0 t - 1))
          = Some opt
        /\ interpret_choice field text = Ok (Some opt))
  /\ (forall field opt text,
        In opt (CHOICE_MAPS_get field) ->
        Py.lower (Py.strip text) = Py.lower opt
        \/ Py.lower (Py.strip text) = normalized opt ->
        interpret_choice field text = Ok (Some opt))
  /\ (forall field text opt,
        interpret_choice field text = Ok (Some opt) ->
        let u := Py.strip text in
        In opt (CHOICE_MAPS_get field)
        /\ ((Py.is_empty u = false
             /\ Py.forallb_string Py.isdecimal_char u = true
             /\ String.length u <= int_max_str_digits
             /\ (1 <= decimal_value 0 u
                    <= Z.of_nat (length (CHOICE_MAPS_get field)))%Z
             /\ nth_error (CHOICE_MAPS_get field)
                  (Z.to_nat (decimal_value 0 u - 1)) = Some opt)
            \/ Py.lower u = Py.lower opt \/ Py.lower u = normalized opt))
  /\ (forall order llm state message field,
        awaiting_field state = Some field ->
        in_CHOICE_MAPS field = true ->
        interpret_choice field (Py.strip message) = Ok None ->
        let out := JiraAgent.process_turn order llm state message in
        snd out = reprompt_of state field "Invalid choice. Please try again."
        /\ missing_fields (snd out) = [field]
        /\ ready_for_jira (snd out) = false
        /\ awaiting_field (fst out) = Some field
        /\ partial_issue_data (fst out) = partial_issue_data state).
Proof.
  split; [exact interpret_choice_index |].
  split; [exact interpret_choice_text |].
  split; [exact interpret_choice_only |].
  intros order llm state message field Ha Hf Hc out. subst out.
  rewrite (process_turn_handled order llm state state message field
             (reprompt_of state field "Invalid choice. Please try again.")
             Ha (choice_field_nonempty field Hf)
             (handle_menu_rejected order state message field Hf Hc)).
  cbn. auto.
Qed.

Lemma C3_menu_choice_witness :
  interpret_choice "status" " 2 " = Ok (Some "In Progress")
  /\ interpret_choice "status" "InProgress" = Ok (Some "In Progress")
  /\ snd (JiraAgent.process_turn occurrence_order (LlmFails "unused")
            state_with_priority_awaited "maybe")
     = reprompt_of state_with_priority_awaited "priority"
         "Invalid choice. Please try again.".
Proof.
  destruct C3_menu_choice_amended as [Hindex [Htext [_ Hreject]]].
  split; [| split].
  - destruct (Hindex "status" " 2 ") as [opt [Hnth Hc]];
      [reflexivity | reflexivity | vm_compute; lia | vm_compute; split; discriminate |].
    vm_compute in Hnth. injection Hnth as <-. exact Hc.
  - apply Htext; [vm_compute; tauto | right; vm_compute; reflexivity].
  - apply (Hreject occurrence_order (LlmFails "unused")
             state_with_priority_awaited "maybe" "priority");
      vm_compute; reflexivity.
Defined.

(** C3, counterexample.  The reply to-do differs from the status choice
    To Do in case, spaces and hyphens only, and is not accepted: the
    code compares the reply with two spellings of each choice and does
    not remove hyphens or spaces from the reply. *)
Lemma C3_counterexample :
  In "To Do" (CHOICE_MAPS_get "status")
  /\ spec_textual_variant "To Do" "to-do" = true
  /\ interpret_choice "status" "to-do" = Ok None.
Proof. repeat split; vm_compute; auto. Qed.

(** ** C6: validation failures *)

(** A prompt for the next field carries no error line. *)
Lemma next_prompt_has_no_error (state state' : ConversationState)
    (r : AgentResponse) (e field : string) (shown : list string) :
  JiraAgent._get_next_field_prompt state = (state', r) ->
  response_message r <> FieldPrompt (Some e) field shown.
Proof.
  unfold JiraAgent._get_next_field_prompt. cbv zeta.
  destruct (awaiting_field state) as [current |];
    [destruct (index_of current FIELD_ORDER) as [i |];
     [destruct (i + 1 <? length FIELD_ORDER)%nat |] |];
    intros H; injection H as <- <-; cbn; discriminate.
Qed.

(** Every branch of the handler either advances or re-prompts. *)
Ltac handler_cases H :=
  repeat match type of H with
    | context [bind ?m _] =>
        let E := fresh "E" in
        destruct m as [[?c |] | ?e] eqn:E; cbn [bind truthy negb] in H
    | context [bind ?m _] =>
        let E := fresh "E" in
        destruct m as [?v | ?e] eqn:E; cbn [bind] in H
    | context [if ?b then _ else _] =>
        let E := fresh "E" in destruct b eqn:E
    | context [match generate_labels_from_description ?x with _ => _ end] =>
        destruct (generate_labels_from_description x)
    | context [JiraAgent._get_next_field_prompt ?arg] =>
        let E := fresh "E" in
        destruct (JiraAgent._get_next_field_prompt arg) as [?s ?r] eqn:E
    end.

(** A response of the handler that carries an error line is the
    re-prompt of the field asked, and the state is untouched. *)
Lemma validation_failure_frame (order : set_iteration)
    (state state' : ConversationState) (message field : string)
    (r : AgentResponse) (e field' : string) (shown : list string) :
  JiraAgent._handle_field_input order state message field
    = Ok (state', Some r) ->
  response_message r = FieldPrompt (Some e) field' shown ->
  state' = state /\ r = reprompt_of state field e /\ field' = field.
Proof.
  intros H Hr. unfold JiraAgent._handle_field_input in H. cbv zeta in H.
  handler_cases H;
    try discriminate H;
    injection H as <- <-;
    try (exfalso; eapply next_prompt_has_no_error; eassumption);
    cbn in Hr; injection Hr as <- <- <-; auto.
Qed.

(** C6, at the failing input.  While issue_type is awaited, the reply
    made of a superscript two is an invalid menu choice; the turn does
    not re-prompt the field: [str.isdigit] accepts the character,
    [int] raises on it, and the turn ends in the error response of the
    [except] clause, which names no field and asks no question.  The
    state is left as it was. *)
Theorem C6_superscript_digit_is_not_reprompted (order : set_iteration)
    (llm : llm_outcome) (state : ConversationState) :
  awaiting_field state = Some "issue_type" ->
  let out := JiraAgent.process_turn order llm state superscript_two in
  interpret_choice "issue_type" (Py.strip superscript_two)
    = Raise (ValueError_int superscript_two)
  /\ snd out = JiraAgent.error_response (ValueError_int superscript_two)
  /\ snd out <> reprompt_of state "issue_type" "Invalid choice. Please try again."
  /\ intent (snd out) = UNKNOWN
  /\ next_question (snd out) = None
  /\ missing_fields (snd out) = []
  /\ fst out = state.
Proof.
  intros Ha out.
  assert (Hc : interpret_choice "issue_type" (Py.strip superscript_two)
               = Raise (ValueError_int superscript_two))
    by (vm_compute; reflexivity).
  assert (Hh : JiraAgent._handle_field_input order state superscript_two
                 "issue_type" = Raise (ValueError_int superscript_two)).
  { unfold JiraAgent._handle_field_input. cbv zeta.
    change (in_CHOICE_MAPS "issue_type") with true. cbv iota.
    rewrite Hc. reflexivity. }
  subst out.
  rewrite (process_turn_raised order llm state superscript_two "issue_type"
             _ Ha eq_refl Hh).
  cbn [fst snd]. repeat split; try reflexivity; try assumption.
  unfold reprompt_of, JiraAgent._get_field_prompt, JiraAgent.error_response.
  discriminate.
Qed.

Lemma C6_superscript_digit_witness :
  snd (JiraAgent.process_turn occurrence_order (LlmFails "unused")
         (with_awaiting (Some "issue_type") (new_conversation_state "u"))
         superscript_two)
  = JiraAgent.error_response (ValueError_int superscript_two).
Proof.
  exact (proj1 (proj2
    (C6_superscript_digit_is_not_reprompted occurrence_order
       (LlmFails "unused")
       (with_awaiting (Some "issue_type") (new_conversation_state "u"))
       eq_refl))).
Defined.

(** ** C7: a turn always ends in a response *)

Lemma process_turn_extractor_failure (order : set_iteration)
    (llm : llm_outcome) (state : ConversationState) (message err : string) :
  reaches_extractor order state message ->
  llm = LlmFails err \/ llm = LlmUnparsable err ->
  let out := JiraAgent.process_turn order llm state message in
  intent (snd out) = UNKNOWN
  /\ ready_for_jira (snd out) = false
  /\ (response_message (snd out) = Text JiraAgent.trouble_text
      \/ response_message (snd out) = Text JiraAgent.clarification_text)
  /\ fst out = logged state message (snd out).
Proof.
  intros Hreach Hllm out. subst out.
  assert (Hhandled :
    (if truthy (awaiting_field state)
     then match awaiting_field state with
          | Some awaiting =>
              JiraAgent._handle_field_input order state message awaiting
          | None => Ok (state, None)
          end
     else Ok (state, None)) = Ok (state, None)).
  { destruct Hreach as [-> | [field [Ha Hh]]]; [reflexivity |].
    rewrite Ha, Hh. now destruct (truthy (Some field)). }
  unfold JiraAgent.process_turn, JiraAgent.process_message_body.
  rewrite Hhandled. cbn [bind].
  destruct Hllm as [-> | ->].
  - cbn. auto.
  - unfold JiraAgent._extract_intent_and_data.
    cbn [current_intent history_append].
    destruct (current_intent state) as [[] |]; cbn; auto.
Qed.

(** C7.  A turn never ends in an exception: an exception raised inside
    the turn becomes an unknown-intent response that carries the error,
    with the state as the turn found it; and when the turn reaches the
    Intent Extractor and the call fails or its answer cannot be parsed,
    the response is an unknown-intent clarification and the state
    changes by the two history lines only. *)
Theorem C7_turns_never_raise (order : set_iteration) (llm : llm_outcome)
    (state : ConversationState) (message : string) :
  (forall e,
      JiraAgent.process_message_body order llm state message = Raise e ->
      let out := JiraAgent.process_turn order llm state message in
      snd out = JiraAgent.error_response e
      /\ intent (snd out) = UNKNOWN
      /\ error (snd out) = Some (ErrException e)
      /\ ready_for_jira (snd out) = false
      /\ fst out = state)
  /\ (forall out,
        JiraAgent.process_message_body order llm state message = Ok out ->
        JiraAgent.process_turn order llm state message = out)
  /\ (forall err,
        reaches_extractor order state message ->
        llm = LlmFails err \/ llm = LlmUnparsable err ->
        let out := JiraAgent.process_turn order llm state message in
        intent (snd out) = UNKNOWN
        /\ ready_for_jira (snd out) = false
        /\ (response_message (snd out) = Text JiraAgent.trouble_text
            \/ response_message (snd out) = Text JiraAgent.clarification_text)
        /\ fst out = logged state message (snd out))
  /\ (forall agent phone,
        snd (JiraAgent.process_message order llm agent phone message)
        = snd (JiraAgent.process_turn order llm
                 (snd (JiraAgent.get_conversation_state agent phone))
                 message)).
Proof.
  split; [| split; [| split]].
  - intros e He out. subst out. unfold JiraAgent.process_turn. rewrite He.
    cbn. auto.
  - intros out Ho. unfold JiraAgent.process_turn. now rewrite Ho.
  - intros err. apply process_turn_extractor_failure.
  - intros agent phone. unfold JiraAgent.process_message.
    destruct (JiraAgent.get_conversation_state agent phone) as [agent1 st].
    cbn [snd].
    now destruct (JiraAgent.process_turn order llm st message).
Qed.

(** C7, on concrete turns: an exception inside a turn (the superscript
    two answered to a menu) and a failed extractor call both end in an
    unknown-intent response. *)
Lemma C7_turns_never_raise_witness :
  intent (snd (JiraAgent.process_turn occurrence_order (LlmFails "timeout")
                 (with_awaiting (Some "priority") (new_conversation_state "u"))
                 superscript_two)) = UNKNOWN
  /\ intent (snd (JiraAgent.process_turn occurrence_order
                    (LlmFails "timeout") (new_conversation_state "u")
                    "create a task")) = UNKNOWN.
Proof.
  split.
  - refine (proj1 (proj2 (proj1
      (C7_turns_never_raise occurrence_order (LlmFails "timeout")
         (with_awaiting (Some "priority") (new_conversation_state "u"))
         superscript_two) (ValueError_int superscript_two) _))).
    vm_compute. reflexivity.
  - refine (proj1 (proj1 (proj2 (proj2
      (C7_turns_never_raise occurrence_order (LlmFails "timeout")
         (new_conversation_state "u") "create a task")))
      "timeout" _ _)).
    + left. reflexivity.
    + left. reflexivity.
Defined.

(** ** C2: where guided collection starts *)

Lemma handled_none (order : set_iteration) (state : ConversationState)
    (message : string) :
  reaches_extractor order state message ->
  (if truthy (awaiting_field state)
   then match awaiting_field state with
        | Some awaiting =>
            JiraAgent._handle_field_input order state message awaiting
        | None => Ok (state, None)
        end
   else Ok (state, None)) = Ok (state, None).
Proof.
  intros [-> | [field [Ha Hh]]]; [reflexivity |].
  rewrite Ha, Hh. now destruct (truthy (Some field)).
Qed.

Lemma first_unset_is_issue_type (d : ExtractedIssueData) :
  spec_first_unset_field d = Some "issue_type" <-> issue_type d = None.
Proof.
  unfold spec_first_unset_field, FIELD_ORDER. cbn [find].
  change (spec_field_is_set d "issue_type") with (is_some (issue_type d)).
  destruct (issue_type d) as [t |]; cbn [is_some negb].
  - split; [| discriminate]. intros H.
    repeat (destruct (negb _); [discriminate H |]). discriminate H.
  - split; reflexivity.
Qed.

(** C2 (as the code has it).  When a turn reaches the Intent Extractor
    and the merged answer has intent create and is not ready, guided
    collection is entered at the first field of the registry,
    issue_type, whatever the draft holds: the response is the prompt of
    issue_type, the draft of the state is left as it was, and
    issue_type is the first unset field exactly when the draft has no
    issue type. *)
Theorem C2_collection_starts_at_registry_head (order : set_iteration)
    (llm : llm_outcome) (state : ConversationState) (message : string) :
  reaches_extractor order state message ->
  let merged :=
    JiraAgent._extract_intent_and_data order llm message
      (history_append (UserSaid message) state) in
  intent merged = CREATE_ISSUE ->
  ready_for_jira merged = false ->
  let out := JiraAgent.process_turn order llm state message in
  awaiting_field (fst out) = nth_error FIELD_ORDER 0
  /\ awaiting_field (fst out) = Some "issue_type"
  /\ missing_fields (snd out) = ["issue_type"]
  /\ next_question (snd out) = Some (FieldPrompt None "issue_type" [])
  /\ ready_for_jira (snd out) = false
  /\ partial_issue_data (fst out) = partial_issue_data state
  /\ (spec_first_unset_field (partial_issue_data (fst out))
        = awaiting_field (fst out)
      <-> issue_type (partial_issue_data state) = None).
Proof.
  intros Hreach merged Hi Hr out. subst out.
  unfold JiraAgent.process_turn, JiraAgent.process_message_body.
  rewrite (handled_none order state message Hreach). cbn [bind].
  fold merged. rewrite Hi, Hr. cbn.
  repeat split; try reflexivity; apply first_unset_is_issue_type.
Qed.

Lemma C2_collection_witness :
  awaiting_field
    (fst (JiraAgent.process_turn occurrence_order reply_repeating_issue_type state_with_issue_type
            "create a task: login broken")) = Some "issue_type".
Proof.
  refine (proj1 (proj2
    (C2_collection_starts_at_registry_head occurrence_order reply_repeating_issue_type state_with_issue_type
       "create a task: login broken" _ _ _))).
  - left. reflexivity.
  - vm_compute. reflexivity.
  - vm_compute. reflexivity.
Defined.

(** C2, counterexample.  The draft already holds the issue type, and
    the extractor reports it again; the merged answer has intent create
    and is not ready.  Guided collection starts at issue_type, although
    the first unset field of the draft is priority. *)
Lemma C2_counterexample :
  let merged :=
    JiraAgent._extract_intent_and_data occurrence_order reply_repeating_issue_type
      "create a task: login broken"
      (history_append (UserSaid "create a task: login broken") state_with_issue_type) in
  let out :=
    JiraAgent.process_turn occurrence_order reply_repeating_issue_type state_with_issue_type
      "create a task: login broken" in
  intent merged = CREATE_ISSUE
  /\ ready_for_jira merged = false
  /\ issue_type (extracted_data merged) = Some TASK
  /\ issue_type (partial_issue_data (fst out)) = Some TASK
  /\ spec_first_unset_field (partial_issue_data (fst out)) = Some "priority"
  /\ awaiting_field (fst out) = Some "issue_type".
Proof. vm_compute. repeat split. Qed.

(** ** C4 and C9: labels *)

Lemma next_prompt_keeps_draft (state state' : ConversationState)
    (r : AgentResponse) :
  JiraAgent._get_next_field_prompt state = (state', r) ->
  partial_issue_data state' = partial_issue_data state
  /\ extracted_data r = partial_issue_data state.
Proof.
  unfold JiraAgent._get_next_field_prompt. cbv zeta.
  destruct (awaiting_field state) as [current |];
    [destruct (index_of current FIELD_ORDER) as [i |];
     [destruct (i + 1 <? length FIELD_ORDER)%nat |] |];
    intros H; injection H as <- <-; cbn; auto.
Qed.

Lemma merged_labels (order : set_iteration) (existing new : ExtractedIssueData) :
  NoDup (labels (JiraAgent._merge_issue_data order existing new))
  /\ (forall x,
        In x (labels (JiraAgent._merge_issue_data order existing new))
        <-> In x (labels existing) \/ In x (labels new)).
Proof.
  cbn [JiraAgent._merge_issue_data labels]. split.
  - apply list_of_set_NoDup.
  - intros x. rewrite list_of_set_In. apply in_app_iff.
Qed.

Lemma description_answer (order : set_iteration) (state : ConversationState)
    (message : string) :
  is_skip (Py.strip message) = false ->
  exists state' r,
    JiraAgent._handle_field_input order state message "description"
      = Ok (state', Some r)
    /\ description (partial_issue_data state') = Some (Py.strip message)
    /\ labels (partial_issue_data state')
       = match generate_labels_from_description (Py.strip message) with
         | [] => labels (partial_issue_data state)
         | inferred => inferred
         end.
Proof.
  intros Hskip. unfold JiraAgent._handle_field_input. cbv zeta.
  change (in_CHOICE_MAPS "description") with false.
  change (String.eqb "description" "summary") with false.
  change (String.eqb "description" "description") with true.
  cbv iota. rewrite Hskip.
  destruct (generate_labels_from_description (Py.strip message)) as [| l ls].
  - destruct (JiraAgent._get_next_field_prompt _) as [s r] eqn:E.
    exists s, r. apply next_prompt_keeps_draft in E as [-> _].
    cbn. auto.
  - destruct (JiraAgent._get_next_field_prompt _) as [s r] eqn:E.
    exists s, r. apply next_prompt_keeps_draft in E as [-> _].
    cbn. auto.
Qed.

(** C4 (as the code has it).  Labels merged from extractor output are
    the union of the stored labels and the extracted ones, without
    duplicates, so no stored label is lost.  A description answered in
    guided mode with a value that is not a skip replaces the labels of
    the draft with the labels inferred from it when there are any, and
    leaves the labels as they were when none is inferred. *)
Theorem C4_labels_union_and_replacement_amended :
  (forall order existing new,
      NoDup (labels (JiraAgent._merge_issue_data order existing new))
      /\ (forall x,
            In x (labels (JiraAgent._merge_issue_data order existing new))
            <-> In x (labels existing) \/ In x (labels new)))
  /\ (forall order state message,
        is_skip (Py.strip message) = false ->
        exists state' r,
          JiraAgent._handle_field_input order state message "description"
            = Ok (state', Some r)
          /\ description (partial_issue_data state') = Some (Py.strip message)
          /\ labels (partial_issue_data state')
             = match generate_labels_from_description (Py.strip message) with
               | [] => labels (partial_issue_data state)
               | inferred => inferred
               end).
Proof. split; [exact merged_labels | exact description_answer]. Qed.

(** C4, counterexample.  The draft holds the label billing and the
    description answered infers no label: the labels are not replaced
    by the (empty) inferred set, they stay as they were. *)
Lemma C4_counterexample :
  let out :=
    JiraAgent.process_turn occurrence_order (LlmFails "unused") state_with_billing_label
      "It is broken again" in
  is_skip (Py.strip "It is broken again") = false
  /\ generate_labels_from_description "It is broken again" = []
  /\ description (partial_issue_data (fst out)) = Some "It is broken again"
  /\ labels (partial_issue_data (fst out)) = ["billing"]
  /\ labels (partial_issue_data (fst out))
     <> generate_labels_from_description "It is broken again".
Proof.
  cbv zeta. repeat split; try (vm_compute; reflexivity).
  vm_compute. discriminate.
Qed.

Lemma C4_description_witness :
  exists state' r,
    JiraAgent._handle_field_input occurrence_order state_with_billing_label
      "API timeout on login" "description" = Ok (state', Some r)
    /\ description (partial_issue_data state') = Some (Py.strip "API timeout on login")
    /\ labels (partial_issue_data state')
       = match generate_labels_from_description (Py.strip "API timeout on login") with
         | [] => labels (partial_issue_data state_with_billing_label)
         | inferred => inferred
         end.
Proof.
  refine (proj2 C4_labels_union_and_replacement_amended occurrence_order
            state_with_billing_label "API timeout on login" _).
  vm_compute. reflexivity.
Defined.

(** The labels read from a manual entry are the pieces between commas
    that are not blank, each trimmed, lowercased and with hyphens for
    spaces. *)
Lemma manual_labels_In (user_input x : string) :
  In x (manual_labels user_input)
  <-> exists piece,
        In piece (Py.split "," user_input)
        /\ Py.strip piece <> EmptyString
        /\ x = Py.replace " " "-" (Py.lower (Py.strip piece)).
Proof.
  unfold manual_labels. rewrite in_map_iff. split.
  - intros [piece [<- Hin]]. apply filter_In in Hin as [Hin Hne].
    exists piece. repeat split; [assumption |].
    intros He. now rewrite He in Hne.
  - intros [piece [Hin [Hne ->]]]. exists piece. split; [reflexivity |].
    apply filter_In. split; [assumption |].
    destruct (Py.strip piece); [contradiction | reflexivity].
Qed.

(** C9 (as the code has it).  A labels entry in guided mode that is not
    skip, none, empty or clear leaves in the draft a list without
    duplicates that holds exactly the labels the draft had and the
    labels read from the entry: the pieces between commas that are not
    blank, trimmed, lowercased and with hyphens for spaces.  The list
    comes from a set, in the order the set iterates in: nothing is
    said of the order of the labels. *)
Theorem C9_manual_labels_union_amended (order : set_iteration)
    (state : ConversationState) (message : string) :
  is_skip (Py.strip message) = false ->
  Py.lower (Py.strip message) <> "clear" ->
  exists state' r,
    JiraAgent._handle_field_input order state message "labels"
      = Ok (state', Some r)
    /\ extracted_data r = partial_issue_data state'
    /\ NoDup (labels (partial_issue_data state'))
    /\ (forall x,
          In x (labels (partial_issue_data state'))
          <-> In x (labels (partial_issue_data state))
              \/ exists piece,
                   In piece (Py.split "," (Py.strip message))
                   /\ Py.strip piece <> EmptyString
                   /\ x = Py.replace " " "-" (Py.lower (Py.strip piece))).
Proof.
  intros Hskip Hclear. unfold JiraAgent._handle_field_input. cbv zeta.
  change (in_CHOICE_MAPS "labels") with false.
  change (String.eqb "labels" "summary") with false.
  change (String.eqb "labels" "description") with false.
  change (String.eqb "labels" "assignee") with false.
  change (Py.mem "labels" ["start_date"; "due_date"]) with false.
  change (String.eqb "labels" "parent_key") with false.
  change (String.eqb "labels" "labels") with true.
  cbv iota. rewrite Hskip.
  apply String.eqb_neq in Hclear. rewrite Hclear.
  destruct (JiraAgent._get_next_field_prompt _) as [s r] eqn:E.
  exists s, r. apply next_prompt_keeps_draft in E as [-> ->].
  cbn [partial_issue_data with_partial labels set_labels].
  split; [reflexivity |]. split; [reflexivity |]. split.
  - apply list_of_set_NoDup.
  - intros x. rewrite list_of_set_In, in_app_iff, manual_labels_In.
    reflexivity.
Qed.

Lemma C9_manual_labels_witness :
  exists state' r,
    JiraAgent._handle_field_input occurrence_order state_with_two_labels
      "Bug, mobile app" "labels" = Ok (state', Some r)
    /\ extracted_data r = partial_issue_data state'
    /\ NoDup (labels (partial_issue_data state'))
    /\ (forall x,
          In x (labels (partial_issue_data state'))
          <-> In x (labels (partial_issue_data state_with_two_labels))
              \/ exists piece,
                   In piece (Py.split "," (Py.strip "Bug, mobile app"))
                   /\ Py.strip piece <> EmptyString
                   /\ x = Py.replace " " "-" (Py.lower (Py.strip piece))).
Proof.
  refine (C9_manual_labels_union_amended occurrence_order state_with_two_labels
            "Bug, mobile app" _ _).
  - vm_compute. reflexivity.
  - vm_compute. discriminate.
Defined.

(** C9, counterexample.  The draft shows api before login and the entry
    adds bug.  With a set that iterates in the order [reversed_order],
    the draft ends with bug, login, api: the labels are the union, but
    login is now shown before api. *)
Lemma C9_counterexample :
  let out :=
    JiraAgent.process_turn reversed_order (LlmFails "unused") state_with_two_labels "bug" in
  labels (partial_issue_data state_with_two_labels) = ["api"; "login"]
  /\ labels (partial_issue_data (fst out)) = ["bug"; "login"; "api"]
  /\ ~ spec_order_preserved (labels (partial_issue_data state_with_two_labels))
         (labels (partial_issue_data (fst out))).
Proof.
  cbv zeta. split; [reflexivity |]. split; [vm_compute; reflexivity |].
  unfold spec_order_preserved. vm_compute. discriminate.
Qed.

(** ** C1: readiness *)

(** The handler answers the fields of the registry and no other. *)
Lemma handled_field_in_registry (order : set_iteration)
    (state state' : ConversationState) (message field : string)
    (r : AgentResponse) :
  JiraAgent._handle_field_input order state message field
    = Ok (state', Some r) ->
  In field FIELD_ORDER.
Proof.
  intros H. destruct (in_dec string_dec field FIELD_ORDER) as [| Hn];
    [assumption | exfalso].
  assert (Hneq : forall f, In f FIELD_ORDER -> String.eqb field f = false).
  { intros f Hf. apply String.eqb_neq. intros ->. contradiction. }
  assert (Hmenu : in_CHOICE_MAPS field = false).
  { destruct (in_CHOICE_MAPS field) eqn:E; [| reflexivity].
    apply choice_field_cases in E as [-> | [-> | ->]];
      exfalso; apply Hn; cbn; tauto. }
  assert (Hdates : Py.mem field ["start_date"; "due_date"] = false).
  { apply mem_false_not_In. intros Hin. apply Hn. cbn in Hin |- *. tauto. }
  unfold JiraAgent._handle_field_input in H. cbv zeta in H.
  rewrite Hmenu, Hdates in H.
  rewrite !Hneq in H by (cbn; tauto).
  discriminate H.
Qed.

(** Resolves the call of [_get_next_field_prompt] recorded in [E], for
    a state whose awaited field is the concrete field of [Ha]. *)
Ltac resolve_next E Ha :=
  unfold JiraAgent._get_next_field_prompt in E;
  cbn [awaiting_field with_partial] in E; rewrite Ha in E;
  cbn in E; injection E as <- <-.

(** In guided mode readiness is declared after the last field of the
    registry, labels, and then the response has no missing field and no
    question, and shows the draft of the state, whose required fields
    are as they were before the answer. *)
Lemma guided_readiness (order : set_iteration)
    (state state' : ConversationState) (message field : string)
    (r : AgentResponse) :
  awaiting_field state = Some field ->
  JiraAgent._handle_field_input order state message field
    = Ok (state', Some r) ->
  ready_for_jira r = true ->
  field = "labels"
  /\ missing_fields r = []
  /\ next_question r = None
  /\ awaiting_field state' = None
  /\ extracted_data r = partial_issue_data state'
  /\ issue_type (extracted_data r) = issue_type (partial_issue_data state)
  /\ priority (extracted_data r) = priority (partial_issue_data state)
  /\ summary (extracted_data r) = summary (partial_issue_data state)
  /\ description (extracted_data r) = description (partial_issue_data state).
Proof.
  intros Ha H Hready.
  pose proof (handled_field_in_registry _ _ _ _ _ _ H) as Hin.
  unfold FIELD_ORDER in Hin. cbn [In] in Hin.
  repeat (destruct Hin as [<- | Hin]); try contradiction;
    unfold JiraAgent._handle_field_input in H; cbn in H;
    handler_cases H; try discriminate H; injection H as <- <-;
    try (cbn in Hready; discriminate Hready);
    match goal with
    | E : JiraAgent._get_next_field_prompt _ = _ |- _ => resolve_next E Ha
    end;
    try (cbn in Hready; discriminate Hready);
    cbn; repeat split; reflexivity.
Qed.

(** On the direct path readiness is declared only for a draft with the
    four required fields, which the response returns set. *)
Lemma direct_readiness (default_key : string) (d : ExtractedIssueData) :
  let r := JiraAgent.direct_issue_creation default_key d in
  ready_for_jira r = true ->
  missing_fields r = []
  /\ next_question r = None
  /\ is_some (issue_type (extracted_data r)) = true
  /\ is_some (priority (extracted_data r)) = true
  /\ truthy (summary (extracted_data r)) = true
  /\ truthy (description (extracted_data r)) = true.
Proof.
  unfold JiraAgent.direct_issue_creation, JiraAgent.required_missing.
  destruct (is_some (issue_type d)) eqn:Ht; [| cbn; discriminate].
  destruct (is_some (priority d)) eqn:Hp; [| cbn; discriminate].
  destruct (truthy (summary d)) eqn:Hs; [| cbn; discriminate].
  destruct (truthy (description d)) eqn:Hd; [| cbn; discriminate].
  cbn [app]. cbv zeta. intros _.
  destruct (labels d); destruct (description d) as [txt |] eqn:Hdesc;
    try destruct (negb (Py.is_empty txt));
    destruct (negb (truthy (project_key _))); cbn; rewrite ?Hdesc;
    repeat split; solve [assumption | discriminate].
Qed.

Lemma collection_start_invariant (state : ConversationState) :
  collected_before (fst (JiraAgent._start_interactive_collection state)).
Proof.
  intros field i Hf Hi. cbn in Hf. injection Hf as <-.
  cbn in Hi. injection Hi as <-. repeat split; intros; lia.
Qed.

(** Each answer keeps the invariant, and with it a ready response shows
    issue type, priority and summary set. *)
Lemma guided_answer_invariant (order : set_iteration)
    (state state' : ConversationState) (message field : string)
    (r : AgentResponse) :
  awaiting_field state = Some field ->
  collected_before state ->
  JiraAgent._handle_field_input order state message field
    = Ok (state', Some r) ->
  collected_before state'
  /\ (ready_for_jira r = true ->
      is_some (issue_type (extracted_data r)) = true
      /\ is_some (priority (extracted_data r)) = true
      /\ truthy (summary (extracted_data r)) = true).
Proof.
  intros Ha Hinv H.
  pose proof (handled_field_in_registry _ _ _ _ _ _ H) as Hin.
  unfold FIELD_ORDER in Hin. cbn [In] in Hin.
  repeat (destruct Hin as [<- | Hin]); try contradiction;
    (match type of Ha with
     | awaiting_field _ = Some ?f =>
         let i := eval vm_compute in (index_of f FIELD_ORDER) in
         match i with
         | Some ?n => destruct (Hinv f n Ha eq_refl) as [I0 [I1 I3]]
         end
     end);
    unfold JiraAgent._handle_field_input in H; cbn in H;
    handler_cases H; try discriminate H; injection H as <- <-;
    try (split; [exact Hinv | cbn; discriminate]);
    try match goal with
      | Ev : bind ?m _ = Ok _ |- _ =>
          destruct m; cbn [bind] in Ev; [injection Ev as <- | discriminate Ev]
      end;
    match goal with
    | E : JiraAgent._get_next_field_prompt _ = _ |- _ => resolve_next E Ha
    end;
    (split;
     [ intros f' i' Hf' Hi'; cbn in Hf';
       first [ discriminate Hf'
             | injection Hf' as <-; cbn in Hi'; injection Hi' as <-;
               cbn; repeat split; intros;
               first [ reflexivity | lia | assumption
                     | apply I0; lia | apply I1; lia | apply I3; lia ] ]
     | cbn; first [ discriminate
                  | intros _; repeat split;
                    first [ apply I0; lia | apply I1; lia | apply I3; lia ] ] ]).
Qed.

(** A ready answer of the extractor is returned as it came: the turn
    checks neither its missing fields nor its question. *)
Lemma ready_answer_passes_through (order : set_iteration)
    (state : ConversationState) (message : string) (answer : AgentResponse) :
  reaches_extractor order state message ->
  ready_for_jira answer = true ->
  let r := snd (JiraAgent.process_turn order (LlmReplies answer) state
                  message) in
  ready_for_jira r = true
  /\ missing_fields r = missing_fields answer
  /\ next_question r = next_question answer.
Proof.
  intros Hreach Hready r. subst r.
  unfold JiraAgent.process_turn, JiraAgent.process_message_body.
  rewrite (handled_none order state message Hreach). cbn [bind].
  assert (Hflags :
    let merged := JiraAgent._extract_intent_and_data order (LlmReplies answer)
                    message (history_append (UserSaid message) state) in
    ready_for_jira merged = true
    /\ missing_fields merged = missing_fields answer
    /\ next_question merged = next_question answer).
  { unfold JiraAgent._extract_intent_and_data.
    cbn [current_intent history_append].
    destruct (current_intent state) as [i |];
      [destruct (Intent_eqb (intent answer) i) |]; cbn; auto. }
  cbv zeta in Hflags. destruct Hflags as [Hr [Hm Hq]].
  rewrite Hr, andb_false_r. cbn [snd]. auto.
Qed.

(** C1 (as the code has it).  A ready response of the guided path or
    of the direct path has no missing field and no question.  On the
    direct path the four required fields are set in the returned
    draft.  On the guided path readiness is declared after the answer
    to labels, the last field of the registry, with the draft of the
    state as the returned draft; in a collection started at the head
    of the registry and answered field by field, issue type, priority
    and summary are then set.  The description is as the draft had it:
    it can be skipped, and a ready draft may have none.  On the
    extraction path a ready answer of the extractor is returned with
    the missing fields and the question it came with. *)
Theorem C1_readiness_amended :
  (forall order state state' message field r,
      awaiting_field state = Some field ->
      JiraAgent._handle_field_input order state message field
        = Ok (state', Some r) ->
      ready_for_jira r = true ->
      field = "labels"
      /\ missing_fields r = []
      /\ next_question r = None
      /\ awaiting_field state' = None
      /\ extracted_data r = partial_issue_data state'
      /\ issue_type (extracted_data r) = issue_type (partial_issue_data state)
      /\ priority (extracted_data r) = priority (partial_issue_data state)
      /\ summary (extracted_data r) = summary (partial_issue_data state)
      /\ description (extracted_data r)
         = description (partial_issue_data state))
  /\ (forall d,
        let r := JiraAgent.process_direct_issue_creation d in
        ready_for_jira r = true ->
        missing_fields r = []
        /\ next_question r = None
        /\ is_some (issue_type (extracted_data r)) = true
        /\ is_some (priority (extracted_data r)) = true
        /\ truthy (summary (extracted_data r)) = true
        /\ truthy (description (extracted_data r)) = true)
  /\ (forall state,
        collected_before (fst (JiraAgent._start_interactive_collection state)))
  /\ (forall order state state' message field r,
        awaiting_field state = Some field ->
        collected_before state ->
        JiraAgent._handle_field_input order state message field
          = Ok (state', Some r) ->
        collected_before state'
        /\ (ready_for_jira r = true ->
            is_some (issue_type (extracted_data r)) = true
            /\ is_some (priority (extracted_data r)) = true
            /\ truthy (summary (extracted_data r)) = true))
  /\ (forall order state message answer,
        reaches_extractor order state message ->
        ready_for_jira answer = true ->
        let r := snd (JiraAgent.process_turn order (LlmReplies answer) state
                        message) in
        ready_for_jira r = true
        /\ missing_fields r = missing_fields answer
        /\ next_question r = next_question answer).
Proof.
  split; [| split; [| split; [| split]]].
  - intros order state state' message field r. apply guided_readiness.
  - intros d. apply (direct_readiness "MFLP").
  - exact collection_start_invariant.
  - intros order state state' message field r.
    apply guided_answer_invariant.
  - exact ready_answer_passes_through.
Qed.

Lemma C1_readiness_witness :
  let d := mkIssueData (Some STORY) (Some LOW) (Some "Export report")
             (Some "Add a dashboard export") None None [] None None None
             None None in
  missing_fields (JiraAgent.process_direct_issue_creation d) = []
  /\ next_question (JiraAgent.process_direct_issue_creation d) = None.
Proof.
  intros d.
  pose proof (proj1 (proj2 C1_readiness_amended) d eq_refl) as H.
  exact (conj (proj1 H) (proj1 (proj2 H))).
Defined.

(** C1, counterexample.  A user creates a task in guided mode and
    answers skip to the description, which the prompt offers: the last
    response is ready and its draft has no description.  And a ready
    answer of the extractor is returned as it came, with a missing
    field, a question and no summary. *)
Lemma C1_counterexample :
  (let r := last (snd (run_conversation occurrence_order skipping_conversation
                         (new_conversation_state "u")))
                 (JiraAgent.error_response (ValueError_int EmptyString)) in
   ready_for_jira r = true
   /\ issue_type (extracted_data r) = Some TASK
   /\ summary (extracted_data r) = Some "Login broken"
   /\ description (extracted_data r) = None)
  /\ (let r := snd (JiraAgent.process_turn occurrence_order unchecked_ready_reply
                      (new_conversation_state "u") "create it") in
      ready_for_jira r = true
      /\ missing_fields r = ["summary"]
      /\ next_question r = Some (Text "What is the title?")
      /\ summary (extracted_data r) = None).
Proof. vm_compute. repeat split. Qed.

(** * Further properties of the engine *)

(** ** What an answer in guided mode can do *)

(** A field of the registry is always answered by the handler. *)
Lemma registry_field_is_handled (order : set_iteration)
    (state state' : ConversationState) (message field : string) :
  In field FIELD_ORDER ->
  JiraAgent._handle_field_input order state message field
    <> Ok (state', None).
Proof.
  intros Hin H. unfold FIELD_ORDER in Hin. cbn [In] in Hin.
  repeat (destruct Hin as [<- | Hin]); try contradiction;
    unfold JiraAgent._handle_field_input in H; cbn in H;
    handler_cases H; discriminate H.
Qed.

(** A field outside the registry is left to the extractor. *)
Lemma unknown_field_unhandled (order : set_iteration)
    (state : ConversationState) (message field : string) :
  ~ In field FIELD_ORDER ->
  JiraAgent._handle_field_input order state message field = Ok (state, None).
Proof.
  intros Hn.
  assert (Hneq : forall f, In f FIELD_ORDER -> String.eqb field f = false).
  { intros f Hf. apply String.eqb_neq. intros ->. contradiction. }
  assert (Hmenu : in_CHOICE_MAPS field = false).
  { destruct (in_CHOICE_MAPS field) eqn:E; [| reflexivity].
    apply choice_field_cases in E as [-> | [-> | ->]];
      exfalso; apply Hn; cbn; tauto. }
  assert (Hdates : Py.mem field ["start_date"; "due_date"] = false).
  { apply mem_false_not_In. intros Hin. apply Hn. cbn in Hin |- *. tauto. }
  unfold JiraAgent._handle_field_input. cbv zeta.
  rewrite Hmenu, Hdates. rewrite !Hneq by (cbn; tauto). reflexivity.
Qed.

(** The three things an answer can do: re-prompt the field and leave
    the state alone; move to the field that follows in the registry and
    prompt it; or, after the last field, clear the awaited field and
    declare readiness. *)
Lemma handler_outcomes (order : set_iteration)
    (state state' : ConversationState) (message field : string) (i : nat)
    (r : AgentResponse) :
  awaiting_field state = Some field ->
  index_of field FIELD_ORDER = Some i ->
  JiraAgent._handle_field_input order state message field
    = Ok (state', Some r) ->
  (exists e, e <> EmptyString /\ state' = state /\ r = reprompt_of state field e)
  \/ (awaiting_field state' = nth_error FIELD_ORDER (S i)
      /\ match nth_error FIELD_ORDER (S i) with
         | Some next =>
             r = JiraAgent._get_field_prompt state' next None
         | None =>
             ready_for_jira r = true /\ missing_fields r = []
             /\ next_question r = None
             /\ extracted_data r = partial_issue_data state'
         end).
Proof.
  intros Ha Hi H.
  pose proof (handled_field_in_registry _ _ _ _ _ _ H) as Hin.
  unfold FIELD_ORDER in Hin. cbn [In] in Hin.
  repeat (destruct Hin as [<- | Hin]); try contradiction;
    cbn in Hi; injection Hi as <-;
    unfold JiraAgent._handle_field_input in H; cbn in H;
    handler_cases H; try discriminate H; injection H as <- <-;
    first
      [ left; eexists; split; [| split; reflexivity]; discriminate
      | match goal with
        | E : JiraAgent._get_next_field_prompt _ = _ |- _ => resolve_next E Ha
        end;
        right; cbn; repeat split; reflexivity ].
Qed.

Lemma registry_field_nonempty (field : string) :
  In field FIELD_ORDER -> Py.is_empty field = false.
Proof.
  unfold FIELD_ORDER. cbn [In]. intros H.
  repeat (destruct H as [<- | H]; [reflexivity |]). contradiction.
Qed.

Lemma index_of_In (x : string) (xs : list string) (i : nat) :
  index_of x xs = Some i -> In x xs.
Proof.
  revert i. induction xs as [| y ys IH]; intros i; cbn; [discriminate |].
  destruct (String.eqb y x) eqn:E.
  - apply String.eqb_eq in E. auto.
  - destruct (index_of x ys); [| discriminate]. intros _. right. eauto.
Qed.

Lemma index_of_nth_error (x : string) (xs : list string) (i : nat) :
  index_of x xs = Some i -> nth_error xs i = Some x.
Proof.
  revert i. induction xs as [| y ys IH]; intros i; cbn; [discriminate |].
  destruct (String.eqb y x) eqn:E.
  - apply String.eqb_eq in E. intros H. injection H as <-. now subst.
  - destruct (index_of x ys) as [j |]; [| discriminate].
    intros H. injection H as <-. cbn. now apply IH.
Qed.

(** The registry names each field once: the index of the field at a
    position is that position. *)
Lemma registry_index (i : nat) (field : string) :
  nth_error FIELD_ORDER i = Some field -> index_of field FIELD_ORDER = Some i.
Proof.
  unfold FIELD_ORDER.
  do 10 (destruct i as [| i]; [cbn; intros H; injection H as <-; reflexivity |]).
  destruct i; discriminate.
Qed.

(** A turn that awaits a field of the registry is answered by the
    handler, or ends in the error response with the state untouched. *)
Lemma process_turn_guided (order : set_iteration) (llm : llm_outcome)
    (state : ConversationState) (message field : string) :
  awaiting_field state = Some field ->
  In field FIELD_ORDER ->
  (exists e,
      JiraAgent._handle_field_input order state message field = Raise e
      /\ JiraAgent.process_turn order llm state message
         = (state, JiraAgent.error_response e))
  \/ (exists state' r,
        JiraAgent._handle_field_input order state message field
          = Ok (state', Some r)
        /\ JiraAgent.process_turn order llm state message
           = (logged state' message r, r)).
Proof.
  intros Ha Hin.
  pose proof (registry_field_nonempty field Hin) as Hne.
  destruct (JiraAgent._handle_field_input order state message field)
    as [[state' [r |]] | e] eqn:Hh.
  - right. exists state', r. split; [reflexivity |].
    now apply (process_turn_handled order llm state state' message field r).
  - exfalso. now apply (registry_field_is_handled order state state' message field).
  - left. exists e. split; [reflexivity |].
    now apply (process_turn_raised order llm state message field e).
Qed.

(** X1.  In guided mode a response that carries an error line is the
    re-prompt of the field that was awaited: it names that field as the
    only missing field, is not ready, and the turn leaves the awaited
    field, the draft and the intent of the state as they were. *)
Theorem X1_error_line_means_same_field_reprompt (order : set_iteration)
    (llm : llm_outcome) (state : ConversationState) (message field : string)
    (e field' : string) (shown : list string) :
  awaiting_field state = Some field ->
  In field FIELD_ORDER ->
  let out := JiraAgent.process_turn order llm state message in
  response_message (snd out) = FieldPrompt (Some e) field' shown ->
  field' = field
  /\ snd out = reprompt_of state field e
  /\ missing_fields (snd out) = [field]
  /\ ready_for_jira (snd out) = false
  /\ awaiting_field (fst out) = Some field
  /\ partial_issue_data (fst out) = partial_issue_data state
  /\ current_intent (fst out) = current_intent state.
Proof.
  intros Ha Hin out Hmsg. subst out.
  destruct (process_turn_guided order llm state message field Ha Hin)
    as [[ex [_ Ht]] | [state' [r [Hh Ht]]]]; rewrite Ht in Hmsg |- *.
  - cbn in Hmsg. discriminate Hmsg.
  - cbn [fst snd] in Hmsg |- *.
    destruct (validation_failure_frame order state state' message field r e
                field' shown Hh Hmsg) as [-> [-> ->]].
    cbn. auto 10.
Qed.

Lemma X1_error_line_witness :
  snd (JiraAgent.process_turn occurrence_order (LlmFails "unused")
         (with_awaiting (Some "assignee") (new_conversation_state "u"))
         "not-an-email")
  = reprompt_of (with_awaiting (Some "assignee") (new_conversation_state "u"))
      "assignee" "Invalid email format. Please enter a valid email or 'skip'.".
Proof.
  refine (proj1 (proj2
    (X1_error_line_means_same_field_reprompt occurrence_order
       (LlmFails "unused")
       (with_awaiting (Some "assignee") (new_conversation_state "u"))
       "not-an-email" "assignee"
       "Invalid email format. Please enter a valid email or 'skip'."
       "assignee" [] eq_refl _ _))).
  - cbn. tauto.
  - vm_compute. reflexivity.
Defined.

(** X2.  A turn that awaits the field at position [i] of the registry
    leaves the awaited field as it is (the answer was rejected, or the
    turn ended in the error response), or moves it to position [i + 1]:
    it never goes back and never skips a field.  When it moves, the
    response is the prompt of the next field, whether or not the draft
    already holds a value for it, and after the last field it is the
    ready response. *)
Theorem X2_cursor_moves_one_field (order : set_iteration) (llm : llm_outcome)
    (state : ConversationState) (message field : string) (i : nat) :
  awaiting_field state = Some field ->
  nth_error FIELD_ORDER i = Some field ->
  let out := JiraAgent.process_turn order llm state message in
  (awaiting_field (fst out) = Some field
   /\ partial_issue_data (fst out) = partial_issue_data state
   /\ ready_for_jira (snd out) = false)
  \/ (awaiting_field (fst out) = nth_error FIELD_ORDER (S i)
      /\ match nth_error FIELD_ORDER (S i) with
         | Some next =>
             snd out = JiraAgent._get_field_prompt (fst out) next None
             /\ missing_fields (snd out) = [next]
             /\ ready_for_jira (snd out) = false
         | None =>
             ready_for_jira (snd out) = true
             /\ missing_fields (snd out) = []
             /\ next_question (snd out) = None
         end).
Proof.
  intros Ha Hnth out. subst out.
  pose proof (registry_index i field Hnth) as Hi.
  pose proof (index_of_In _ _ _ Hi) as Hin.
  destruct (process_turn_guided order llm state message field Ha Hin)
    as [[ex [_ Ht]] | [state' [r [Hh Ht]]]]; rewrite Ht; cbn [fst snd].
  - left. auto.
  - destruct (handler_outcomes order state state' message field i r Ha Hi Hh)
      as [[e [_ [-> ->]]] | [Hnext Hr]].
    + left. cbn. auto.
    + right. cbn [logged history_append awaiting_field].
      split; [exact Hnext |].
      destruct (nth_error FIELD_ORDER (S i)) as [next |].
      * subst r. cbn. auto.
      * destruct Hr as [H1 [H2 [H3 _]]]. auto.
Qed.

Lemma X2_cursor_witness :
  awaiting_field
    (fst (JiraAgent.process_turn occurrence_order (LlmFails "unused")
            (with_partial
               (set_description (Some "known already") empty_issue_data)
               (with_awaiting (Some "summary") (new_conversation_state "u")))
            "Login broken"))
  = Some "description".
Proof.
  destruct (X2_cursor_moves_one_field occurrence_order (LlmFails "unused")
              (with_partial
                 (set_description (Some "known already") empty_issue_data)
                 (with_awaiting (Some "summary") (new_conversation_state "u")))
              "Login broken" "summary" 3 eq_refl eq_refl) as [[H _] | [H _]].
  - vm_compute in H. discriminate H.
  - exact H.
Defined.

(** While a guided collection has fields left, no response is ready. *)
Lemma guided_run_not_ready (order : set_iteration)
    (turns : list (string * llm_outcome)) :
  forall (state : ConversationState) (field : string) (i : nat),
    awaiting_field state = Some field ->
    nth_error FIELD_ORDER i = Some field ->
    i + length turns < length FIELD_ORDER ->
    Forall (fun r => ready_for_jira r = false)
      (snd (run_conversation order turns state)).
Proof.
  induction turns as [| [message llm] rest IH]; intros state field i Ha Hnth Hlen.
  - constructor.
  - cbn [run_conversation].
    pose proof (registry_index i field Hnth) as Hi.
    pose proof (index_of_In _ _ _ Hi) as Hin.
    cbn [length] in Hlen.
    destruct (process_turn_guided order llm state message field Ha Hin)
      as [[ex [_ Ht]] | [state' [r [Hh Ht]]]]; rewrite Ht.
    + destruct (run_conversation order rest state) as [final rs] eqn:Hrun.
      cbn [snd]. constructor; [reflexivity |].
      change rs with (snd (final, rs)). rewrite <- Hrun.
      apply (IH state field i Ha Hnth). lia.
    + destruct (run_conversation order rest (logged state' message r))
        as [final rs] eqn:Hrun.
      cbn [snd].
      destruct (handler_outcomes order state state' message field i r Ha Hi Hh)
        as [[e [_ [-> ->]]] | [Hnext Hr]].
      * constructor; [reflexivity |].
        change rs with (snd (final, rs)). rewrite <- Hrun.
        apply (IH _ field i); [exact Ha | exact Hnth | lia].
      * destruct (nth_error FIELD_ORDER (S i)) as [next |] eqn:Hn.
        -- subst r. constructor; [reflexivity |].
           change rs with (snd (final, rs)). rewrite <- Hrun.
           apply (IH _ next (S i)); [exact Hnext | exact Hn | lia].
        -- exfalso. apply nth_error_None in Hn. lia.
Qed.

(** X3.  A guided collection started by [_start_interactive_collection]
    declares readiness no sooner than the tenth turn: in a conversation
    of fewer turns than the registry has fields, whatever the messages,
    no response is ready. *)
Theorem X3_readiness_needs_every_field (order : set_iteration)
    (turns : list (string * llm_outcome)) (state : ConversationState) :
  length turns < length FIELD_ORDER ->
  Forall (fun r => ready_for_jira r = false)
    (snd (run_conversation order turns
            (fst (JiraAgent._start_interactive_collection state)))).
Proof.
  intros Hlen.
  apply (guided_run_not_ready order turns _ "issue_type" 0);
    [reflexivity | reflexivity | exact Hlen].
Qed.

Lemma X3_readiness_witness :
  Forall (fun r => ready_for_jira r = false)
    (snd (run_conversation occurrence_order
            (map (fun m => (m, LlmFails "unused"))
               ["1"; "1"; "1"; "Title"; "skip"; "skip"; "skip"; "skip"; "skip"])
            (fst (JiraAgent._start_interactive_collection
                    (new_conversation_state "u"))))).
Proof.
  apply X3_readiness_needs_every_field. vm_compute. lia.
Defined.

(** ** What an answer writes *)

Lemma next_prompt_frame (state state' : ConversationState)
    (r : AgentResponse) :
  JiraAgent._get_next_field_prompt state = (state', r) ->
  partial_issue_data state' = partial_issue_data state
  /\ extracted_data r = partial_issue_data state
  /\ user_phone state' = user_phone state
  /\ current_intent state' = current_intent state
  /\ conversation_history state' = conversation_history state
  /\ last_activity state' = last_activity state.
Proof.
  unfold JiraAgent._get_next_field_prompt. cbv zeta.
  destruct (awaiting_field state) as [current |];
    [destruct (index_of current FIELD_ORDER) as [i |];
     [destruct (i + 1 <? length FIELD_ORDER)%nat |] |];
    intros H; injection H as <- <-; cbn; auto 10.
Qed.

Ltac solve_unchanged :=
  unfold unchanged_except, written_by_answer; cbn;
  repeat split; intros Hn;
  first [ reflexivity | exfalso; apply Hn; cbn; tauto ].

(** An answer in guided mode writes to the draft nothing but the
    field it answers (and the labels, when it answers the description):
    every other field of the draft, the user, the intent and the
    history of the state are as they were, and the response shows the
    draft of the state. *)
Lemma answer_frame (order : set_iteration)
    (state state' : ConversationState) (message field : string)
    (r : AgentResponse) :
  JiraAgent._handle_field_input order state message field
    = Ok (state', Some r) ->
  unchanged_except (written_by_answer field)
    (partial_issue_data state) (partial_issue_data state')
  /\ extracted_data r = partial_issue_data state'
  /\ user_phone state' = user_phone state
  /\ current_intent state' = current_intent state
  /\ conversation_history state' = conversation_history state.
Proof.
  intros H.
  pose proof (handled_field_in_registry _ _ _ _ _ _ H) as Hin.
  unfold FIELD_ORDER in Hin. cbn [In] in Hin.
  repeat (destruct Hin as [<- | Hin]); try contradiction;
    unfold JiraAgent._handle_field_input in H; cbn in H;
    handler_cases H; try discriminate H; injection H as <- <-;
    try match goal with
      | Ev : bind ?m _ = Ok _ |- _ =>
          destruct m; cbn [bind] in Ev; [injection Ev as <- | discriminate Ev]
      end;
    try match goal with
      | E : JiraAgent._get_next_field_prompt _ = _ |- _ =>
          apply next_prompt_frame in E;
          destruct E as [-> [-> [-> [-> [-> _]]]]]
      end;
    (split; [solve_unchanged | cbn; auto]).
Qed.

(** X4.  An answer in guided mode writes to the draft nothing but the
    field it answers (and the labels, when it answers the description):
    every other field of the draft, the user, the intent and the
    history of the state are as they were, and the response shows the
    draft of the state. *)
Theorem X4_answer_writes_only_its_field (order : set_iteration)
    (state state' : ConversationState) (message field : string)
    (r : AgentResponse) :
  JiraAgent._handle_field_input order state message field
    = Ok (state', Some r) ->
  unchanged_except (written_by_answer field)
    (partial_issue_data state) (partial_issue_data state')
  /\ extracted_data r = partial_issue_data state'
  /\ user_phone state' = user_phone state
  /\ current_intent state' = current_intent state
  /\ conversation_history state' = conversation_history state.
Proof. apply answer_frame. Qed.

Lemma X4_answer_witness :
  unchanged_except (written_by_answer "priority")
    (partial_issue_data state_with_priority_awaited)
    (partial_issue_data
       (with_awaiting (Some "status")
          (with_partial (set_priority (Some HIGH) empty_issue_data)
             state_with_priority_awaited))).
Proof.
  refine (proj1
    (X4_answer_writes_only_its_field occurrence_order
       state_with_priority_awaited _ "high" "priority"
       (JiraAgent._get_field_prompt
          (with_awaiting (Some "status")
             (with_partial (set_priority (Some HIGH) empty_issue_data)
                state_with_priority_awaited))
          "status" None) _)).
  vm_compute. reflexivity.
Defined.

(** X5.  Answering skip, none or nothing to the description, the
    assignee, a date or the parent key unsets that field, whatever it
    held, keeps the labels, and moves on to another field. *)
Theorem X5_skip_unsets_optional_field (order : set_iteration)
    (state : ConversationState) (message field : string) :
  In field ["description"; "assignee"; "start_date"; "due_date"; "parent_key"] ->
  awaiting_field state = Some field ->
  is_skip (Py.strip message) = true ->
  exists state' r,
    JiraAgent._handle_field_input order state message field
      = Ok (state', Some r)
    /\ spec_field_is_set (partial_issue_data state') field = false
    /\ labels (partial_issue_data state') = labels (partial_issue_data state)
    /\ awaiting_field state' <> Some field
    /\ ready_for_jira r = false.
Proof.
  intros Hin Ha Hskip. cbn [In] in Hin.
  repeat (destruct Hin as [<- | Hin]); try contradiction;
    unfold JiraAgent._handle_field_input; cbn; rewrite Hskip;
    match goal with
    | |- context [JiraAgent._get_next_field_prompt ?s] =>
        destruct (JiraAgent._get_next_field_prompt s) as [s' r'] eqn:E
    end;
    resolve_next E Ha; eexists; eexists; (split; [reflexivity |]);
    cbn; repeat split; discriminate.
Qed.

Lemma X5_skip_witness :
  exists state' r,
    JiraAgent._handle_field_input occurrence_order
      (with_partial (set_assignee (Some "a@b.co") empty_issue_data)
         (with_awaiting (Some "assignee") (new_conversation_state "u")))
      " Skip " "assignee" = Ok (state', Some r)
    /\ spec_field_is_set (partial_issue_data state') "assignee" = false
    /\ labels (partial_issue_data state') = []
    /\ awaiting_field state' <> Some "assignee"
    /\ ready_for_jira r = false.
Proof.
  refine (X5_skip_unsets_optional_field occurrence_order
            (with_partial (set_assignee (Some "a@b.co") empty_issue_data)
               (with_awaiting (Some "assignee") (new_conversation_state "u")))
            " Skip " "assignee" _ eq_refl _).
  - cbn. tauto.
  - vm_compute. reflexivity.
Defined.

(** X6.  A summary answer is stored exactly when, trimmed, it has from
    1 to 255 characters, and it is stored trimmed; an empty answer and
    an answer of 256 characters or more are re-prompted, the latter
    with an error line that tells its length. *)
Theorem X6_summary_bounds (order : set_iteration)
    (state : ConversationState) (message : string) :
  awaiting_field state = Some "summary" ->
  let u := Py.strip message in
  (u = EmptyString ->
   JiraAgent._handle_field_input order state message "summary"
   = Ok (state, Some (reprompt_of state "summary"
                        "Summary cannot be empty. Please enter a title.")))
  /\ (255 < String.length u ->
      JiraAgent._handle_field_input order state message "summary"
      = Ok (state, Some (reprompt_of state "summary"
                           (summary_too_long (String.length u)))))
  /\ (u <> EmptyString -> String.length u <= 255 ->
      exists state' r,
        JiraAgent._handle_field_input order state message "summary"
          = Ok (state', Some r)
        /\ summary (partial_issue_data state') = Some u
        /\ awaiting_field state' = Some "description"
        /\ r = JiraAgent._get_field_prompt state' "description" None).
Proof.
  intros Ha u. unfold JiraAgent._handle_field_input. cbv zeta.
  change (in_CHOICE_MAPS "summary") with false.
  change (String.eqb "summary" "summary") with true. cbv iota. fold u.
  split; [| split].
  - intros ->. reflexivity.
  - intros Hlong.
    destruct u as [| c u'] eqn:Hu; [cbn in Hlong; lia |].
    cbn [Py.is_empty negb].
    replace (255 <? String.length (String c u'))%nat with true
      by (symmetry; apply Nat.ltb_lt; exact Hlong).
    reflexivity.
  - intros Hne Hlen.
    destruct u as [| c u'] eqn:Hu; [contradiction |].
    cbn [Py.is_empty negb].
    replace (255 <? String.length (String c u'))%nat with false
      by (symmetry; apply Nat.ltb_ge; exact Hlen).
    match goal with
    | |- context [JiraAgent._get_next_field_prompt ?s] =>
        destruct (JiraAgent._get_next_field_prompt s) as [s' r'] eqn:E
    end.
    resolve_next E Ha. eexists; eexists. split; [reflexivity |].
    cbn. auto.
Qed.

Lemma X6_summary_witness :
  exists state' r,
    JiraAgent._handle_field_input occurrence_order
      (with_awaiting (Some "summary") (new_conversation_state "u"))
      "  Login broken " "summary" = Ok (state', Some r)
    /\ summary (partial_issue_data state') = Some "Login broken"
    /\ awaiting_field state' = Some "description"
    /\ r = JiraAgent._get_field_prompt state' "description" None.
Proof.
  refine (proj2 (proj2
    (X6_summary_bounds occurrence_order
       (with_awaiting (Some "summary") (new_conversation_state "u"))
       "  Login broken " eq_refl)) _ _).
  - vm_compute. discriminate.
  - vm_compute. lia.
Defined.

(** ** Facts about trimming *)

Lemma lstrip_head (s : string) :
  Py.lstrip s = EmptyString
  \/ exists c s', Py.lstrip s = String c s' /\ Py.isspace_char c = false.
Proof.
  induction s as [| c s IH]; [now left |].
  cbn [Py.lstrip]. destruct (Py.isspace_char c) eqn:E; [exact IH |].
  right. now exists c, s.
Qed.

Lemma lstrip_nonspace (c : ascii) (s : string) :
  Py.isspace_char c = false -> Py.lstrip (String c s) = String c s.
Proof. intros H. cbn [Py.lstrip]. now rewrite H. Qed.

Lemma rstrip_idempotent (s : string) : Py.rstrip (Py.rstrip s) = Py.rstrip s.
Proof.
  induction s as [| c s IH]; [reflexivity |].
  cbn [Py.rstrip].
  destruct (Py.isspace_char c && Py.is_empty (Py.rstrip s)) eqn:E;
    [reflexivity |].
  cbn [Py.rstrip]. rewrite IH, E. reflexivity.
Qed.

Lemma strip_idempotent (s : string) : Py.strip (Py.strip s) = Py.strip s.
Proof.
  unfold Py.strip.
  destruct (lstrip_head s) as [-> | [c [s' [-> Hc]]]]; [reflexivity |].
  rewrite (rstrip_cons_nonspace c s' Hc), (lstrip_nonspace c _ Hc).
  rewrite <- (rstrip_cons_nonspace c s' Hc). apply rstrip_idempotent.
Qed.

(** ** When the handler raises *)

(** Every text [interpret_choice] returns is a value of the enum of
    its menu, and is stored as the member with that value. *)
Lemma to_enum_of_choice (field c : string) (d : ExtractedIssueData) :
  In c (CHOICE_MAPS_get field) ->
  exists v, to_enum field c = Ok v /\ menu_text (setattr d field v) field = Some c.
Proof.
  intros Hin.
  destruct (in_CHOICE_MAPS field) eqn:Hf.
  - apply choice_field_cases in Hf as [-> | [-> | ->]]; cbn in Hin;
      repeat (destruct Hin as [<- | Hin]; [eexists; split; reflexivity |]);
      contradiction.
  - exfalso. revert Hf Hin. unfold in_CHOICE_MAPS, CHOICE_MAPS_get, CHOICE_MAPS.
    cbn [existsb find fst snd].
    repeat (destruct (String.eqb _ field); [discriminate |]).
    cbn. intros _ [].
Qed.

Lemma interpret_choice_raises (field text : string) (e : exn) :
  interpret_choice field text = Raise e <->
  (let t := Py.lower (Py.strip text) in
   Py.isdigit t = true
   /\ ((Py.forallb_string Py.isdecimal_char t = false /\ e = ValueError_int t)
       \/ (Py.forallb_string Py.isdecimal_char t = true
           /\ int_max_str_digits < String.length t
           /\ e = ValueError_int_limit (String.length t)))).
Proof.
  unfold interpret_choice. cbv zeta.
  set (t := Py.lower (Py.strip text)).
  unfold numeric_reply. destruct (Py.isdigit t) eqn:Hd.
  - pose proof Hd as Hd'. unfold Py.isdigit in Hd'.
    apply andb_true_iff in Hd' as [Hne _].
    unfold py_int. rewrite Hne. cbn [andb].
    destruct (Py.forallb_string Py.isdecimal_char t) eqn:Hdec.
    + destruct (int_max_str_digits <? String.length t)%nat eqn:Hlen;
        cbn [bind].
      * apply Nat.ltb_lt in Hlen. split.
        -- intros H. injection H as <-. split; [reflexivity |]. right. auto.
        -- intros [_ [[H _] | [_ [_ ->]]]]; [discriminate H | reflexivity].
      * apply Nat.ltb_ge in Hlen. split.
        -- destruct ((0 <=? decimal_value 0 t - 1)%Z && _);
             [destruct (nth_error _ _) |]; discriminate.
        -- intros [_ [[H _] | [_ [H _]]]]; [discriminate H | lia].
    + cbn [bind]. split.
      * intros H. injection H as <-. split; [reflexivity |]. left. auto.
      * intros [_ [[_ ->] | [H _]]]; [reflexivity | discriminate H].
  - cbn [bind]. split; [discriminate |]. intros [H _]. discriminate H.
Qed.

(** X7.  The handler raises in one situation only: the field is a menu
    and the trimmed, lowercased answer passes [str.isdigit] but is not
    a decimal numeral ([int] raises on a digit that is not decimal), or
    is a numeral of more digits than [int] converts.  No text field
    raises, and no accepted choice fails to convert to its enum. *)
Theorem X7_handler_raises_only_on_int (order : set_iteration)
    (state : ConversationState) (message field : string) (e : exn) :
  JiraAgent._handle_field_input order state message field = Raise e <->
  (in_CHOICE_MAPS field = true
   /\ let t := Py.lower (Py.strip message) in
      Py.isdigit t = true
      /\ ((Py.forallb_string Py.isdecimal_char t = false
           /\ e = ValueError_int t)
          \/ (Py.forallb_string Py.isdecimal_char t = true
              /\ int_max_str_digits < String.length t
              /\ e = ValueError_int_limit (String.length t)))).
Proof.
  rewrite <- (strip_idempotent message).
  rewrite <- (interpret_choice_raises field (Py.strip message) e).
  split.
  - intros H. unfold JiraAgent._handle_field_input in H. cbv zeta in H.
    destruct (in_CHOICE_MAPS field) eqn:Hf.
    + split; [reflexivity |].
      destruct (interpret_choice field (Py.strip message))
        as [[c |] | e'] eqn:Hc; cbn [bind truthy] in H.
      * exfalso.
        destruct (interpret_choice_only _ _ _ Hc) as [Hin _].
        destruct (to_enum_of_choice field c (partial_issue_data state) Hin)
          as [v [Hv _]].
        destruct (negb (Py.is_empty c)); [| discriminate H].
        rewrite Hv in H. cbn [bind] in H.
        destruct (JiraAgent._get_next_field_prompt _); discriminate H.
      * discriminate H.
      * injection H as <-. reflexivity.
    + exfalso. handler_cases H; discriminate H.
  - intros [Hf Hc]. unfold JiraAgent._handle_field_input. cbv zeta.
    rewrite Hf, Hc. reflexivity.
Qed.

(** ** Menu answers *)

(** X8.  An accepted menu answer is stored as the enum member whose
    value is the choice [interpret_choice] returned, one of the choices
    declared for the field, and the collection moves on.  So guided
    mode never stores the status Done, which the enum has and the menu
    does not offer: a draft shows it after a status answer only if it
    showed it before. *)
Theorem X8_menu_answer_round_trip (order : set_iteration)
    (state : ConversationState) (message field c : string) :
  in_CHOICE_MAPS field = true ->
  interpret_choice field (Py.strip message) = Ok (Some c) ->
  exists state' r,
    JiraAgent._handle_field_input order state message field
      = Ok (state', Some r)
    /\ In c (CHOICE_MAPS_get field)
    /\ menu_text (partial_issue_data state') field = Some c
    /\ (status (partial_issue_data state') = Some DONE ->
        status (partial_issue_data state) = Some DONE).
Proof.
  intros Hf Hc.
  destruct (interpret_choice_only _ _ _ Hc) as [Hin _].
  destruct (to_enum_of_choice field c (partial_issue_data state) Hin)
    as [v [Hv Hm]].
  assert (Hne : negb (Py.is_empty c) = true).
  { apply choice_field_cases in Hf as [-> | [-> | ->]]; cbn in Hin;
      repeat (destruct Hin as [<- | Hin]; [reflexivity |]); contradiction. }
  unfold JiraAgent._handle_field_input. cbv zeta.
  rewrite Hf, Hc. cbn [bind truthy]. rewrite Hne, Hv. cbn [bind].
  destruct (JiraAgent._get_next_field_prompt _) as [s r] eqn:E.
  exists s, r. apply next_prompt_frame in E as [-> _].
  cbn [partial_issue_data with_partial].
  split; [reflexivity |]. split; [assumption |]. split; [assumption |].
  clear Hc Hne Hm.
  apply choice_field_cases in Hf as [-> | [-> | ->]]; cbn in Hin;
    repeat (destruct Hin as [<- | Hin];
            [vm_compute in Hv; injection Hv as <-; cbn;
             first [tauto | discriminate] |]);
    contradiction.
Qed.

Lemma X8_menu_answer_witness :
  exists state' r,
    JiraAgent._handle_field_input occurrence_order
      (with_awaiting (Some "status") (new_conversation_state "u"))
      "in progress" "status" = Ok (state', Some r)
    /\ In "In Progress" (CHOICE_MAPS_get "status")
    /\ menu_text (partial_issue_data state') "status" = Some "In Progress"
    /\ (status (partial_issue_data state') = Some DONE ->
        status (partial_issue_data
                  (with_awaiting (Some "status") (new_conversation_state "u")))
        = Some DONE).
Proof.
  refine (X8_menu_answer_round_trip occurrence_order
            (with_awaiting (Some "status") (new_conversation_state "u"))
            "in progress" "status" "In Progress" _ _);
    vm_compute; reflexivity.
Defined.

(** ** Fields the handler does not know *)

(** X9.  The handler answers exactly the ten fields of the registry.
    When the awaited field is any other name (the extractor may name
    one in its list of missing fields), the handler returns nothing
    and leaves the state alone, and the turn reaches the extractor. *)
Theorem X9_handler_answers_registry_fields_only (order : set_iteration)
    (state : ConversationState) (message field : string) :
  (In field FIELD_ORDER <->
   forall state', JiraAgent._handle_field_input order state message field
                  <> Ok (state', None))
  /\ (~ In field FIELD_ORDER ->
      JiraAgent._handle_field_input order state message field
        = Ok (state, None)
      /\ (awaiting_field state = Some field ->
          reaches_extractor order state message)).
Proof.
  split.
  - split.
    + intros Hin state'. now apply registry_field_is_handled.
    + intros H. destruct (in_dec string_dec field FIELD_ORDER) as [| Hn];
        [assumption |].
      exfalso. apply (H state).
      now apply unknown_field_unhandled.
  - intros Hn. split; [now apply unknown_field_unhandled |].
    intros Ha. right. exists field. split; [assumption |].
    now apply unknown_field_unhandled.
Qed.

(** ** What a turn does to the state *)

Lemma handler_none_state (order : set_iteration)
    (state state' : ConversationState) (message field : string) :
  JiraAgent._handle_field_input order state message field = Ok (state', None) ->
  state' = state.
Proof.
  intros H. destruct (in_dec string_dec field FIELD_ORDER) as [Hin | Hn].
  - exfalso. now apply (registry_field_is_handled order state state' message field).
  - rewrite (unknown_field_unhandled order state message field Hn) in H.
    now injection H as <-.
Qed.

(** The part of a turn that follows the field handler. *)
Lemma extractor_part (order : set_iteration) (llm : llm_outcome)
    (state : ConversationState) (message : string) :
  exists state3 response,
    let state2 := history_append (UserSaid message) state in
    let answer :=
      JiraAgent._extract_intent_and_data order llm message state2 in
    ((Intent_eqb (intent answer) CREATE_ISSUE
      && negb (ready_for_jira answer) = true
      /\ (state3, response)
         = JiraAgent._start_interactive_collection state2)
     \/ (Intent_eqb (intent answer) CREATE_ISSUE
         && negb (ready_for_jira answer) = false
         /\ state3 = state2 /\ response = answer))
    /\ match
         (let state2' := history_append (UserSaid message) state in
          let response0 :=
            JiraAgent._extract_intent_and_data order llm message state2' in
          let '(state3', response') :=
            if Intent_eqb (intent response0) CREATE_ISSUE
               && negb (ready_for_jira response0)
            then JiraAgent._start_interactive_collection state2'
            else (state2', response0) in
          let state4 :=
            JiraAgent._update_conversation_state state3' response' in
          Ok (history_append (AgentSaid (response_message response'))
                state4,
              response'))
       with
       | Ok out => out
       | Raise e => (state, JiraAgent.error_response e)
       end
       = (history_append (AgentSaid (response_message response))
            (JiraAgent._update_conversation_state state3 response),
          response).
Proof.
  cbv zeta.
  destruct (Intent_eqb _ _ && _) eqn:Hc.
  - destruct (JiraAgent._start_interactive_collection
                (history_append (UserSaid message) state)) as [s3 r3] eqn:Hs.
    exists s3, r3. split; [left; auto | reflexivity].
  - eexists; eexists.
    split; [right; split; [reflexivity | split; reflexivity] |].
    reflexivity.
Qed.

(** A turn the field handler does not answer: the extractor is asked,
    and a request to create an issue that is not ready starts the
    guided collection. *)
Lemma extractor_turn (order : set_iteration) (llm : llm_outcome)
    (state : ConversationState) (message : string) :
  reaches_extractor order state message ->
  exists state3 response,
    let state2 := history_append (UserSaid message) state in
    let answer :=
      JiraAgent._extract_intent_and_data order llm message state2 in
    ((Intent_eqb (intent answer) CREATE_ISSUE
      && negb (ready_for_jira answer) = true
      /\ (state3, response)
         = JiraAgent._start_interactive_collection state2)
     \/ (Intent_eqb (intent answer) CREATE_ISSUE
         && negb (ready_for_jira answer) = false
         /\ state3 = state2 /\ response = answer))
    /\ JiraAgent.process_turn order llm state message
       = (history_append (AgentSaid (response_message response))
            (JiraAgent._update_conversation_state state3 response),
          response).
Proof.
  intros Hreach.
  assert (Hhandled :
    (if truthy (awaiting_field state)
     then match awaiting_field state with
          | Some awaiting =>
              JiraAgent._handle_field_input order state message awaiting
          | None => Ok (state, None)
          end
     else Ok (state, None)) = Ok (state, None)).
  { destruct Hreach as [-> | [field [Ha Hh]]]; [reflexivity |].
    rewrite Ha, Hh. now destruct (truthy (Some field)). }
  unfold JiraAgent.process_turn, JiraAgent.process_message_body.
  rewrite Hhandled. cbn [bind].
  apply extractor_part.
Qed.

(** The three outcomes of a turn. *)
Lemma turn_cases (order : set_iteration) (llm : llm_outcome)
    (state : ConversationState) (message : string) :
  (exists e,
      JiraAgent.process_message_body order llm state message = Raise e
      /\ JiraAgent.process_turn order llm state message
         = (state, JiraAgent.error_response e))
  \/ (exists field state' r,
        awaiting_field state = Some field
        /\ JiraAgent._handle_field_input order state message field
           = Ok (state', Some r)
        /\ JiraAgent.process_turn order llm state message
           = (logged state' message r, r))
  \/ (reaches_extractor order state message
      /\ exists state3 response,
           let state2 := history_append (UserSaid message) state in
           let answer :=
             JiraAgent._extract_intent_and_data order llm message state2 in
           ((Intent_eqb (intent answer) CREATE_ISSUE
             && negb (ready_for_jira answer) = true
             /\ (state3, response)
                = JiraAgent._start_interactive_collection state2)
            \/ (Intent_eqb (intent answer) CREATE_ISSUE
                && negb (ready_for_jira answer) = false
                /\ state3 = state2 /\ response = answer))
           /\ JiraAgent.process_turn order llm state message
              = (history_append (AgentSaid (response_message response))
                   (JiraAgent._update_conversation_state state3 response),
                 response)).
Proof.
  pose proof (extractor_part order llm state message) as Hllm.
  unfold JiraAgent.process_turn, JiraAgent.process_message_body.
  destruct (truthy (awaiting_field state)) eqn:Ht.
  - destruct (awaiting_field state) as [field |] eqn:Ha; [| discriminate Ht].
    destruct (JiraAgent._handle_field_input order state message field)
      as [[state' [r |]] | e] eqn:Hh; cbn [bind].
    + right. left. exists field, state', r. auto.
    + right. right. apply handler_none_state in Hh as Hs. subst state'.
      split; [right; exists field; auto |]. exact Hllm.
    + left. exists e. auto.
  - right. right. cbn [bind]. split; [now left |]. exact Hllm.
Qed.

Lemma update_keeps_history (state : ConversationState) (r : AgentResponse) :
  conversation_history (JiraAgent._update_conversation_state state r)
    = conversation_history state
  /\ user_phone (JiraAgent._update_conversation_state state r)
     = user_phone state.
Proof.
  unfold JiraAgent._update_conversation_state. cbv zeta.
  destruct (negb (Intent_eqb (intent r) UNKNOWN));
    destruct (missing_fields r); try destruct (negb (ready_for_jira r));
    cbn; auto.
Qed.

(** X10.  A turn either ends in the error response of the [except]
    clause, with the whole state as it was, or appends exactly two
    lines to the history, the user's message and then the response's
    message, after the lines that were there.  The user of the state
    never changes. *)
Theorem X10_turn_appends_two_history_lines (order : set_iteration)
    (llm : llm_outcome) (state : ConversationState) (message : string) :
  let out := JiraAgent.process_turn order llm state message in
  user_phone (fst out) = user_phone state
  /\ ((exists e,
          JiraAgent.process_message_body order llm state message = Raise e
          /\ out = (state, JiraAgent.error_response e))
      \/ conversation_history (fst out)
         = conversation_history state
           ++ [UserSaid message; AgentSaid (response_message (snd out))]).
Proof.
  intros out. subst out.
  destruct (turn_cases order llm state message)
    as [[e [Hb Ht]] | [[field [state' [r [Ha [Hh Ht]]]]]
                        | [_ [s3 [r3 [Hc Ht]]]]]];
    rewrite Ht.
  - split; [reflexivity |]. left. exists e. auto.
  - destruct (answer_frame order state state' message field r Hh)
      as [_ [_ [Hp [_ Hhist]]]].
    cbn. rewrite Hp, Hhist, <- app_assoc. auto.
  - cbn [fst snd history_append conversation_history user_phone].
    destruct (update_keeps_history s3 r3) as [Hh Hp]. rewrite Hh, Hp.
    cbv zeta in Hc.
    destruct Hc as [[_ Hs] | [_ [-> ->]]].
    + unfold JiraAgent._start_interactive_collection in Hs. cbv zeta in Hs.
      injection Hs as -> ->. cbn. rewrite <- app_assoc. auto.
    + cbn. rewrite <- app_assoc. auto.
Qed.

Lemma stored_intent_step (order : set_iteration) (llm : llm_outcome)
    (state : ConversationState) (message : string) :
  current_intent state <> Some UNKNOWN ->
  current_intent (fst (JiraAgent.process_turn order llm state message))
    <> Some UNKNOWN.
Proof.
  intros Hi.
  destruct (turn_cases order llm state message)
    as [[e [Hb Ht]] | [[field [state' [r [Ha [Hh Ht]]]]]
                        | [_ [s3 [r3 [Hc Ht]]]]]];
    rewrite Ht.
  - exact Hi.
  - destruct (answer_frame order state state' message field r Hh)
      as [_ [_ [_ [Hc _]]]].
    cbn. now rewrite Hc.
  - cbn [fst snd history_append current_intent]. cbv zeta in Hc.
    unfold JiraAgent._update_conversation_state. cbv zeta.
    destruct Hc as [[_ Hs] | [_ [-> ->]]].
    + unfold JiraAgent._start_interactive_collection in Hs. cbv zeta in Hs.
      injection Hs as -> ->. cbn. discriminate.
    + match goal with
      | |- context [Intent_eqb (intent ?a) UNKNOWN] =>
          destruct (intent a) eqn:Eint; cbn;
          destruct (missing_fields a); try destruct (ready_for_jira a); cbn;
          first [exact Hi | discriminate]
      end.
Qed.

(** X11.  The intent stored in a conversation is never unknown: from a
    new state, whatever the messages and whatever the extractor
    answers, the stored intent is unset or one of the five known
    intents. *)
Theorem X11_stored_intent_never_unknown (order : set_iteration)
    (turns : list (string * llm_outcome)) (phone : string) :
  current_intent
    (fst (run_conversation order turns (new_conversation_state phone)))
    <> Some UNKNOWN.
Proof.
  assert (Hgen : forall state,
    current_intent state <> Some UNKNOWN ->
    current_intent (fst (run_conversation order turns state)) <> Some UNKNOWN).
  { induction turns as [| [message llm] rest IH]; intros state Hi;
      [exact Hi |].
    cbn [run_conversation].
    pose proof (stored_intent_step order llm state message Hi) as Hstep.
    destruct (JiraAgent.process_turn order llm state message) as [state' r].
    specialize (IH state' Hstep).
    destruct (run_conversation order rest state') as [final rs].
    exact IH. }
  apply Hgen. discriminate.
Qed.

(** X12.  A turn whose response has the unknown intent (a failed or
    unclear extraction, or the error response) leaves the draft and the
    intent of the state as they were. *)
Theorem X12_unknown_response_keeps_draft (order : set_iteration)
    (llm : llm_outcome) (state : ConversationState) (message : string) :
  let out := JiraAgent.process_turn order llm state message in
  intent (snd out) = UNKNOWN ->
  partial_issue_data (fst out) = partial_issue_data state
  /\ current_intent (fst out) = current_intent state.
Proof.
  intros out. subst out.
  destruct (turn_cases order llm state message)
    as [[e [Hb Ht]] | [[field [state' [r [Ha [Hh Ht]]]]]
                        | [_ [s3 [r3 [Hc Ht]]]]]];
    rewrite Ht.
  - auto.
  - cbn [fst snd]. intros Hint. exfalso.
    pose proof (handled_field_in_registry _ _ _ _ _ _ Hh) as Hin.
    destruct (in_dec string_dec field FIELD_ORDER) as [_ | Hn];
      [| contradiction].
    assert (Hidx : exists i, index_of field FIELD_ORDER = Some i).
    { unfold FIELD_ORDER in Hin |- *. cbn [In] in Hin.
      repeat (destruct Hin as [<- | Hin]; [eexists; reflexivity |]).
      contradiction. }
    destruct Hidx as [i Hi].
    destruct (handler_outcomes order state state' message field i r Ha Hi Hh)
      as [[e [_ [_ ->]]] | [_ Hr]].
    + cbn in Hint. discriminate Hint.
    + destruct (nth_error FIELD_ORDER (S i)).
      * subst r. cbn in Hint. discriminate Hint.
      * clear Hr. unfold JiraAgent._handle_field_input in Hh. cbv zeta in Hh.
        handler_cases Hh; try discriminate Hh; injection Hh as <- <-;
          try (cbn in Hint; discriminate Hint);
          match goal with
          | E : JiraAgent._get_next_field_prompt _ = _ |- _ =>
              unfold JiraAgent._get_next_field_prompt in E; cbv zeta in E;
              cbn [awaiting_field with_partial] in E; rewrite Ha in E;
              rewrite Hi in E;
              destruct (i + 1 <? length FIELD_ORDER)%nat;
              injection E as <- <-; cbn in Hint; discriminate Hint
          end.
  - cbn [fst snd]. cbv zeta in Hc.
    destruct Hc as [[_ Hs] | [_ [-> ->]]].
    + unfold JiraAgent._start_interactive_collection in Hs. cbv zeta in Hs.
      injection Hs as -> ->. intros Hint. cbn in Hint. discriminate Hint.
    + intros Hint. unfold JiraAgent._update_conversation_state. cbv zeta.
      rewrite Hint. cbn [Intent_eqb negb].
      match goal with
      | |- context [missing_fields ?a] =>
          destruct (missing_fields a); try destruct (negb (ready_for_jira a));
          cbn; auto
      end.
Qed.

Lemma X12_unknown_response_witness :
  let state :=
    with_partial (set_summary (Some "Login broken") empty_issue_data)
      (new_conversation_state "u") in
  let out :=
    JiraAgent.process_turn occurrence_order (LlmFails "connection refused")
      state "what is the weather" in
  intent (snd out) = UNKNOWN
  /\ partial_issue_data (fst out) = partial_issue_data state
  /\ current_intent (fst out) = current_intent state.
Proof.
  intros state. split; [reflexivity |].
  apply (X12_unknown_response_keeps_draft occurrence_order
           (LlmFails "connection refused") state "what is the weather").
  reflexivity.
Defined.

(** * Properties of the store of conversations *)

Lemma store_lookup_write_same (phone : string) (v : ConversationState)
    (s : JiraAgent.store) :
  JiraAgent.store_lookup phone (JiraAgent.store_write phone v s) = Some v.
Proof.
  induction s as [| [k w] s IH]; cbn.
  - now rewrite String.eqb_refl.
  - destruct (String.eqb k phone) eqn:E; cbn; rewrite E; auto.
Qed.

Lemma store_lookup_write_other (phone other : string) (v : ConversationState)
    (s : JiraAgent.store) :
  other <> phone ->
  JiraAgent.store_lookup other (JiraAgent.store_write phone v s)
    = JiraAgent.store_lookup other s.
Proof.
  intros Hne. induction s as [| [k w] s IH]; cbn.
  - destruct (String.eqb phone other) eqn:E; [| reflexivity].
    apply String.eqb_eq in E. congruence.
  - destruct (String.eqb k phone) eqn:E; cbn.
    + apply String.eqb_eq in E. subst k.
      destruct (String.eqb phone other) eqn:E'; [| reflexivity].
      apply String.eqb_eq in E'. congruence.
    + destruct (String.eqb k other); auto.
Qed.

Lemma store_lookup_delete_same (phone : string) (s : JiraAgent.store) :
  JiraAgent.store_lookup phone (JiraAgent.store_delete phone s) = None.
Proof.
  induction s as [| [k w] s IH]; cbn; [reflexivity |].
  destruct (String.eqb k phone) eqn:E; cbn; rewrite ?E; auto.
Qed.

Lemma store_lookup_delete_other (phone other : string) (s : JiraAgent.store) :
  other <> phone ->
  JiraAgent.store_lookup other (JiraAgent.store_delete phone s)
    = JiraAgent.store_lookup other s.
Proof.
  intros Hne. induction s as [| [k w] s IH]; cbn; [reflexivity |].
  destruct (String.eqb k phone) eqn:E; cbn.
  - apply String.eqb_eq in E. subst k.
    destruct (String.eqb phone other) eqn:E'; [| exact IH].
    apply String.eqb_eq in E'. congruence.
  - destruct (String.eqb k other); auto.
Qed.

Lemma store_delete_absent (phone : string) (s : JiraAgent.store) :
  JiraAgent.store_lookup phone s = None ->
  JiraAgent.store_delete phone s = s.
Proof.
  induction s as [| [k w] s IH]; cbn; [reflexivity |].
  destruct (String.eqb k phone); [discriminate |].
  intros H. now rewrite IH.
Qed.

(** X13.  A turn of one user leaves the conversation of every other
    user in the store as it was, whether the turn is answered or ends
    in the error response. *)
Theorem X13_turn_leaves_other_users (order : set_iteration)
    (llm : llm_outcome) (agent : JiraAgent.store)
    (phone other message : string) :
  other <> phone ->
  JiraAgent.store_lookup other
    (fst (JiraAgent.process_message order llm agent phone message))
  = JiraAgent.store_lookup other agent.
Proof.
  intros Hne. unfold JiraAgent.process_message, JiraAgent.get_conversation_state.
  destruct (JiraAgent.store_lookup phone agent) as [state |]; cbv zeta;
    destruct (JiraAgent.process_turn order llm _ message) as [state' r];
    cbn [fst]; rewrite !store_lookup_write_other by exact Hne; reflexivity.
Qed.

Lemma X13_other_users_witness :
  JiraAgent.store_lookup "bob"
    (fst (JiraAgent.process_message occurrence_order
            (LlmFails "connection refused")
            [("bob", state_with_priority_awaited)] "alice" "create a task"))
  = Some state_with_priority_awaited.
Proof.
  apply (X13_turn_leaves_other_users occurrence_order
           (LlmFails "connection refused")
           [("bob", state_with_priority_awaited)] "alice" "bob"
           "create a task").
  discriminate.
Defined.

(** X14.  After a turn the store holds a state for the user, also when
    the user was unknown and the turn ended in the error response; it
    is the state the turn leaves, run on the user's stored state or,
    for an unknown user, on a new state of that user. *)
Theorem X14_turn_is_stored (order : set_iteration) (llm : llm_outcome)
    (agent : JiraAgent.store) (phone message : string) :
  let before :=
    match JiraAgent.store_lookup phone agent with
    | Some state => state
    | None => new_conversation_state phone
    end in
  let out := JiraAgent.process_message order llm agent phone message in
  JiraAgent.store_lookup phone (fst out)
    = Some (fst (JiraAgent.process_turn order llm before message))
  /\ snd out = snd (JiraAgent.process_turn order llm before message).
Proof.
  unfold JiraAgent.process_message, JiraAgent.get_conversation_state.
  destruct (JiraAgent.store_lookup phone agent) as [state |]; cbv zeta;
    destruct (JiraAgent.process_turn order llm _ message) as [state' r];
    cbn [fst snd]; rewrite store_lookup_write_same; auto.
Qed.

(** X15.  Clearing a user removes that user's conversation and no
    other; the next message of the user is answered as the first
    message of a new user; and clearing an unknown user changes
    nothing. *)
Theorem X15_clear_starts_afresh (order : set_iteration) (llm : llm_outcome)
    (agent : JiraAgent.store) (phone message : string) :
  let cleared := JiraAgent.clear_conversation_state agent phone in
  JiraAgent.store_lookup phone cleared = None
  /\ (forall other, other <> phone ->
        JiraAgent.store_lookup other cleared
        = JiraAgent.store_lookup other agent)
  /\ snd (JiraAgent.process_message order llm cleared phone message)
     = snd (JiraAgent.process_turn order llm (new_conversation_state phone)
              message)
  /\ (JiraAgent.store_lookup phone agent = None -> cleared = agent).
Proof.
  cbv zeta. unfold JiraAgent.clear_conversation_state.
  split; [apply store_lookup_delete_same |].
  split; [intros other Hne; now apply store_lookup_delete_other |].
  split; [| apply store_delete_absent].
  unfold JiraAgent.process_message, JiraAgent.get_conversation_state.
  rewrite store_lookup_delete_same. cbv zeta.
  destruct (JiraAgent.process_turn order llm _ message) as [state' r].
  reflexivity.
Qed.

(** * Properties of the turns that reach the extractor *)

Lemma merge_keeps_registry_fields (order : set_iteration)
    (existing new : ExtractedIssueData) (field : string) :
  spec_field_is_set existing field = true ->
  spec_field_is_set (JiraAgent._merge_issue_data order existing new) field
  = negb (gives_empty_text new field).
Proof.
  unfold spec_field_is_set, gives_empty_text. cbv zeta.
  repeat match goal with
    | |- context [String.eqb field ?name] =>
        let E := fresh "E" in
        destruct (String.eqb field name) eqn:E;
        [apply String.eqb_eq in E; subst field |]
    end;
    cbn; try discriminate;
    try (destruct (labels existing) as [| l ls] eqn:Hl; [discriminate |];
         intros _;
         destruct (list_of_set order ((l :: ls) ++ labels new)) eqn:Hs;
         [| reflexivity];
         assert (Hin : In l (list_of_set order ((l :: ls) ++ labels new)))
           by (apply list_of_set_In; now left);
         rewrite Hs in Hin; contradiction);
    unfold JiraAgent.merge_value;
    match goal with
    | |- context [match ?n with Some _ => _ | None => _ end] =>
        destruct n as [v |]; cbn; [| solve [auto]];
        first [reflexivity | destruct v; reflexivity]
    end.
Qed.

(** X16.  A turn that reaches the extractor leaves the draft exactly as
    it was when the reply has the unknown intent or asks to create an
    issue that is not ready.  When the reply carries the intent stored
    in the state (a known one, and not such a request), the draft
    becomes the merge of the stored draft and the data of the reply; a
    field of the registry that was set is then still set unless the
    reply gives the empty text for it, which takes the stored value
    out. *)
Theorem X16_extractor_turn_and_the_draft (order : set_iteration)
    (state : ConversationState) (message : string) (r : AgentResponse) :
  reaches_extractor order state message ->
  let d := partial_issue_data state in
  let d' :=
    partial_issue_data
      (fst (JiraAgent.process_turn order (LlmReplies r) state message)) in
  (intent r = UNKNOWN
   \/ (intent r = CREATE_ISSUE /\ ready_for_jira r = false) ->
   d' = d)
  /\ (current_intent state = Some (intent r) ->
      intent r <> UNKNOWN ->
      (intent r = CREATE_ISSUE -> ready_for_jira r = true) ->
      d' = JiraAgent._merge_issue_data order d (extracted_data r)
      /\ forall field,
           spec_field_is_set d field = true ->
           spec_field_is_set d' field
           = negb (gives_empty_text (extracted_data r) field)).
Proof.
  intros Hreach d d'. subst d d'.
  destruct (extractor_turn order (LlmReplies r) state message Hreach)
    as [s3 [r3 [Hc ->]]].
  cbv zeta in Hc. cbn [fst history_append partial_issue_data].
  assert (Hanswer :
    intent (JiraAgent._extract_intent_and_data order (LlmReplies r) message
              (history_append (UserSaid message) state)) = intent r
    /\ ready_for_jira
         (JiraAgent._extract_intent_and_data order (LlmReplies r) message
            (history_append (UserSaid message) state)) = ready_for_jira r).
  { unfold JiraAgent._extract_intent_and_data.
    cbn [current_intent history_append].
    destruct (current_intent state) as [i |]; [| auto].
    destruct (Intent_eqb (intent r) i); auto. }
  destruct Hanswer as [Hi Hr].
  assert (Hpart : forall (a : AgentResponse) st,
    partial_issue_data
      (match missing_fields a with
       | [] => if negb (ready_for_jira a) then st else with_awaiting None st
       | first :: _ => with_awaiting (Some first) st
       end) = partial_issue_data st).
  { intros a st. destruct (missing_fields a); [| reflexivity].
    destruct (negb (ready_for_jira a)); reflexivity. }
  destruct Hc as [[Hcond Hs] | [Hcond [-> ->]]].
  - unfold JiraAgent._start_interactive_collection in Hs. cbv zeta in Hs.
    injection Hs as -> ->.
    rewrite Hi, Hr in Hcond. apply andb_true_iff in Hcond as [Hcreate Hnot].
    apply negb_true_iff in Hnot.
    assert (Hint : intent r = CREATE_ISSUE)
      by (destruct (intent r); first [reflexivity | discriminate Hcreate]).
    split; [intros _; reflexivity |].
    intros _ _ Hready. rewrite (Hready Hint) in Hnot. discriminate Hnot.
  - rewrite Hi, Hr in Hcond.
    unfold JiraAgent._update_conversation_state. cbv zeta.
    rewrite Hpart, Hi.
    split.
    + intros [Hunk | [Hcreate Hnot]].
      * rewrite Hunk. reflexivity.
      * rewrite Hcreate, Hnot in Hcond. discriminate Hcond.
    + intros Hsame Hknown _.
      assert (Hu : Intent_eqb (intent r) UNKNOWN = false)
        by (destruct (intent r); first [reflexivity | contradiction]).
      rewrite Hu. cbn [negb partial_issue_data with_partial with_intent].
      assert (Hmerge :
        extracted_data
          (JiraAgent._extract_intent_and_data order (LlmReplies r) message
             (history_append (UserSaid message) state))
        = JiraAgent._merge_issue_data order (partial_issue_data state)
            (extracted_data r)).
      { unfold JiraAgent._extract_intent_and_data.
        cbn [current_intent history_append partial_issue_data].
        rewrite Hsame.
        assert (Heq : Intent_eqb (intent r) (intent r) = true)
          by now destruct (intent r).
        rewrite Heq. reflexivity. }
      rewrite Hmerge. split; [reflexivity |].
      intros field. apply merge_keeps_registry_fields.
Qed.

Lemma X16_extractor_turn_witness :
  let state :=
    with_partial (set_summary (Some "Old title") empty_issue_data)
      (with_intent (Some UPDATE_ISSUE) (new_conversation_state "u")) in
  let r :=
    mkResponse UPDATE_ISSUE (Confidence_reported "0.9")
      (set_summary (Some EmptyString) empty_issue_data) [] None true
      (Text "Updating the issue.") None in
  spec_field_is_set (partial_issue_data state) "summary" = true
  /\ spec_field_is_set
       (partial_issue_data
          (fst (JiraAgent.process_turn occurrence_order (LlmReplies r) state
                  "clear the title")))
       "summary" = false.
Proof.
  intros state r. split; [reflexivity |].
  refine (proj2
    (proj2 (X16_extractor_turn_and_the_draft occurrence_order state
              "clear the title" r _) _ _ _) "summary" _).
  - left. reflexivity.
  - reflexivity.
  - discriminate.
  - discriminate.
  - reflexivity.
Defined.

(** * Properties of the direct path *)

(** X17.  Direct validation is ready exactly when the issue type, the
    priority, a summary and a description are given.  The missing
    fields it names are those of the four that are unset, in that
    order.  When it is not ready the data come back as they were, with
    an error; when it is ready only the labels and the project key can
    differ from what was given, given labels are kept as they are, and
    so is a given project key. *)
Theorem X17_direct_validation (default_project_key : string)
    (d : ExtractedIssueData) :
  let r := JiraAgent.direct_issue_creation default_project_key d in
  (ready_for_jira r = true
   <-> is_some (issue_type d) && is_some (priority d)
       && truthy (summary d) && truthy (description d) = true)
  /\ missing_fields r
     = filter (fun field => negb (spec_field_is_set d field))
         ["issue_type"; "priority"; "summary"; "description"]
  /\ (ready_for_jira r = false ->
      extracted_data r = d /\ missing_fields r <> [] /\ error r <> None)
  /\ unchanged_except ["labels"; "project_key"] d (extracted_data r)
  /\ (labels d <> [] -> labels (extracted_data r) = labels d)
  /\ (truthy (project_key d) = true ->
      project_key (extracted_data r) = project_key d).
Proof.
  cbv zeta.
  unfold JiraAgent.direct_issue_creation, JiraAgent.required_missing.
  destruct (is_some (issue_type d)) eqn:Ht;
    destruct (is_some (priority d)) eqn:Hp;
    destruct (truthy (summary d)) eqn:Hs;
    destruct (truthy (description d)) eqn:Hd;
    cbn [app andb];
    try (cbn; rewrite ?Ht, ?Hp, ?Hs, ?Hd; cbn;
         repeat split; try discriminate; try tauto;
         intros Hn; reflexivity).
  cbv zeta.
  set (d1 := match labels d, description d with
             | [], Some txt =>
                 if negb (Py.is_empty txt)
                 then set_labels (generate_labels_from_description txt) d
                 else d
             | _, _ => d
             end).
  assert (H1 : d1 = d \/ (exists l, labels d = [] /\ d1 = set_labels l d)).
  { subst d1. destruct (labels d); destruct (description d) as [txt |];
      try destruct (negb (Py.is_empty txt)); eauto. }
  clearbody d1.
  destruct (truthy (project_key d1)) eqn:Hk; cbn [negb];
    cbn [ready_for_jira extracted_data missing_fields error];
    (split; [tauto |]);
    (split; [cbn; rewrite ?Ht, ?Hp, ?Hs, ?Hd; reflexivity |]);
    (split; [discriminate |]);
    destruct H1 as [-> | [l [Hl ->]]];
    (split; [solve_unchanged |]); cbn in *;
    (split; [intros Hne; congruence |]);
    intros H; try reflexivity; rewrite H in Hk; discriminate Hk.
Qed.

(** * Properties of the validators *)

Section Validators.

Local Open Scope string_scope.

(** ** Matching by derivatives *)

Lemma append_eq_empty (a b : string) :
  a ++ b = EmptyString -> a = EmptyString /\ b = EmptyString.
Proof. destruct a; cbn; [auto | discriminate]. Qed.

Lemma nullable_matches (r : regex) :
  nullable r = true <-> matches r EmptyString.
Proof.
  split.
  - induction r; cbn; intros H; try discriminate H.
    + constructor.
    + apply andb_true_iff in H as [H1 H2].
      change EmptyString with (EmptyString ++ EmptyString).
      constructor; auto.
    + apply orb_true_iff in H as [H | H];
        [apply matches_alt_l | apply matches_alt_r]; auto.
    + constructor.
  - intros H. remember EmptyString as s eqn:Hs.
    induction H; cbn; try reflexivity; try discriminate Hs.
    + apply append_eq_empty in Hs as [-> ->].
      rewrite IHmatches1, IHmatches2; reflexivity.
    + rewrite IHmatches; auto.
    + rewrite IHmatches; auto using orb_true_r.
Qed.

Lemma matches_seq_inv (r1 r2 : regex) (s : string) :
  matches (Seq r1 r2) s ->
  exists s1 s2, s = s1 ++ s2 /\ matches r1 s1 /\ matches r2 s2.
Proof. intros H. inversion H; subst. eauto. Qed.

Lemma matches_alt_inv (r1 r2 : regex) (s : string) :
  matches (Alt r1 r2) s -> matches r1 s \/ matches r2 s.
Proof. intros H. inversion H; subst; auto. Qed.

Lemma matches_class_inv (p : ascii -> bool) (s : string) :
  matches (Class p) s -> exists c, s = String c EmptyString /\ p c = true.
Proof. intros H. inversion H; subst. eauto. Qed.

Lemma deriv_matches (c : ascii) (r : regex) (s : string) :
  matches (deriv c r) s <-> matches r (String c s).
Proof.
  split.
  - revert s. induction r; cbn [deriv]; intros s H.
    + inversion H.
    + inversion H.
    + destruct (p c) eqn:Hp; inversion H; subst. now constructor.
    + destruct (nullable r1) eqn:Hn.
      * apply matches_alt_inv in H as [H | H].
        -- apply matches_seq_inv in H as [s1 [s2 [-> [H1 H2]]]].
           change (String c (s1 ++ s2)) with (String c s1 ++ s2).
           constructor; auto.
        -- change (String c s) with (EmptyString ++ String c s).
           constructor; [now apply nullable_matches | auto].
      * apply matches_seq_inv in H as [s1 [s2 [-> [H1 H2]]]].
        change (String c (s1 ++ s2)) with (String c s1 ++ s2).
        constructor; auto.
    + apply matches_alt_inv in H as [H | H];
        [apply matches_alt_l | apply matches_alt_r]; auto.
    + apply matches_seq_inv in H as [s1 [s2 [-> [H1 H2]]]].
      change (String c (s1 ++ s2)) with (String c s1 ++ s2).
      constructor; auto.
  - intros H. remember (String c s) as w eqn:Hw. revert c s Hw.
    induction H; intros c0 s0 Hw; try discriminate Hw.
    + injection Hw as -> <-. cbn. rewrite H. constructor.
    + cbn [deriv]. destruct s1 as [| a s1'].
      * cbn in Hw. subst s2.
        apply nullable_matches in H. rewrite H.
        apply matches_alt_r. now apply IHmatches2.
      * cbn in Hw. injection Hw as -> <-.
        specialize (IHmatches1 c0 s1' eq_refl).
        destruct (nullable r1);
          [apply matches_alt_l |]; constructor; auto.
    + cbn. apply matches_alt_l. auto.
    + cbn. apply matches_alt_r. auto.
    + destruct s1 as [| a s1'].
      * cbn in Hw. now apply IHmatches2.
      * cbn in Hw. injection Hw as -> <-. cbn [deriv].
        constructor; auto.
Qed.

(** The matcher decides the language of the expression. *)
Lemma fullmatch_matches (r : regex) (s : string) :
  fullmatch r s = true <-> matches r s.
Proof.
  revert r. induction s as [| c s IH]; intros r; cbn [fullmatch].
  - apply nullable_matches.
  - rewrite IH. apply deriv_matches.
Qed.

Lemma matches_star_class (p : ascii -> bool) (s : string) :
  matches (Star (Class p)) s <-> Py.forallb_string p s = true.
Proof.
  split.
  - intros H. remember (Star (Class p)) as r eqn:Hr.
    induction H; try discriminate Hr; [reflexivity |].
    injection Hr as ->.
    apply matches_class_inv in H as [c [-> Hc]].
    cbn. rewrite Hc. now apply IHmatches2.
  - induction s as [| c s IH]; cbn; intros H; [constructor |].
    apply andb_true_iff in H as [Hc Hs].
    change (String c s) with (String c EmptyString ++ s).
    constructor; [now constructor | auto].
Qed.

Lemma matches_plus_class (p : ascii -> bool) (s : string) :
  matches (Plus (Class p)) s <-> run_of p s.
Proof.
  unfold Plus, run_of. split.
  - intros H. apply matches_seq_inv in H as [s1 [s2 [-> [H1 H2]]]].
    apply matches_class_inv in H1 as [c [-> Hc]].
    apply matches_star_class in H2. cbn. rewrite Hc, H2.
    split; [discriminate | reflexivity].
  - intros [Hne H]. destruct s as [| c s]; [contradiction |].
    cbn in H. apply andb_true_iff in H as [Hc Hs].
    change (String c s) with (String c EmptyString ++ s).
    constructor; [now constructor | now apply matches_star_class].
Qed.

Lemma matches_chr (c : ascii) (s : string) :
  matches (Chr c) s <-> s = String c EmptyString.
Proof.
  unfold Chr. split.
  - intros H. apply matches_class_inv in H as [a [-> Ha]].
    apply Ascii.eqb_eq in Ha. now subst.
  - intros ->. constructor. apply Ascii.eqb_refl.
Qed.

(** ** The end of a trimmed text *)

Lemma last_char_append (a : string) (c : ascii) :
  last_char (a ++ String c EmptyString) = Some c.
Proof.
  induction a as [| x a IH]; [reflexivity |].
  cbn [append last_char]. rewrite IH.
  destruct a; reflexivity.
Qed.

Lemma last_char_app_nonempty (a b : string) :
  b <> EmptyString -> last_char (a ++ b) = last_char b.
Proof.
  intros Hb. induction a as [| x a IH]; [reflexivity |].
  cbn [append last_char]. rewrite IH.
  destruct (a ++ b) eqn:E; [| reflexivity].
  apply append_eq_empty in E as [_ E]. contradiction.
Qed.

Lemma rstrip_last (s : string) (c : ascii) :
  last_char (Py.rstrip s) = Some c -> Py.isspace_char c = false.
Proof.
  induction s as [| x s IH]; cbn [Py.rstrip]; [discriminate |].
  destruct (Py.isspace_char x && Py.is_empty (Py.rstrip s)) eqn:E;
    [discriminate |].
  cbn [last_char]. destruct (Py.rstrip s) as [| y t] eqn:Hr.
  - intros H. injection H as <-. cbn in E. now rewrite andb_true_r in E.
  - exact IH.
Qed.

Lemma strip_last (s : string) (c : ascii) :
  last_char (Py.strip s) = Some c -> Py.isspace_char c = false.
Proof. apply rstrip_last. Qed.

(** [re.match] with the two anchors accepts the texts of the expression
    and those followed by one newline. *)
Lemma re_match_anchored_matches (r : regex) (s : string) :
  re_match_anchored r s = true
  <-> matches r s
      \/ exists s', s = s' ++ String (ascii_of_N 10) EmptyString
                    /\ matches r s'.
Proof.
  unfold re_match_anchored. rewrite fullmatch_matches. split.
  - intros H. apply matches_seq_inv in H as [s1 [s2 [-> [H1 H2]]]].
    apply matches_alt_inv in H2 as [H2 | H2].
    + inversion H2; subst. left. now rewrite append_empty_r.
    + apply matches_class_inv in H2 as [c [-> Hc]].
      right. exists s1. split; [| exact H1].
      unfold Py.is_code, Py.code in Hc. apply N.eqb_eq in Hc.
      rewrite <- Hc, ascii_N_embedding. reflexivity.
  - intros [H | [s' [-> H]]].
    + rewrite <- (append_empty_r s).
      constructor; [exact H | apply matches_alt_l; constructor].
    + constructor; [exact H |].
      apply matches_alt_r. constructor. reflexivity.
Qed.

(** On a trimmed text the newline case cannot occur. *)
Lemma re_match_anchored_no_newline (r : regex) (s : string) :
  last_char s <> Some (ascii_of_N 10) ->
  re_match_anchored r s = true <-> matches r s.
Proof.
  intros Hlast. rewrite re_match_anchored_matches. split; [| auto].
  intros [H | [s' [-> _]]]; [exact H |].
  exfalso. apply Hlast. apply last_char_append.
Qed.

(** ** The shape of an address *)

Lemma email_pattern_shape (t : string) :
  matches email_pattern t <-> email_shape t.
Proof.
  unfold email_pattern, email_shape. split.
  - intros H.
    apply matches_seq_inv in H as [local [t1 [-> [Hl H]]]].
    apply matches_seq_inv in H as [at_ [t2 [-> [Ha H]]]].
    apply matches_seq_inv in H as [domain [t3 [-> [Hd H]]]].
    apply matches_seq_inv in H as [dot [t4 [-> [Hdot H]]]].
    apply matches_seq_inv in H as [l1 [l2 [-> [H1 H2]]]].
    apply matches_chr in Ha, Hdot. subst at_ dot.
    apply matches_plus_class in Hl, Hd, H2.
    apply matches_class_inv in H1 as [c [-> Hc]].
    exists local, domain, (String c l2).
    destruct H2 as [Hne H2].
    split; [reflexivity |]. split; [exact Hl |]. split; [exact Hd |].
    split.
    + destruct l2; [contradiction | cbn; lia].
    + cbn. now rewrite Hc, H2.
  - intros [local [domain [tld [-> [Hl [Hd [Hlen Htld]]]]]]].
    destruct tld as [| c [| c' tld]]; cbn in Hlen; try lia.
    cbn [Py.forallb_string] in Htld.
    apply andb_true_iff in Htld as [Hc Hrest].
    constructor; [now apply matches_plus_class |].
    change ("@" ++ domain ++ "." ++ String c (String c' tld))
      with ("@" ++ (domain ++ "." ++ String c (String c' tld))).
    constructor; [now apply matches_chr |].
    constructor; [now apply matches_plus_class |].
    change ("." ++ String c (String c' tld))
      with ("." ++ (String c EmptyString ++ String c' tld)).
    constructor; [now apply matches_chr |].
    constructor; [now constructor |].
    apply matches_plus_class. split; [discriminate | exact Hrest].
Qed.

Lemma validate_email_shape (email : string) :
  validate_email email = true
  <-> Py.strip email = EmptyString \/ email_shape (Py.strip email).
Proof.
  unfold validate_email.
  destruct (Py.strip email) as [| c t] eqn:Hs; cbn [Py.is_empty].
  - split; auto.
  - rewrite <- Hs.
    rewrite re_match_anchored_no_newline, email_pattern_shape.
    + rewrite Hs. split; [auto | intros [H | H]; [discriminate H | exact H]].
    + intros Hlast. apply strip_last in Hlast. discriminate Hlast.
Qed.

(** X18.  [validate_email] accepts a text exactly when, trimmed, it is
    empty or has the shape of an address: one or more characters of the
    local class, an at sign, one or more characters of the domain
    class, a dot, and two or more ASCII letters up to the end. *)
Theorem X18_validate_email_shape (email : string) :
  validate_email email = true
  <-> Py.strip email = EmptyString \/ email_shape (Py.strip email).
Proof. apply validate_email_shape. Qed.

(** X19.  An answer to the assignee that is not a skip is stored,
    trimmed, exactly when it has the shape of an address, and the
    collection moves on to the start date; any other answer is
    re-prompted and changes nothing. *)
Theorem X19_assignee_answer (order : set_iteration)
    (state : ConversationState) (message : string) :
  awaiting_field state = Some "assignee" ->
  is_skip (Py.strip message) = false ->
  (email_shape (Py.strip message) ->
   exists state' r,
     JiraAgent._handle_field_input order state message "assignee"
       = Ok (state', Some r)
     /\ assignee (partial_issue_data state') = Some (Py.strip message)
     /\ awaiting_field state' = Some "start_date"
     /\ r = JiraAgent._get_field_prompt state' "start_date" None)
  /\ (~ email_shape (Py.strip message) ->
      JiraAgent._handle_field_input order state message "assignee"
      = Ok (state,
            Some (reprompt_of state "assignee"
                    "Invalid email format. Please enter a valid email or 'skip'."))).
Proof.
  intros Ha Hskip.
  assert (Hv : validate_email (Py.strip message) = true
               <-> email_shape (Py.strip message)).
  { rewrite validate_email_shape, strip_idempotent.
    split; [| auto]. intros [He | H]; [| exact H].
    rewrite He in Hskip. discriminate Hskip. }
  unfold JiraAgent._handle_field_input. cbv zeta.
  change (in_CHOICE_MAPS "assignee") with false.
  change (String.eqb "assignee" "summary") with false.
  change (String.eqb "assignee" "description") with false.
  change (String.eqb "assignee" "assignee") with true. cbv iota.
  rewrite Hskip.
  split.
  - intros Hshape. apply Hv in Hshape. rewrite Hshape.
    match goal with
    | |- context [JiraAgent._get_next_field_prompt ?s] =>
        destruct (JiraAgent._get_next_field_prompt s) as [s' r'] eqn:E
    end.
    resolve_next E Ha. eexists; eexists. split; [reflexivity |].
    cbn. auto.
  - intros Hshape.
    destruct (validate_email (Py.strip message)) eqn:E; [| reflexivity].
    exfalso. apply Hshape, Hv. reflexivity.
Qed.

Lemma X19_assignee_witness :
  exists state' r,
    JiraAgent._handle_field_input occurrence_order
      (with_awaiting (Some "assignee") (new_conversation_state "u"))
      " ann@example.com " "assignee" = Ok (state', Some r)
    /\ assignee (partial_issue_data state') = Some "ann@example.com"
    /\ awaiting_field state' = Some "start_date"
    /\ r = JiraAgent._get_field_prompt state' "start_date" None.
Proof.
  refine (proj1
    (X19_assignee_answer occurrence_order
       (with_awaiting (Some "assignee") (new_conversation_state "u"))
       " ann@example.com " eq_refl eq_refl) _).
  exists "ann", "example", "com". vm_compute.
  repeat split; try discriminate; lia.
Defined.

(** ** The shape of an issue key *)

Lemma issue_key_pattern_shape (t : string) :
  matches issue_key_pattern t <-> issue_key_shape t.
Proof.
  unfold issue_key_pattern, issue_key_shape. split.
  - intros H.
    apply matches_seq_inv in H as [letters [t1 [-> [Hl H]]]].
    apply matches_seq_inv in H as [hyphen [digits [-> [Hh Hd]]]].
    apply matches_chr in Hh. subst hyphen.
    apply matches_plus_class in Hl, Hd.
    exists letters, digits. auto.
  - intros [letters [digits [-> [Hl Hd]]]].
    constructor; [now apply matches_plus_class |].
    constructor; [now apply matches_chr | now apply matches_plus_class].
Qed.

Lemma upper_char_newline (c : ascii) :
  last_char (Py.upper_char c) = Some (ascii_of_N 10) -> c = ascii_of_N 10.
Proof.
  destruct c as [[] [] [] [] [] [] [] []]; vm_compute; intros H;
    first [discriminate H | reflexivity].
Qed.

Lemma upper_char_nonempty (c : ascii) (s : string) :
  Py.upper_char c ++ s <> EmptyString.
Proof.
  unfold Py.upper_char.
  destruct (_ || _); [discriminate |].
  destruct (Py.is_code 223 c); discriminate.
Qed.

Lemma upper_newline (s : string) :
  last_char (Py.upper s) = Some (ascii_of_N 10) ->
  last_char s = Some (ascii_of_N 10).
Proof.
  induction s as [| c s IH]; cbn [Py.upper]; [discriminate |].
  destruct s as [| c' s'].
  - cbn [Py.upper]. rewrite append_empty_r. intros H.
    apply upper_char_newline in H. now subst.
  - rewrite last_char_app_nonempty
      by (cbn [Py.upper]; apply upper_char_nonempty).
    intros H. apply IH in H. exact H.
Qed.

(** X20.  An answer to the parent key that is not a skip is stored, in
    capital letters, exactly when the trimmed answer in capital letters
    is one or more of the letters A to Z, a hyphen, and one or more
    decimal digits; any other answer is re-prompted and changes
    nothing. *)
Theorem X20_parent_key_answer (order : set_iteration)
    (state : ConversationState) (message : string) :
  awaiting_field state = Some "parent_key" ->
  is_skip (Py.strip message) = false ->
  let key := Py.upper (Py.strip message) in
  (issue_key_shape key ->
   exists state' r,
     JiraAgent._handle_field_input order state message "parent_key"
       = Ok (state', Some r)
     /\ parent_key (partial_issue_data state') = Some key
     /\ awaiting_field state' = Some "labels"
     /\ r = JiraAgent._get_field_prompt state' "labels" None)
  /\ (~ issue_key_shape key ->
      JiraAgent._handle_field_input order state message "parent_key"
      = Ok (state,
            Some (reprompt_of state "parent_key"
                    "Invalid issue key format. Use format like TJ-123 or 'skip'."))).
Proof.
  intros Ha Hskip key.
  assert (Hv : re_match_anchored issue_key_pattern key = true
               <-> issue_key_shape key).
  { rewrite re_match_anchored_no_newline;
      [apply issue_key_pattern_shape |].
    intros Hlast. apply upper_newline, strip_last in Hlast.
    discriminate Hlast. }
  unfold JiraAgent._handle_field_input. cbv zeta.
  change (in_CHOICE_MAPS "parent_key") with false.
  change (String.eqb "parent_key" "summary") with false.
  change (String.eqb "parent_key" "description") with false.
  change (String.eqb "parent_key" "assignee") with false.
  change (Py.mem "parent_key" ["start_date"; "due_date"]) with false.
  change (String.eqb "parent_key" "parent_key") with true. cbv iota.
  rewrite Hskip. fold key.
  split.
  - intros Hshape. apply Hv in Hshape. rewrite Hshape.
    match goal with
    | |- context [JiraAgent._get_next_field_prompt ?s] =>
        destruct (JiraAgent._get_next_field_prompt s) as [s' r'] eqn:E
    end.
    resolve_next E Ha. eexists; eexists. split; [reflexivity |].
    cbn. auto.
  - intros Hshape.
    destruct (re_match_anchored issue_key_pattern key) eqn:E;
      [| reflexivity].
    exfalso. apply Hshape, Hv. reflexivity.
Qed.

Lemma X20_parent_key_witness :
  exists state' r,
    JiraAgent._handle_field_input occurrence_order
      (with_awaiting (Some "parent_key") (new_conversation_state "u"))
      " mflp-12 " "parent_key" = Ok (state', Some r)
    /\ parent_key (partial_issue_data state') = Some "MFLP-12"
    /\ awaiting_field state' = Some "labels"
    /\ r = JiraAgent._get_field_prompt state' "labels" None.
Proof.
  refine (proj1
    (X20_parent_key_answer occurrence_order
       (with_awaiting (Some "parent_key") (new_conversation_state "u"))
       " mflp-12 " eq_refl eq_refl) _).
  exists "MFLP", "12". vm_compute.
  repeat split; discriminate.
Defined.

(** ** Dates *)

(** X21.  An answer to the start date or the due date that is not a
    skip is stored, trimmed, exactly when [strptime] parses it, and the
    collection moves on; otherwise it is re-prompted and nothing
    changes.  Whether it is accepted depends on the answer alone: the
    two dates are not compared with each other. *)
Theorem X21_date_answer (order : set_iteration)
    (state : ConversationState) (message field : string) :
  In field ["start_date"; "due_date"] ->
  awaiting_field state = Some field ->
  is_skip (Py.strip message) = false ->
  let text := Py.strip message in
  (strptime_ymd text <> None ->
   exists state' r,
     JiraAgent._handle_field_input order state message field
       = Ok (state', Some r)
     /\ (field = "start_date" ->
         start_date (partial_issue_data state') = Some text
         /\ due_date (partial_issue_data state')
            = due_date (partial_issue_data state)
         /\ awaiting_field state' = Some "due_date")
     /\ (field = "due_date" ->
         due_date (partial_issue_data state') = Some text
         /\ start_date (partial_issue_data state')
            = start_date (partial_issue_data state)
         /\ awaiting_field state' = Some "parent_key"))
  /\ (strptime_ymd text = None ->
      JiraAgent._handle_field_input order state message field
      = Ok (state,
            Some (reprompt_of state field
                    "Invalid date format. Please use YYYY-MM-DD or 'skip'."))).
Proof.
  intros Hfield Ha Hskip text.
  assert (Hne : Py.is_empty text = false).
  { destruct text eqn:E; [| reflexivity].
    unfold text in E. rewrite E in Hskip. discriminate Hskip. }
  assert (Hv : validate_date text
               = match strptime_ymd text with
                 | Some _ => true
                 | None => false
                 end).
  { unfold validate_date, text. rewrite strip_idempotent.
    fold text. now rewrite Hne. }
  cbn [In] in Hfield.
  destruct Hfield as [<- | [<- | []]];
    unfold JiraAgent._handle_field_input; cbv zeta;
    match goal with
    | |- context [in_CHOICE_MAPS ?f] =>
        change (in_CHOICE_MAPS f) with false;
        change (String.eqb f "summary") with false;
        change (String.eqb f "description") with false;
        change (String.eqb f "assignee") with false;
        change (Py.mem f ["start_date"; "due_date"]) with true
    end;
    cbv iota; rewrite Hskip; fold text; rewrite Hv;
    (split;
     [ intros Hparse;
       destruct (strptime_ymd text) as [ymd |]; [| contradiction];
       match goal with
       | |- context [JiraAgent._get_next_field_prompt ?s] =>
           destruct (JiraAgent._get_next_field_prompt s) as [s' r'] eqn:E
       end;
       resolve_next E Ha; eexists; eexists; split; [reflexivity |];
       split; intros Hf; first [discriminate Hf | cbn; auto]
     | intros Hparse; rewrite Hparse; reflexivity ]).
Qed.

Lemma X21_date_answer_witness :
  exists state' r,
    JiraAgent._handle_field_input occurrence_order
      (with_partial (set_start_date (Some "2031-01-01") empty_issue_data)
         (with_awaiting (Some "due_date") (new_conversation_state "u")))
      " 2030-12-24 " "due_date" = Ok (state', Some r)
    /\ due_date (partial_issue_data state') = Some "2030-12-24"
    /\ start_date (partial_issue_data state') = Some "2031-01-01"
    /\ awaiting_field state' = Some "parent_key".
Proof.
  destruct (proj1
    (X21_date_answer occurrence_order
       (with_partial (set_start_date (Some "2031-01-01") empty_issue_data)
          (with_awaiting (Some "due_date") (new_conversation_state "u")))
       " 2030-12-24 " "due_date" (or_intror (or_introl eq_refl))
       eq_refl eq_refl))
    as [state' [r [Hh [_ Hdue]]]].
  - vm_compute. discriminate.
  - exists state', r. split; [exact Hh |]. apply Hdue. reflexivity.
Defined.

End Validators.

(** * Further properties of label inference *)

(** X22.  Label inference does not see letter case: two descriptions
    that are equal once lowercased give the same labels. *)
Theorem X22_label_inference_ignores_case (a b : string) :
  Py.lower a = Py.lower b ->
  generate_labels_from_description a = generate_labels_from_description b.
Proof.
  intros H.
  unfold generate_labels_from_description, all_labels, simple_labels.
  rewrite H.
  destruct a, b; cbn in H; try discriminate H; reflexivity.
Qed.

Lemma X22_label_inference_witness :
  generate_labels_from_description "API Timeout on LOGIN"
  = generate_labels_from_description "api timeout on login".
Proof.
  apply (X22_label_inference_ignores_case "API Timeout on LOGIN"
           "api timeout on login").
  reflexivity.
Defined.

(** * Properties of the Jira service *)

Section Service.

Local Open Scope string_scope.

Import JiraService.

Lemma dict_get_set {V : Type} (k k' : string) (v : V) (d : dict V) :
  dict_get k (dict_set k' v d)
  = if String.eqb k' k then Some v else dict_get k d.
Proof.
  induction d as [| [a w] d IH]; cbn; [reflexivity |].
  destruct (String.eqb a k') eqn:E; cbn.
  - apply String.eqb_eq in E. subst a.
    destruct (String.eqb k' k); reflexivity.
  - rewrite IH. destruct (String.eqb a k) eqn:E'; [| reflexivity].
    apply String.eqb_eq in E'. subst a. now rewrite String.eqb_sym, E.
Qed.

Lemma dict_get_cond_set {V : Type} (k k' : string) (v : V) (c : bool)
    (d : dict V) :
  dict_get k (if c then dict_set k' v d else d)
  = if c && String.eqb k' k then Some v else dict_get k d.
Proof. destruct c; [apply dict_get_set | reflexivity]. Qed.

(** The keys [create_issue] writes by name. *)
Lemma start_field_is_custom (id : string) :
  ~ In id ["project"; "summary"; "issuetype"; "description"; "priority";
           "labels"; "duedate"; "parent"; "assignee"] ->
  String.eqb id "project" = false
  /\ String.eqb id "issuetype" = false
  /\ String.eqb id "priority" = false
  /\ String.eqb id "parent" = false.
Proof.
  intros H. repeat split; apply String.eqb_neq; intros ->; apply H;
    cbn; tauto.
Qed.

(** X23.  Creating an issue, where the start-date field of the settings
    is none of the fields the service writes by name: no parent is ever
    sent, whatever parent key the data hold; the priority is sent for a
    Task, or when the issue type is unset, and for no other type; the
    issue type is sent as the id the table gives it, that of Task when
    it is unset; and the project is the argument, else the project key
    of the data, else the one of the settings. *)
Theorem X23_create_issue_fields (settings : Settings)
    (find_user : string -> option (dict json))
    (issue_data : ExtractedIssueData) (project_key' : option string)
    (fields : dict field_value) :
  ~ In (text_of (JIRA_START_DATE_FIELD_ID settings))
       ["project"; "summary"; "issuetype"; "description"; "priority";
        "labels"; "duedate"; "parent"; "assignee"] ->
  create_issue_fields settings find_user issue_data project_key'
    = Some fields ->
  dict_get "parent" fields = None
  /\ dict_get "priority" fields
     = match issue_type issue_data with
       | Some STORY | Some EPIC => None
       | Some TASK | None =>
           option_map (fun p => NameOf (Priority_value p))
             (priority issue_data)
       end
  /\ dict_get "issuetype" fields
     = Some (IdOf match issue_type issue_data with
                  | Some STORY => "10004"
                  | Some EPIC => "10000"
                  | Some TASK | None => "10003"
                  end)
  /\ dict_get "project" fields
     = Some (KeyOf
               (if truthy project_key' then text_of project_key'
                else if truthy (project_key issue_data)
                     then text_of (project_key issue_data)
                     else JIRA_PROJECT_KEY settings)).
Proof.
  intros Hcustom H.
  apply start_field_is_custom in Hcustom as [Hp [Hi [Hpr Hpa]]].
  unfold create_issue_fields in H. cbv zeta in H.
  match type of H with
  | (if _ then _ else Some ?fs) = _ => set (base := fs) in H
  end.
  assert (Hout : fields = base
                 \/ exists account,
                      fields = dict_set "assignee" account base).
  { destruct (truthy (assignee issue_data)); [| left; congruence].
    destruct (find_user _) as [[| entry user] |]; try (left; congruence).
    destruct (dict_get "accountId" (entry :: user)); [| discriminate H].
    right. eexists. injection H as <-. reflexivity. }
  clear H.
  assert (Hget : forall k,
    String.eqb "assignee" k = false ->
    dict_get k fields = dict_get k base).
  { intros k Hk. destruct Hout as [-> | [account ->]]; [reflexivity |].
    now rewrite dict_get_set, Hk. }
  rewrite !Hget by reflexivity. clear Hget Hout. subst base.
  assert (Hlabels : forall k (fs : dict field_value),
    String.eqb "labels" k = false ->
    dict_get k
      match labels issue_data with
      | [] => fs
      | _ :: _ =>
          dict_set "labels" (StrList (normalized_labels (labels issue_data)))
            fs
      end = dict_get k fs).
  { intros k fs Hk. destruct (labels issue_data); [reflexivity |].
    now rewrite dict_get_set, Hk. }
  assert (Hsub : Py.mem
            (Py.lower
               (IssueType_value
                  match issue_type issue_data with
                  | Some t => t
                  | None => TASK
                  end)) ["sub-task"; "subtask"] = false)
    by (destruct (issue_type issue_data) as [[] |]; reflexivity).
  rewrite Hsub, andb_false_r.
  repeat rewrite ?dict_get_cond_set, ?Hlabels by reflexivity.
  rewrite ?Hp, ?Hi, ?Hpr, ?Hpa, ?andb_false_r.
  change (String.eqb "duedate" "parent") with false.
  change (String.eqb "duedate" "priority") with false.
  change (String.eqb "duedate" "issuetype") with false.
  change (String.eqb "duedate" "project") with false.
  change (String.eqb "description" "parent") with false.
  change (String.eqb "description" "priority") with false.
  change (String.eqb "description" "issuetype") with false.
  change (String.eqb "description" "project") with false.
  change (String.eqb "priority" "parent") with false.
  change (String.eqb "priority" "priority") with true.
  change (String.eqb "priority" "issuetype") with false.
  change (String.eqb "priority" "project") with false.
  rewrite ?andb_false_r, ?andb_true_r.
  cbn [dict_get].
  change (String.eqb "project" "parent") with false.
  change (String.eqb "summary" "parent") with false.
  change (String.eqb "issuetype" "parent") with false.
  change (String.eqb "project" "priority") with false.
  change (String.eqb "summary" "priority") with false.
  change (String.eqb "issuetype" "priority") with false.
  change (String.eqb "project" "issuetype") with false.
  change (String.eqb "summary" "issuetype") with false.
  change (String.eqb "issuetype" "issuetype") with true.
  change (String.eqb "project" "project") with true.
  cbv iota.
  split; [reflexivity |].
  split; [| split].
  - destruct (issue_type issue_data) as [[] |];
      destruct (priority issue_data) as [[] |]; reflexivity.
  - destruct (issue_type issue_data) as [[] |]; reflexivity.
  - unfold or_else.
    destruct (truthy project_key') eqn:E1; rewrite ?E1; [reflexivity |].
    destruct (truthy (project_key issue_data)) eqn:E2; rewrite ?E2;
      reflexivity.
Qed.

Lemma X23_create_issue_witness :
  exists fields,
    create_issue_fields (mkSettings "TEST" (Some "customfield_10015"))
      (fun _ => None)
      (set_parent_key (Some "MFLP-3")
         (set_priority (Some HIGH)
            (set_issue_type (Some STORY)
               (set_summary (Some "Login broken") empty_issue_data))))
      None = Some fields
    /\ dict_get "parent" fields = None
    /\ dict_get "priority" fields = None
    /\ dict_get "issuetype" fields = Some (IdOf "10004")
    /\ dict_get "project" fields = Some (KeyOf "TEST").
Proof.
  eexists. split; [vm_compute; reflexivity |].
  refine (X23_create_issue_fields
            (mkSettings "TEST" (Some "customfield_10015")) (fun _ => None)
            (set_parent_key (Some "MFLP-3")
               (set_priority (Some HIGH)
                  (set_issue_type (Some STORY)
                     (set_summary (Some "Login broken") empty_issue_data))))
            None _ _ _).
  - simpl. intros H.
    repeat (destruct H as [H | H]; [discriminate H |]). exact H.
  - vm_compute. reflexivity.
Defined.

(** ** The labels of the guided mode pass through unchanged *)

Lemma normalise_cons (c : ascii) (s : string) :
  Py.replace " " "-" (Py.lower (String c s))
  = String (if Ascii.eqb (Py.lower_char c) " " then "-"%char
            else Py.lower_char c)
      (Py.replace " " "-" (Py.lower s)).
Proof.
  cbn [Py.lower Py.replace].
  destruct (Ascii.eqb (Py.lower_char c) " "); reflexivity.
Qed.

Lemma normalise_char_idempotent (c : ascii) :
  let g := fun a => if Ascii.eqb (Py.lower_char a) " " then "-"%char
                    else Py.lower_char a in
  g (g c) = g c /\ (Py.isspace_char c = false -> Py.isspace_char (g c) = false).
Proof.
  destruct c as [[] [] [] [] [] [] [] []]; vm_compute; split;
    first [reflexivity | intros H; exact H | intros H; discriminate H].
Qed.

Lemma normalise_idempotent (s : string) :
  Py.replace " " "-" (Py.lower (Py.replace " " "-" (Py.lower s)))
  = Py.replace " " "-" (Py.lower s).
Proof.
  induction s as [| c s IH]; [reflexivity |].
  rewrite !normalise_cons, IH.
  now rewrite (proj1 (normalise_char_idempotent c)).
Qed.

Lemma normalise_last (s : string) :
  last_char (Py.replace " " "-" (Py.lower s))
  = option_map (fun a => if Ascii.eqb (Py.lower_char a) " " then "-"%char
                         else Py.lower_char a) (last_char s).
Proof.
  induction s as [| c s IH]; [reflexivity |].
  rewrite normalise_cons. destruct s as [| c' s']; [reflexivity |].
  rewrite normalise_cons in *. cbn [last_char] in *. exact IH.
Qed.

Lemma rstrip_fixed (s : string) :
  (forall c, last_char s = Some c -> Py.isspace_char c = false) ->
  Py.rstrip s = s.
Proof.
  induction s as [| c s IH]; [reflexivity |]. intros H.
  cbn [Py.rstrip]. destruct s as [| c' s'].
  - cbn. rewrite (H c eq_refl). reflexivity.
  - rewrite IH by (intros a Ha; apply H; exact Ha).
    cbn [Py.is_empty]. rewrite andb_false_r. reflexivity.
Qed.

(** A trimmed text, normalised, is a fixed point of the normalisation
    with its trimming. *)
Lemma normalised_label_fixed (piece : string) :
  let l := Py.replace " " "-" (Py.lower (Py.strip piece)) in
  Py.replace " " "-" (Py.lower (Py.strip l)) = l
  /\ (Py.is_empty (Py.strip piece) = false -> Py.is_empty l = false).
Proof.
  cbv zeta. split.
  - assert (Hstrip : Py.strip (Py.replace " " "-" (Py.lower (Py.strip piece)))
                     = Py.replace " " "-" (Py.lower (Py.strip piece))).
    { pose proof (strip_last piece) as Hlast.
      unfold Py.strip at 1.
      destruct (lstrip_head piece) as [He | [c [s' [He Hc]]]].
      - unfold Py.strip. rewrite He. reflexivity.
      - unfold Py.strip in *. rewrite He in *.
        rewrite (rstrip_cons_nonspace c s' Hc) in *.
        rewrite normalise_cons.
        rewrite lstrip_nonspace
          by (apply (proj2 (normalise_char_idempotent c)); exact Hc).
        rewrite <- normalise_cons. apply rstrip_fixed.
        intros a Ha. rewrite normalise_last in Ha.
        destruct (last_char (String c (Py.rstrip s'))) as [b |] eqn:Hb;
          [| discriminate Ha].
        injection Ha as <-.
        apply (proj2 (normalise_char_idempotent b)).
        now apply Hlast. }
    rewrite Hstrip. apply normalise_idempotent.
  - destruct (Py.strip piece) as [| c s]; [discriminate |].
    intros _. rewrite normalise_cons. reflexivity.
Qed.

Lemma normalized_labels_fixed (ls : list string) :
  Forall (fun l => Py.replace " " "-" (Py.lower (Py.strip l)) = l
                   /\ Py.is_empty l = false) ls ->
  normalized_labels ls = ls.
Proof.
  unfold normalized_labels.
  induction 1 as [| l ls [Hfix Hne] _ IH]; [reflexivity |].
  cbn [filter]. rewrite Hne. cbn [negb map]. now rewrite Hfix, IH.
Qed.

Lemma vocabulary_fixed :
  Forall (fun l => Py.replace " " "-" (Py.lower (Py.strip l)) = l
                   /\ Py.is_empty l = false)
    (tech_keywords ++ map fst compound_keywords).
Proof. repeat constructor. Qed.

Lemma In_firstn_In {A : Type} (n : nat) (l : list A) (x : A) :
  In x (firstn n l) -> In x l.
Proof.
  revert l. induction n as [| n IH]; intros [| a l]; cbn; try tauto.
  intros [H | H]; [now left | right; now apply IH].
Qed.

Lemma inferred_label_in_vocabulary (t x : string) :
  In x (generate_labels_from_description t) ->
  In x (tech_keywords ++ map fst compound_keywords).
Proof.
  unfold generate_labels_from_description.
  destruct (Py.is_empty t); [contradiction |].
  intros Hx. apply In_firstn_In in Hx.
  unfold all_labels, simple_labels in Hx.
  destruct (fold_add_word (Py.findall_words (Py.lower t)) [])
    as [simple [Hs [Hf _]]].
  cbn [app] in Hs. rewrite Hs in Hx.
  destruct (fold_add_compound (Py.lower t) compound_keywords simple)
    as [compound [Hc [Hfc _]]].
  rewrite Hc in Hx. apply in_app_iff in Hx. apply in_app_iff.
  rewrite Forall_forall in Hf, Hfc.
  destruct Hx as [Hx | Hx]; [left; now apply Hf | right; now apply Hfc].
Qed.

(** X24.  The labels the guided mode produces reach Jira as they are:
    the normalisation of [create_issue] changes neither the labels read
    from a labels answer nor the labels inferred from a description,
    and drops none of them. *)
Theorem X24_guided_labels_unchanged_by_service (answer description : string) :
  normalized_labels (manual_labels answer) = manual_labels answer
  /\ normalized_labels (generate_labels_from_description description)
     = generate_labels_from_description description.
Proof.
  split; apply normalized_labels_fixed; apply Forall_forall; intros x Hx.
  - unfold manual_labels in Hx. apply in_map_iff in Hx as [piece [<- Hp]].
    apply filter_In in Hp as [_ Hne]. apply negb_true_iff in Hne.
    destruct (normalised_label_fixed piece) as [H1 H2]. auto.
  - apply inferred_label_in_vocabulary in Hx.
    pose proof vocabulary_fixed as Hv. rewrite Forall_forall in Hv.
    now apply Hv.
Qed.

End Service.
